(** * The Mesos slave (node agent): a shallow embedding of src/slave/slave.cpp

    The slave is a single actor: every handler runs to completion on the
    in-memory graph  frameworks -> executors -> tasks  and emits messages,
    dispatches to the isolation module and timers.  A handler is embedded as
    a function from the state before to the state after together with the
    list of effects it emitted, in emission order; [None] is a failed CHECK
    or a LOG(FATAL), which ends the process.

    Embedded: the [Executor] and [Framework] structs with their methods,
    every protobuf, message, timer and isolation-module handler of [Slave],
    the shutdown on TERMINATE, [getUniqueWorkDirectory], and the two HTTP
    handlers that walk the frameworks map.
    Left out: the HTTP handlers that print the clock and the build constants,
    [getState], and option registration. *)

From stdpp Require Import gmap strings list fin_maps pretty.
From Stdlib Require Import ZArith PrimFloat.

(** ** Identifiers and endpoints

    FrameworkID, ExecutorID, TaskID and SlaveID are protobuf wrappers around
    one string.  A UPID is a libprocess endpoint; the default-constructed
    UPID() is the empty one, and [!pid] tests for it. *)

Abbreviation FrameworkID := string (only parsing).
Abbreviation ExecutorID := string (only parsing).
Abbreviation TaskID := string (only parsing).
Abbreviation SlaveID := string (only parsing).
Abbreviation UPID := string (only parsing).

Definition UPID_empty : UPID := "".

Definition pid_unset (pid : UPID) : bool := bool_decide (pid = UPID_empty).

Inductive TaskState :=
| TASK_STARTING | TASK_RUNNING | TASK_FINISHED | TASK_FAILED | TASK_KILLED | TASK_LOST.

#[global] Instance TaskState_eq_dec : EqDecision TaskState.
Proof. solve_decision. Defined.

(** The test of [Slave::statusUpdate]: FINISHED || FAILED || KILLED || LOST. *)
Definition terminal (st : TaskState) : bool :=
  match st with
  | TASK_FINISHED | TASK_FAILED | TASK_KILLED | TASK_LOST => true
  | TASK_STARTING | TASK_RUNNING => false
  end.

(** ** Resource bundles

    [Resources] (common/resources.hpp) is not part of slave.cpp; the slave
    only uses the default (empty) bundle, [+=] and [-=].  The bundle type is
    a parameter with these three operations. *)

Class ResourceOps (R : Type) := {
  rzero : R;
  radd : R → R → R;
  rsub : R → R → R
}.

(** The laws of an exact component-wise sum.  They are an assumption, named
    wherever a statement needs it: nothing in slave.cpp provides them, and
    they do not hold of every bundle.  With floating-point scalars
    [(a + b) - b] is rounded twice and need not be [a]; with set- or
    range-valued components that overlap, subtracting [b] takes away what
    [a] held as well. *)
Class ResourceLaws (R : Type) `{ResourceOps R} : Prop := {
  radd_comm : ∀ a b : R, radd a b = radd b a;
  radd_assoc : ∀ a b c : R, radd (radd a b) c = radd a (radd b c);
  rsub_radd : ∀ a b : R, rsub (radd a b) b = a
}.

#[global] Instance Z_ResourceOps : ResourceOps Z :=
  {| rzero := 0%Z; radd := Z.add; rsub := Z.sub |}.

#[global] Instance Z_ResourceLaws : ResourceLaws Z.
Proof. split; simpl; intros; lia. Qed.

(** Modelled from the spec: a bundle maps a resource name to a scalar value.
    This is the bundle that holds the one scalar [cpus], a double as
    [Resource::Scalar] has it: [+=] and [-=] are floating-point addition and
    subtraction.  There is no [ResourceLaws] instance for it. *)
#[global] Instance float_ResourceOps : ResourceOps float :=
  {| rzero := 0%float; radd := PrimFloat.add; rsub := PrimFloat.sub |}.

(** ** Statistics

    The counters of [stats] are declared in slave.hpp, as unsigned 64-bit
    integers; [++] wraps around. *)

Definition incr (c : Z) : Z := ((c + 1) mod 2 ^ 64)%Z.

Record Stats := {
  tasks : TaskState → Z;
  validStatusUpdates : Z;
  invalidStatusUpdates : Z;
  validFrameworkMessages : Z;
  invalidFrameworkMessages : Z
}.

Definition incr_tasks (st : TaskState) (x : Stats) : Stats :=
  {| tasks := λ st', if decide (st' = st) then incr (tasks x st) else tasks x st';
     validStatusUpdates := validStatusUpdates x;
     invalidStatusUpdates := invalidStatusUpdates x;
     validFrameworkMessages := validFrameworkMessages x;
     invalidFrameworkMessages := invalidFrameworkMessages x |}.

Definition incr_validStatusUpdates (x : Stats) : Stats :=
  {| tasks := tasks x;
     validStatusUpdates := incr (validStatusUpdates x);
     invalidStatusUpdates := invalidStatusUpdates x;
     validFrameworkMessages := validFrameworkMessages x;
     invalidFrameworkMessages := invalidFrameworkMessages x |}.

Definition incr_invalidStatusUpdates (x : Stats) : Stats :=
  {| tasks := tasks x;
     validStatusUpdates := validStatusUpdates x;
     invalidStatusUpdates := incr (invalidStatusUpdates x);
     validFrameworkMessages := validFrameworkMessages x;
     invalidFrameworkMessages := invalidFrameworkMessages x |}.

Definition incr_validFrameworkMessages (x : Stats) : Stats :=
  {| tasks := tasks x;
     validStatusUpdates := validStatusUpdates x;
     invalidStatusUpdates := invalidStatusUpdates x;
     validFrameworkMessages := incr (validFrameworkMessages x);
     invalidFrameworkMessages := invalidFrameworkMessages x |}.

Definition incr_invalidFrameworkMessages (x : Stats) : Stats :=
  {| tasks := tasks x;
     validStatusUpdates := validStatusUpdates x;
     invalidStatusUpdates := invalidStatusUpdates x;
     validFrameworkMessages := validFrameworkMessages x;
     invalidFrameworkMessages := incr (invalidFrameworkMessages x) |}.

(** [Slave::initialize]: every statistic starts at 0. *)
Definition stats_init : Stats :=
  {| tasks := λ _, 0%Z;
     validStatusUpdates := 0;
     invalidStatusUpdates := 0;
     validFrameworkMessages := 0;
     invalidFrameworkMessages := 0 |}.

(** ** Protobuf records that carry no resources *)

Record ExecutorInfo := {
  ei_executor_id : ExecutorID;
  ei_uri : string;
  ei_data : string
}.

Record FrameworkInfo := {
  fi_name : string;
  fi_user : string;
  fi_executor : ExecutorInfo
}.

Record TaskStatus := {
  ts_task_id : TaskID;
  ts_state : TaskState;
  ts_data : string
}.

(** [executor_id] is optional: the updates [killTask] fabricates for an
    unknown framework or task leave it unset.  [su_timestamp] is the reading
    of [elapsedTime()], carried as an opaque value. *)
Record StatusUpdate := {
  su_framework_id : FrameworkID;
  su_executor_id : option ExecutorID;
  su_slave_id : SlaveID;
  su_status : TaskStatus;
  su_timestamp : Z;
  su_sequence : Z
}.

Record ExecutorArgs := {
  ea_framework_id : FrameworkID;
  ea_executor_id : ExecutorID;
  ea_slave_id : SlaveID;
  ea_hostname : string;
  ea_data : string
}.

(** ** hashmap

    [hashmap<K,V>] (common/hashmap.hpp, not part of slave.cpp) is an
    unordered map: it keeps no record of the order of insertion.  The
    embedding takes the traversal of [foreachvalue] and [foreachpair] to be a
    function of the stored entries, the one of [map_to_list]. *)
Definition hashmap_items {V : Type} (m : gmap string V) : list (string * V) :=
  map_to_list m.

Definition hashmap_values {V : Type} (m : gmap string V) : list V :=
  (hashmap_items m).*2.

Definition contains {V : Type} (m : gmap string V) (k : string) : bool :=
  bool_decide (is_Some (m !! k)).

Section slave.
Context {R : Type} `{!ResourceOps R}.

(** ** Protobuf records that carry resources *)

Record TaskDescription := {
  td_name : string;
  td_task_id : TaskID;
  td_slave_id : SlaveID;
  td_resources : R;
  td_executor : option ExecutorInfo;
  td_data : string
}.

Record Task := {
  t_name : string;
  t_task_id : TaskID;
  t_framework_id : FrameworkID;
  t_executor_id : ExecutorID;
  t_slave_id : SlaveID;
  t_state : TaskState;
  t_resources : R
}.

Record SlaveInfo := {
  si_hostname : string;
  si_public_hostname : string;
  si_resources : R
}.

(** ** The object graph *)

(** [struct Executor]. *)
Record Executor := {
  e_id : ExecutorID;
  e_info : ExecutorInfo;
  e_frameworkId : FrameworkID;
  e_directory : string;
  e_pid : UPID;
  e_resources : R;
  queuedTasks : gmap string TaskDescription;
  launchedTasks : gmap string Task
}.

(** [struct Framework]. *)
Record Framework := {
  f_id : FrameworkID;
  f_info : FrameworkInfo;
  f_pid : UPID;
  executors : gmap string Executor;
  updates : gmap string StatusUpdate
}.

(** The data members of [class Slave] that the handlers read or write. *)
Record Slave := {
  s_id : SlaveID;
  s_info : SlaveInfo;
  s_master : UPID;
  frameworks : gmap string Framework;
  stats : Stats
}.

(** ** What a handler emits *)

Inductive Message :=
| RegisterSlaveMessage (slave : SlaveInfo)
| ReregisterSlaveMessage (slave_id : SlaveID) (slave : SlaveInfo) (tasks : list Task)
| StatusUpdateMessage (update : StatusUpdate) (reliable : bool)
| ExitedExecutorMessage (slave_id : SlaveID) (framework_id : FrameworkID)
    (executor_id : ExecutorID) (status : Z)
| ExecutorToFrameworkMessage (slave_id : SlaveID) (framework_id : FrameworkID)
    (executor_id : ExecutorID) (data : string)
| FrameworkToExecutorMessage (slave_id : SlaveID) (framework_id : FrameworkID)
    (executor_id : ExecutorID) (data : string)
| ExecutorRegisteredMessage (args : ExecutorArgs)
| RunTaskMessage (framework : FrameworkInfo) (framework_id : FrameworkID)
    (pid : UPID) (task : TaskDescription)
| KillTaskMessage (framework_id : FrameworkID) (task_id : TaskID)
| ShutdownMessage
| PONG.

(** [send], [link], [dispatch(isolationModule, ...)] and [delay]. *)
Inductive Effect :=
| Send (to : UPID) (m : Message)
| Link (pid : UPID)
| LaunchExecutor (frameworkId : FrameworkID) (frameworkInfo : FrameworkInfo)
    (executorInfo : ExecutorInfo) (directory : string)
| ResourcesChanged (frameworkId : FrameworkID) (executorId : ExecutorID) (resources : R)
| KillExecutor (frameworkId : FrameworkID) (executorId : ExecutorID)
| DelayStatusUpdateTimeout (update : StatusUpdate).

(** ** Field updates (assignments through the object pointers) *)

Definition set_e_pid (pid : UPID) (e : Executor) : Executor :=
  {| e_id := e_id e; e_info := e_info e; e_frameworkId := e_frameworkId e;
     e_directory := e_directory e; e_pid := pid; e_resources := e_resources e;
     queuedTasks := queuedTasks e; launchedTasks := launchedTasks e |}.

Definition set_e_resources (r : R) (e : Executor) : Executor :=
  {| e_id := e_id e; e_info := e_info e; e_frameworkId := e_frameworkId e;
     e_directory := e_directory e; e_pid := e_pid e; e_resources := r;
     queuedTasks := queuedTasks e; launchedTasks := launchedTasks e |}.

Definition set_queuedTasks (q : gmap string TaskDescription) (e : Executor) : Executor :=
  {| e_id := e_id e; e_info := e_info e; e_frameworkId := e_frameworkId e;
     e_directory := e_directory e; e_pid := e_pid e; e_resources := e_resources e;
     queuedTasks := q; launchedTasks := launchedTasks e |}.

Definition set_launchedTasks (l : gmap string Task) (e : Executor) : Executor :=
  {| e_id := e_id e; e_info := e_info e; e_frameworkId := e_frameworkId e;
     e_directory := e_directory e; e_pid := e_pid e; e_resources := e_resources e;
     queuedTasks := queuedTasks e; launchedTasks := l |}.

Definition set_t_state (st : TaskState) (t : Task) : Task :=
  {| t_name := t_name t; t_task_id := t_task_id t; t_framework_id := t_framework_id t;
     t_executor_id := t_executor_id t; t_slave_id := t_slave_id t; t_state := st;
     t_resources := t_resources t |}.

Definition set_f_pid (pid : UPID) (f : Framework) : Framework :=
  {| f_id := f_id f; f_info := f_info f; f_pid := pid;
     executors := executors f; updates := updates f |}.

Definition set_executors (es : gmap string Executor) (f : Framework) : Framework :=
  {| f_id := f_id f; f_info := f_info f; f_pid := f_pid f;
     executors := es; updates := updates f |}.

Definition set_updates (us : gmap string StatusUpdate) (f : Framework) : Framework :=
  {| f_id := f_id f; f_info := f_info f; f_pid := f_pid f;
     executors := executors f; updates := us |}.

Definition set_s_id (i : SlaveID) (s : Slave) : Slave :=
  {| s_id := i; s_info := s_info s; s_master := s_master s;
     frameworks := frameworks s; stats := stats s |}.

Definition set_s_master (m : UPID) (s : Slave) : Slave :=
  {| s_id := s_id s; s_info := s_info s; s_master := m;
     frameworks := frameworks s; stats := stats s |}.

Definition set_frameworks (fs : gmap string Framework) (s : Slave) : Slave :=
  {| s_id := s_id s; s_info := s_info s; s_master := s_master s;
     frameworks := fs; stats := stats s |}.

Definition set_stats (x : Stats) (s : Slave) : Slave :=
  {| s_id := s_id s; s_info := s_info s; s_master := s_master s;
     frameworks := frameworks s; stats := x |}.

(** A handler holds [Framework* framework] and [Executor* executor] into
    the maps and assigns through them; the embedding writes the updated
    record back under the key the pointer was found at. *)
Definition store_executor (k : ExecutorID) (e : Executor) (f : Framework) : Framework :=
  set_executors (<[k := e]> (executors f)) f.

Definition store_framework (k : FrameworkID) (f : Framework) (s : Slave) : Slave :=
  set_frameworks (<[k := f]> (frameworks s)) s.

(** ** Executor methods *)

(** [Executor::Executor]: [pid(UPID())], empty resources and maps. *)
Definition new_Executor (frameworkId : FrameworkID) (info : ExecutorInfo)
    (directory : string) : Executor :=
  {| e_id := ei_executor_id info; e_info := info; e_frameworkId := frameworkId;
     e_directory := directory; e_pid := UPID_empty; e_resources := rzero;
     queuedTasks := ∅; launchedTasks := ∅ |}.

(** The [Task] record [Executor::addTask] builds. *)
Definition new_Task (e : Executor) (task : TaskDescription) : Task :=
  {| t_name := td_name task; t_task_id := td_task_id task;
     t_framework_id := e_frameworkId e; t_executor_id := e_id e;
     t_slave_id := td_slave_id task; t_state := TASK_STARTING;
     t_resources := td_resources task |}.

(** [Executor::addTask]; [None] is the failed
    [CHECK(!launchedTasks.contains(task.task_id()))]. *)
Definition addTask (task : TaskDescription) (e : Executor) : option Executor :=
  if contains (launchedTasks e) (td_task_id task) then None
  else Some (set_e_resources (radd (e_resources e) (td_resources task))
               (set_launchedTasks (<[td_task_id task := new_Task e task]> (launchedTasks e)) e)).

(** [Executor::removeTask].  The loop [resources -= resource] over the
    components of the task's bundle subtracts that bundle. *)
Definition removeTask (taskId : TaskID) (e : Executor) : Executor :=
  let e1 := set_queuedTasks (delete taskId (queuedTasks e)) e in
  match launchedTasks e1 !! taskId with
  | Some task =>
      set_launchedTasks (delete taskId (launchedTasks e1))
        (set_e_resources (rsub (e_resources e1) (t_resources task)) e1)
  | None => e1
  end.

(** [Executor::updateTaskState]. *)
Definition updateTaskState (taskId : TaskID) (st : TaskState) (e : Executor) : Executor :=
  match launchedTasks e !! taskId with
  | Some task => set_launchedTasks (<[taskId := set_t_state st task]> (launchedTasks e)) e
  | None => e
  end.

(** ** Framework methods *)

(** [Framework::Framework]. *)
Definition new_Framework (i : FrameworkID) (info : FrameworkInfo) (pid : UPID) : Framework :=
  {| f_id := i; f_info := info; f_pid := pid; executors := ∅; updates := ∅ |}.

(** [Framework::createExecutor]; [None] is the failed
    [CHECK(!executors.contains(executorInfo.executor_id()))]. *)
Definition createExecutor (executorInfo : ExecutorInfo) (directory : string)
    (f : Framework) : option (Executor * Framework) :=
  let executor := new_Executor (f_id f) executorInfo directory in
  if contains (executors f) (ei_executor_id executorInfo) then None
  else Some (executor, store_executor (ei_executor_id executorInfo) executor f).

(** [Framework::destroyExecutor]. *)
Definition destroyExecutor (executorId : ExecutorID) (f : Framework) : Framework :=
  if contains (executors f) executorId
  then set_executors (delete executorId (executors f)) f
  else f.

(** [Framework::getExecutor(const ExecutorID&)]. *)
Definition getExecutor (executorId : ExecutorID) (f : Framework) : option Executor :=
  executors f !! executorId.

(** [Framework::getExecutor(const TaskID&)]: the first executor, in the
    traversal of [executors], that has the task queued or launched; returned
    with the key it is stored at. *)
Definition getExecutor_task (taskId : TaskID) (f : Framework) : option (ExecutorID * Executor) :=
  List.find (λ ke, contains (queuedTasks ke.2) taskId || contains (launchedTasks ke.2) taskId)
    (hashmap_items (executors f)).

(** [Slave::getFramework]. *)
Definition getFramework (frameworkId : FrameworkID) (s : Slave) : option Framework :=
  frameworks s !! frameworkId.

(** ** Handlers

    Each takes the arguments of the C++ handler, plus what it reads from its
    environment ([from()], [elapsedTime()], the directory that
    [getUniqueWorkDirectory] finds on disk), and the state. *)

Definition Result : Type := option (Slave * list Effect).

(** [ReregisterSlaveMessage.tasks]: the three nested [foreachvalue] loops. *)
Definition running_tasks (s : Slave) : list Task :=
  flat_map (λ framework : Framework,
    flat_map (λ executor : Executor, hashmap_values (launchedTasks executor))
      (hashmap_values (executors framework)))
    (hashmap_values (frameworks s)).

(** [Slave::newMasterDetected]. *)
Definition newMasterDetected (pid : UPID) (s : Slave) : Result :=
  let s1 := set_s_master pid s in
  if bool_decide (s_id s1 = "") then
    Some (s1, [Link pid; Send (s_master s1) (RegisterSlaveMessage (s_info s1))])
  else
    Some (s1, [Link pid;
               Send (s_master s1)
                 (ReregisterSlaveMessage (s_id s1) (s_info s1) (running_tasks s1))]).

(** [Slave::noMasterDetected]. *)
Definition noMasterDetected (s : Slave) : Result := Some (s, []).

(** [Slave::registered]. *)
Definition registered (slaveId : SlaveID) (s : Slave) : Result :=
  Some (set_s_id slaveId s, []).

(** [Slave::reregistered]; a wrong id is LOG(FATAL). *)
Definition reregistered (slaveId : SlaveID) (s : Slave) : Result :=
  if bool_decide (s_id s = slaveId) then Some (s, []) else None.

(** [Slave::runTask]. *)
Definition runTask (frameworkInfo : FrameworkInfo) (frameworkId : FrameworkID)
    (pid : UPID) (task : TaskDescription) (directory : string) (s : Slave) : Result :=
  let framework :=
    match getFramework frameworkId s with
    | Some framework => framework
    | None => new_Framework frameworkId frameworkInfo pid
    end in
  let executorInfo :=
    match td_executor task with
    | Some executorInfo => executorInfo
    | None => fi_executor (f_info framework)
    end in
  let executorId := ei_executor_id executorInfo in
  match getExecutor executorId framework with
  | Some executor =>
      if pid_unset (e_pid executor) then
        let executor' :=
          set_queuedTasks (<[td_task_id task := task]> (queuedTasks executor)) executor in
        Some (store_framework frameworkId (store_executor executorId executor' framework) s, [])
      else
        executor' ← addTask task executor;
        Some (set_stats (incr_tasks TASK_STARTING (stats s))
                (store_framework frameworkId (store_executor executorId executor' framework) s),
              [Send (e_pid executor')
                 (RunTaskMessage (f_info framework) (f_id framework) (f_pid framework) task);
               ResourcesChanged (f_id framework) (e_id executor') (e_resources executor')])
  | None =>
      '(executor, framework') ← createExecutor executorInfo directory framework;
      let executor' :=
        set_queuedTasks (<[td_task_id task := task]> (queuedTasks executor)) executor in
      Some (store_framework frameworkId (store_executor executorId executor' framework') s,
            [LaunchExecutor (f_id framework') (f_info framework') (e_info executor') directory])
  end.

(** The update that [killTask] fabricates. *)
Definition fabricated (frameworkId : FrameworkID) (executorId : option ExecutorID)
    (slaveId : SlaveID) (taskId : TaskID) (st : TaskState) (now : Z) (sequence : Z)
    : StatusUpdate :=
  {| su_framework_id := frameworkId; su_executor_id := executorId;
     su_slave_id := slaveId;
     su_status := {| ts_task_id := taskId; ts_state := st; ts_data := "" |};
     su_timestamp := now; su_sequence := sequence |}.

(** [Slave::killTask]; [now] is [elapsedTime()]. *)
Definition killTask (frameworkId : FrameworkID) (taskId : TaskID) (now : Z)
    (s : Slave) : Result :=
  match getFramework frameworkId s with
  | None =>
      Some (s, [Send (s_master s)
                  (StatusUpdateMessage
                     (fabricated frameworkId None (s_id s) taskId TASK_LOST now (-1)) false)])
  | Some framework =>
      match getExecutor_task taskId framework with
      | None =>
          Some (s, [Send (s_master s)
                      (StatusUpdateMessage
                         (fabricated (f_id framework) None (s_id s) taskId TASK_LOST now (-1))
                         false)])
      | Some (k, executor) =>
          if pid_unset (e_pid executor) then
            let executor' := removeTask taskId executor in
            Some (store_framework frameworkId (store_executor k executor' framework) s,
                  [ResourcesChanged (f_id framework) (e_id executor') (e_resources executor');
                   Send (s_master s)
                     (StatusUpdateMessage
                        (fabricated (f_id framework) (Some (e_id executor')) (s_id s)
                           taskId TASK_KILLED now 0)
                        false)])
          else
            Some (s, [Send (e_pid executor) (KillTaskMessage frameworkId taskId)])
      end
  end.

(** [Slave::removeExecutor]: the framework after, and what was emitted. *)
Definition removeExecutor (framework : Framework) (executor : Executor)
    (killExecutor : bool) : Framework * list Effect :=
  (destroyExecutor (e_id executor) framework,
   if killExecutor
   then [Send (e_pid executor) ShutdownMessage;
         KillExecutor (f_id framework) (e_id executor)]
   else []).

(** The loop of [Slave::removeFramework] over [utils::copy(framework->executors)]. *)
Fixpoint removeExecutors (es : list Executor) (killExecutors : bool)
    (framework : Framework) : Framework * list Effect :=
  match es with
  | [] => (framework, [])
  | executor :: es' =>
      let '(framework1, out1) := removeExecutor framework executor killExecutors in
      let '(framework2, out2) := removeExecutors es' killExecutors framework1 in
      (framework2, out1 ++ out2)
  end.

(** [Slave::removeFramework]; [k] is the key [framework] is stored at. *)
Definition removeFramework (k : FrameworkID) (framework : Framework)
    (killExecutors : bool) (s : Slave) : Slave * list Effect :=
  let '(framework', out) :=
    removeExecutors (hashmap_values (executors framework)) killExecutors framework in
  (set_frameworks (delete (f_id framework') (<[k := framework']> (frameworks s))) s, out).

(** [Slave::killFramework]. *)
Definition killFramework (frameworkId : FrameworkID) (s : Slave) : Result :=
  match getFramework frameworkId s with
  | Some framework => Some (removeFramework frameworkId framework true s)
  | None => Some (s, [])
  end.

(** [Slave::schedulerMessage]. *)
Definition schedulerMessage (slaveId : SlaveID) (frameworkId : FrameworkID)
    (executorId : ExecutorID) (data : string) (s : Slave) : Result :=
  match getFramework frameworkId s with
  | None => Some (set_stats (incr_invalidFrameworkMessages (stats s)) s, [])
  | Some framework =>
      match getExecutor executorId framework with
      | None => Some (set_stats (incr_invalidFrameworkMessages (stats s)) s, [])
      | Some executor =>
          if pid_unset (e_pid executor) then
            Some (set_stats (incr_invalidFrameworkMessages (stats s)) s, [])
          else
            Some (set_stats (incr_validFrameworkMessages (stats s)) s,
                  [Send (e_pid executor)
                     (FrameworkToExecutorMessage slaveId frameworkId executorId data)])
      end
  end.

(** [Slave::updateFramework]. *)
Definition updateFramework (frameworkId : FrameworkID) (pid : UPID) (s : Slave) : Result :=
  match getFramework frameworkId s with
  | Some framework => Some (store_framework frameworkId (set_f_pid pid framework) s, [])
  | None => Some (s, [])
  end.

(** [Slave::statusUpdateAcknowledgement]. *)
Definition statusUpdateAcknowledgement (slaveId : SlaveID) (frameworkId : FrameworkID)
    (taskId : TaskID) (s : Slave) : Result :=
  match getFramework frameworkId s with
  | Some framework =>
      if contains (updates framework) taskId then
        Some (store_framework frameworkId
                (set_updates (delete taskId (updates framework)) framework) s, [])
      else Some (s, [])
  | None => Some (s, [])
  end.

(** The flush loop of [Slave::registerExecutor] over the queued tasks
    [ts], in traversal order: the executor and statistics after, and the
    messages sent. *)
Fixpoint flush (framework : Framework) (ts : list TaskDescription)
    (executor : Executor) (x : Stats) : option (Executor * Stats * list Effect) :=
  match ts with
  | [] => Some (executor, x, [])
  | task :: ts' =>
      executor1 ← addTask task executor;
      '(executor2, x2, out) ← flush framework ts' executor1 (incr_tasks TASK_STARTING x);
      Some (executor2, x2,
            Send (e_pid executor1)
              (RunTaskMessage (f_info framework) (f_id framework) (f_pid framework) task)
            :: out)
  end.

(** [Slave::registerExecutor]; [from] is the sender, [from()]. *)
Definition registerExecutor (from : UPID) (frameworkId : FrameworkID)
    (executorId : ExecutorID) (s : Slave) : Result :=
  match getFramework frameworkId s with
  | None => Some (s, [Send from ShutdownMessage])
  | Some framework =>
      match getExecutor executorId framework with
      | None => Some (s, [Send from ShutdownMessage])
      | Some executor =>
          if bool_decide (e_pid executor ≠ UPID_empty) then
            Some (s, [Send from ShutdownMessage])
          else
            let executor1 := set_e_pid from executor in
            '(executor2, x, out) ←
              flush framework (hashmap_values (queuedTasks executor1)) executor1 (stats s);
            let executor3 := set_queuedTasks ∅ executor2 in
            Some (set_stats x
                    (store_framework frameworkId
                       (store_executor executorId executor3 framework) s),
                  ResourcesChanged (f_id framework) (e_id executor1) (e_resources executor1)
                  :: Send (e_pid executor1)
                       (ExecutorRegisteredMessage
                          {| ea_framework_id := f_id framework;
                             ea_executor_id := e_id executor1;
                             ea_slave_id := s_id s;
                             ea_hostname := si_hostname (s_info s);
                             ea_data := ei_data (e_info executor1) |})
                  :: out)
      end
  end.

(** [Slave::statusUpdate]. *)
Definition statusUpdate (update : StatusUpdate) (s : Slave) : Result :=
  let status := su_status update in
  match getFramework (su_framework_id update) s with
  | Some framework =>
      match getExecutor_task (ts_task_id status) framework with
      | Some (k, executor) =>
          let executor1 := updateTaskState (ts_task_id status) (ts_state status) executor in
          let executor2 :=
            if terminal (ts_state status)
            then removeTask (ts_task_id status) executor1 else executor1 in
          let framework1 := store_executor k executor2 framework in
          let framework2 :=
            set_updates (<[ts_task_id status := update]> (updates framework1)) framework1 in
          Some (set_stats
                  (incr_validStatusUpdates (incr_tasks (ts_state status) (stats s)))
                  (store_framework (su_framework_id update) framework2 s),
                (if terminal (ts_state status)
                 then [ResourcesChanged (f_id framework) (e_id executor2)
                         (e_resources executor2)]
                 else [])
                ++ [Send (s_master s) (StatusUpdateMessage update true);
                    DelayStatusUpdateTimeout update])
      | None => Some (set_stats (incr_invalidStatusUpdates (stats s)) s, [])
      end
  | None => Some (set_stats (incr_invalidStatusUpdates (stats s)) s, [])
  end.

(** [Slave::executorMessage]. *)
Definition executorMessage (slaveId : SlaveID) (frameworkId : FrameworkID)
    (executorId : ExecutorID) (data : string) (s : Slave) : Result :=
  match getFramework frameworkId s with
  | None => Some (set_stats (incr_invalidFrameworkMessages (stats s)) s, [])
  | Some framework =>
      Some (set_stats (incr_validFrameworkMessages (stats s)) s,
            [Send (f_pid framework)
               (ExecutorToFrameworkMessage slaveId frameworkId executorId data)])
  end.

(** [Slave::ping]. *)
Definition ping (from : UPID) (s : Slave) : Result := Some (s, [Send from PONG]).

(** [Slave::statusUpdateTimeout]. *)
Definition statusUpdateTimeout (update : StatusUpdate) (s : Slave) : Result :=
  match getFramework (su_framework_id update) s with
  | Some framework =>
      if contains (updates framework) (ts_task_id (su_status update)) then
        Some (s, [Send (s_master s) (StatusUpdateMessage update true)])
      else Some (s, [])
  | None => Some (s, [])
  end.

(** [Slave::exited]: logs only. *)
Definition exited (from : UPID) (s : Slave) : Result := Some (s, []).

(** [Slave::executorStarted]: empty body. *)
Definition executorStarted (frameworkId : FrameworkID) (executorId : ExecutorID)
    (pid : Z) (s : Slave) : Result := Some (s, []).

(** [Slave::executorExited]. *)
Definition executorExited (frameworkId : FrameworkID) (executorId : ExecutorID)
    (status : Z) (s : Slave) : Result :=
  match getFramework frameworkId s with
  | None => Some (s, [])
  | Some framework =>
      match getExecutor executorId framework with
      | None => Some (s, [])
      | Some executor =>
          let out1 :=
            [Send (s_master s)
               (ExitedExecutorMessage (s_id s) frameworkId executorId status)] in
          let '(framework1, out2) := removeExecutor framework executor false in
          if bool_decide (size (executors framework1) = 0) then
            let '(s', out3) := removeFramework frameworkId framework1 true s in
            Some (s', out1 ++ out2 ++ out3)
          else
            Some (store_framework frameworkId framework1 s, out1 ++ out2)
      end
  end.

(** ** The event loop *)

(** What [serve] hands to a handler: the installed protobuf and message
    handlers, the timer, and the two callbacks of the isolation module. *)
Inductive Event :=
| NewMasterDetected (pid : UPID)
| NoMasterDetected
| SlaveRegistered (slaveId : SlaveID)
| SlaveReregistered (slaveId : SlaveID)
| RunTask (frameworkInfo : FrameworkInfo) (frameworkId : FrameworkID) (pid : UPID)
    (task : TaskDescription) (directory : string)
| KillTask (frameworkId : FrameworkID) (taskId : TaskID) (now : Z)
| KillFramework (frameworkId : FrameworkID)
| FrameworkToExecutor (slaveId : SlaveID) (frameworkId : FrameworkID)
    (executorId : ExecutorID) (data : string)
| UpdateFramework (frameworkId : FrameworkID) (pid : UPID)
| StatusUpdateAcknowledgement (slaveId : SlaveID) (frameworkId : FrameworkID)
    (taskId : TaskID)
| RegisterExecutor (from : UPID) (frameworkId : FrameworkID) (executorId : ExecutorID)
| StatusUpdateEvent (update : StatusUpdate)
| ExecutorToFramework (slaveId : SlaveID) (frameworkId : FrameworkID)
    (executorId : ExecutorID) (data : string)
| Ping (from : UPID)
| StatusUpdateTimeout (update : StatusUpdate)
| Exited (from : UPID)
| ExecutorStarted (frameworkId : FrameworkID) (executorId : ExecutorID) (pid : Z)
| ExecutorExited (frameworkId : FrameworkID) (executorId : ExecutorID) (status : Z).

Definition handle (ev : Event) (s : Slave) : Result :=
  match ev with
  | NewMasterDetected pid => newMasterDetected pid s
  | NoMasterDetected => noMasterDetected s
  | SlaveRegistered slaveId => registered slaveId s
  | SlaveReregistered slaveId => reregistered slaveId s
  | RunTask frameworkInfo frameworkId pid task directory =>
      runTask frameworkInfo frameworkId pid task directory s
  | KillTask frameworkId taskId now => killTask frameworkId taskId now s
  | KillFramework frameworkId => killFramework frameworkId s
  | FrameworkToExecutor slaveId frameworkId executorId data =>
      schedulerMessage slaveId frameworkId executorId data s
  | UpdateFramework frameworkId pid => updateFramework frameworkId pid s
  | StatusUpdateAcknowledgement slaveId frameworkId taskId =>
      statusUpdateAcknowledgement slaveId frameworkId taskId s
  | RegisterExecutor from frameworkId executorId =>
      registerExecutor from frameworkId executorId s
  | StatusUpdateEvent update => statusUpdate update s
  | ExecutorToFramework slaveId frameworkId executorId data =>
      executorMessage slaveId frameworkId executorId data s
  | Ping from => ping from s
  | StatusUpdateTimeout update => statusUpdateTimeout update s
  | Exited from => exited from s
  | ExecutorStarted frameworkId executorId pid => executorStarted frameworkId executorId pid s
  | ExecutorExited frameworkId executorId status =>
      executorExited frameworkId executorId status s
  end.

(** A message that [serve] delivers has a sender: [from()] is never the
    empty UPID. *)
Definition delivered (ev : Event) : Prop :=
  match ev with
  | RegisterExecutor from _ _ | Ping from | Exited from => from ≠ UPID_empty
  | _ => True
  end.

(** The state [Slave::Slave] and [initialize] leave: no slave id, no master,
    no framework. *)
Definition initial (info : SlaveInfo) : Slave :=
  {| s_id := ""; s_info := info; s_master := UPID_empty;
     frameworks := ∅; stats := stats_init |}.

(** The states the slave is in between two handler executions. *)
Inductive reachable : Slave → Prop :=
| reachable_initial info : reachable (initial info)
| reachable_handle s ev s' out :
    reachable s → delivered ev → handle ev s = Some (s', out) → reachable s'.

(** Serving a list of events in order, collecting what was emitted. *)
Fixpoint serve (evs : list Event) (s : Slave) : Result :=
  match evs with
  | [] => Some (s, [])
  | ev :: evs' =>
      '(s1, out1) ← handle ev s;
      '(s2, out2) ← serve evs' s1;
      Some (s2, out1 ++ out2)
  end.


(** ** Shutdown

    The TERMINATE branch of [Slave::operator()]:
    [foreachvalue (Framework* framework, utils::copy(frameworks))
       removeFramework(framework)].  The loop runs over a copy of the map, so
    each framework is visited with the record it had when the loop started;
    the isolation module is stopped afterwards. *)
Fixpoint removeFrameworks (fs : list (FrameworkID * Framework)) (s : Slave)
    : Slave * list Effect :=
  match fs with
  | [] => (s, [])
  | (k, framework) :: fs' =>
      let '(s1, out1) := removeFramework k framework true s in
      let '(s2, out2) := removeFrameworks fs' s1 in
      (s2, out1 ++ out2)
  end.

Definition terminate (s : Slave) : Slave * list Effect :=
  removeFrameworks (hashmap_items (frameworks s)) s.

(** ** Work directories *)











(** ** The HTTP handlers that print strings only *)



Fixpoint string_drop (n : nat) (s : string) : string :=
  match n, s with
  | S n', String _ s' => string_drop n' s'
  | _, _ => s
  end.














Section tasks_json.
(** [Resources::getScalar] and the printing of a double and of the
    [TaskState] enum are not part of slave.cpp: [scalar_text name resources]
    is what [out << resources.getScalar(name, Resource::Scalar()).value()]
    writes, [state_text st] what [out << task->state()] writes. *)
Variable scalar_text : string → R → string.
Variable state_text : TaskState → string.



End tasks_json.
End slave.

Arguments TaskDescription R : clear implicits.
Arguments Task R : clear implicits.
Arguments SlaveInfo R : clear implicits.
Arguments Executor R : clear implicits.
Arguments Framework R : clear implicits.
Arguments Slave R : clear implicits.
Arguments Message R : clear implicits.
Arguments Effect R : clear implicits.
Arguments Event R : clear implicits.
Arguments Result R : clear implicits.

(** ** Derived notions used in the statements *)

Section notions.
Context {R : Type} `{!ResourceOps R}.

(** The executor stored at [executorId] of framework [frameworkId]. *)
Definition executor_at (frameworkId : FrameworkID) (executorId : ExecutorID)
    (s : Slave R) : option (Executor R) :=
  framework ← getFramework frameworkId s; getExecutor executorId framework.

(** The queue of that executor; empty when there is no such executor. *)
Definition queued_at (frameworkId : FrameworkID) (executorId : ExecutorID)
    (s : Slave R) : gmap string (TaskDescription R) :=
  match executor_at frameworkId executorId s with
  | Some executor => queuedTasks executor
  | None => ∅
  end.

(** Sum of the resources of the launched tasks. *)
Definition launched_resources (l : gmap string (Task R)) : R :=
  map_fold (λ _ task acc, radd acc (t_resources task)) rzero l.

(** The ledger of one executor agrees with its launched tasks. *)
Definition ledger_ok (e : Executor R) : Prop :=
  e_resources e = launched_resources (launchedTasks e).

Definition is_ResourcesChanged (frameworkId : FrameworkID) (executorId : ExecutorID)
    (eff : Effect R) : bool :=
  match eff with
  | ResourcesChanged f e _ => bool_decide (f = frameworkId ∧ e = executorId)
  | _ => false
  end.

(** How many [resourcesChanged] dispatches for one executor a handler made. *)
Definition notifications (frameworkId : FrameworkID) (executorId : ExecutorID)
    (out : list (Effect R)) : nat :=
  length (List.filter (is_ResourcesChanged frameworkId executorId) out).

Definition is_Send (eff : Effect R) : bool :=
  match eff with Send _ _ => true | _ => false end.

Definition is_Delay (eff : Effect R) : bool :=
  match eff with DelayStatusUpdateTimeout _ => true | _ => false end.

(** The launched tasks of the whole slave, each with the keys it is stored
    under: framework, executor, task. *)
Definition launched_entries (s : Slave R) : list (string * string * string * Task R) :=
  '(f, framework) ← map_to_list (frameworks s);
  '(e, executor) ← map_to_list (executors framework);
  '(t, task) ← map_to_list (launchedTasks executor);
  [(f, e, t, task)].

(** The executor a task is meant for, given the [info] of its framework. *)
Definition target (info : FrameworkInfo) (task : TaskDescription R) : ExecutorID :=
  ei_executor_id
    match td_executor task with
    | Some executorInfo => executorInfo
    | None => fi_executor info
    end.

(** A task as it arrives in a RunTaskMessage, with the directory
    [getUniqueWorkDirectory] would return at that moment. *)
Record Arrival := {
  a_framework : FrameworkInfo;
  a_pid : UPID;
  a_task : TaskDescription R;
  a_directory : string
}.

Definition arrival_event (frameworkId : FrameworkID) (a : Arrival) : Event R :=
  RunTask (a_framework a) frameworkId (a_pid a) (a_task a) (a_directory a).

(** [queuedTasks[task.task_id()] = task]. *)
Definition enqueue (q : gmap string (TaskDescription R)) (a : Arrival)
    : gmap string (TaskDescription R) :=
  <[td_task_id (a_task a) := a_task a]> q.

(** The [info] the framework record has once the first arrival is handled. *)
Definition info_after (frameworkId : FrameworkID) (arrivals : list Arrival)
    (s : Slave R) : option FrameworkInfo :=
  match getFramework frameworkId s with
  | Some framework => Some (f_info framework)
  | None => a_framework <$> head arrivals
  end.

(** No acknowledgement for task [taskId] of framework [frameworkId]. *)
Definition not_ack (frameworkId : FrameworkID) (taskId : TaskID) (ev : Event R) : Prop :=
  match ev with
  | StatusUpdateAcknowledgement _ f t => ¬ (f = frameworkId ∧ t = taskId)
  | _ => True
  end.

(** The record of [frameworkId] is in the map after every handler of [evs]. *)
Fixpoint retained (frameworkId : FrameworkID) (evs : list (Event R)) (s : Slave R) : Prop :=
  match evs with
  | [] => True
  | ev :: evs' =>
      match handle ev s with
      | Some (s1, _) => is_Some (frameworks s1 !! frameworkId) ∧ retained frameworkId evs' s1
      | None => True
      end
  end.

(** A data message must not be forwarded: the framework is unknown, the
    executor is unknown, or the executor has not registered. *)
Definition undeliverable (frameworkId : FrameworkID) (executorId : ExecutorID)
    (s : Slave R) : Prop :=
  match executor_at frameworkId executorId s with
  | Some executor => e_pid executor = UPID_empty
  | None => True
  end.

(** [P k e] holds of every executor [e] stored at key [k] of a framework,
    and of every executor of every framework of the slave. *)
Definition all_executors_of (P : ExecutorID → Executor R → Prop)
    (framework : Framework R) : Prop :=
  ∀ k e, executors framework !! k = Some e → P k e.

Definition all_executors (P : ExecutorID → Executor R → Prop) (s : Slave R) : Prop :=
  ∀ f framework, frameworks s !! f = Some framework → all_executors_of P framework.

(** A framework record is stored under its own id and has an executor. *)
Definition framework_ok (f : FrameworkID) (framework : Framework R) : Prop :=
  f_id framework = f ∧ executors framework ≠ ∅.

Definition frameworks_ok (s : Slave R) : Prop :=
  ∀ f framework, frameworks s !! f = Some framework → framework_ok f framework.

(** What tearing down one executor emits: a Shutdown to its endpoint and a
    killExecutor dispatch. *)
Definition teardown (f : FrameworkID) (ke : ExecutorID * Executor R) : list (Effect R) :=
  [Send (e_pid ke.2) ShutdownMessage; KillExecutor f ke.1].

Definition is_StatusUpdate (ev : Event R) : bool :=
  match ev with StatusUpdateEvent _ => true | _ => false end.

Definition is_data_message (ev : Event R) : bool :=
  match ev with
  | FrameworkToExecutor _ _ _ _ | ExecutorToFramework _ _ _ _ => true
  | _ => false
  end.

(** How many events of a run satisfy [p]. *)
Definition count (p : Event R → bool) (evs : list (Event R)) : Z :=
  Z.of_nat (length (List.filter p evs)).

(** No status update for task [taskId] of framework [frameworkId]. *)
Definition not_update (frameworkId : FrameworkID) (taskId : TaskID) (ev : Event R) : Prop :=
  match ev with
  | StatusUpdateEvent u =>
      ¬ (su_framework_id u = frameworkId ∧ ts_task_id (su_status u) = taskId)
  | _ => True
  end.

(** No update is pending for task [taskId] of framework [frameworkId]. *)
Definition unpending (frameworkId : FrameworkID) (taskId : TaskID) (s : Slave R) : Prop :=
  ∀ framework, getFramework frameworkId s = Some framework →
    updates framework !! taskId = None.

(** A reliable status update on its way to some endpoint. *)
Definition is_reliable_update (eff : Effect R) : bool :=
  match eff with
  | Send _ (StatusUpdateMessage _ true) => true
  | _ => false
  end.








(** The slave id after a run: that of the last Registered message; the
    master after a run: the last one detected. *)
Definition id_after (evs : list (Event R)) (slaveId : SlaveID) : SlaveID :=
  foldl (λ slaveId ev, match ev with SlaveRegistered slaveId' => slaveId' | _ => slaveId end)
    slaveId evs.

Definition master_after (evs : list (Event R)) (master : UPID) : UPID :=
  foldl (λ master ev, match ev with NewMasterDetected pid => pid | _ => master end)
    master evs.


End notions.

Arguments Arrival R : clear implicits.

(** ** Concrete scenarios

    Resource bundles are integers here.  One framework [F1] whose default
    executor is [E1]; tasks [Ta], [Tb] and [T1]. *)

Definition info0 : SlaveInfo Z :=
  {| si_hostname := "node"; si_public_hostname := "node"; si_resources := 4%Z |}.

Definition E1_info : ExecutorInfo :=
  {| ei_executor_id := "E1"; ei_uri := "exec"; ei_data := "blob" |}.

Definition F1_info : FrameworkInfo :=
  {| fi_name := "fw"; fi_user := "user"; fi_executor := E1_info |}.

Definition task_of (name : string) (r : Z) : TaskDescription Z :=
  {| td_name := name; td_task_id := name; td_slave_id := "S7"; td_resources := r;
     td_executor := None; td_data := "" |}.

Definition arrival_of (name : string) (r : Z) : Arrival Z :=
  {| a_framework := F1_info; a_pid := "sched"; a_task := task_of name r;
     a_directory := "work/0" |}.

Definition run (name : string) (r : Z) : Event Z :=
  arrival_event "F1" (arrival_of name r).

Definition update_of (name : string) (st : TaskState) : StatusUpdate :=
  {| su_framework_id := "F1"; su_executor_id := Some "E1"; su_slave_id := "S7";
     su_status := {| ts_task_id := name; ts_state := st; ts_data := "" |};
     su_timestamp := 0; su_sequence := 0 |}.

(** The state after serving [evs] from the initial state; the initial state
    itself if a handler aborts. *)
Definition after (evs : list (Event Z)) : Slave Z :=
  match serve evs (initial info0) with
  | Some (s, _) => s
  | None => initial info0
  end.

(** [T1] queued on the unregistered executor [E1]. *)
Definition s_queued : Slave Z := after [run "T1" 1].

(** [E1] registered at endpoint [X], [T1] launched. *)
Definition s_launched : Slave Z := after [run "T1" 1; RegisterExecutor "X" "F1" "E1"].

(** As [s_launched], with the update [T1 = RUNNING] sent and not acknowledged. *)
Definition s_pending : Slave Z :=
  after [run "T1" 1; RegisterExecutor "X" "F1" "E1";
         StatusUpdateEvent (update_of "T1" TASK_RUNNING)].

(** As [s_launched], registered with the master as slave [S7]. *)
Definition s_registered : Slave Z :=
  after [NewMasterDetected "master@a"; SlaveRegistered "S7"; run "T1" 1;
         RegisterExecutor "X" "F1" "E1"].

(** [T1] sent a second time, under another name and with other resources. *)
Definition arrival_again : Arrival Z :=
  {| a_framework := F1_info; a_pid := "sched";
     a_task := {| td_name := "again"; td_task_id := "T1"; td_slave_id := "S7";
                  td_resources := 3%Z; td_executor := None; td_data := "" |};
     a_directory := "work/1" |}.

(** An update for a task of a framework the slave has never heard of. *)
Definition update_unknown : StatusUpdate :=
  {| su_framework_id := "F9"; su_executor_id := Some "E1"; su_slave_id := "S7";
     su_status := {| ts_task_id := "T1"; ts_state := TASK_RUNNING; ts_data := "" |};
     su_timestamp := 0; su_sequence := 0 |}.




(** A run with one accepted and one dropped status update. *)
Definition updates_run : list (Event Z) :=
  [run "T1" 1; RegisterExecutor "X" "F1" "E1";
   StatusUpdateEvent (update_of "T1" TASK_RUNNING);
   StatusUpdateEvent update_unknown;
   StatusUpdateTimeout (update_of "T1" TASK_RUNNING)].

(** The same slave with bundles of doubles: [Ta] is queued, [E1] registers,
    [Tb] is launched on it, and [Ta] finishes. *)
Definition cpus_info : SlaveInfo float :=
  {| si_hostname := "node"; si_public_hostname := "node"; si_resources := 4%float |}.

Definition cpus_task (name : string) (cpus : float) : TaskDescription float :=
  {| td_name := name; td_task_id := name; td_slave_id := "S7"; td_resources := cpus;
     td_executor := None; td_data := "" |}.

#[warnings="-inexact-float"] Definition cpus_run : list (Event float) :=
  [RunTask F1_info "F1" "sched" (cpus_task "Ta" 0.1) "work/0";
   RegisterExecutor "X" "F1" "E1";
   RunTask F1_info "F1" "sched" (cpus_task "Tb" 0.2) "work/0";
   StatusUpdateEvent (update_of "Ta" TASK_FINISHED)].

(** A run in which the slave finds a master and is given the id [S7]. *)
Definition registration_run : list (Event Z) :=
  [NewMasterDetected "master@a"; SlaveRegistered "S7"; run "T1" 1;
   RegisterExecutor "X" "F1" "E1"].

(** * Proofs *)

Section proofs.
Context {R : Type} `{!ResourceOps R}.
Implicit Types (s : Slave R) (framework : Framework R) (executor : Executor R).
Implicit Types (task : TaskDescription R) (update : StatusUpdate).

(** ** Lookups *)

Lemma contains_Some {V : Type} (m : gmap string V) (k : string) :
  contains m k = true ↔ is_Some (m !! k).
Proof. unfold contains. by rewrite bool_decide_eq_true. Qed.

Lemma contains_None {V : Type} (m : gmap string V) (k : string) :
  contains m k = false ↔ m !! k = None.
Proof. unfold contains. by rewrite bool_decide_eq_false, eq_None_not_Some. Qed.

Lemma pid_unset_true (pid : UPID) : pid_unset pid = true ↔ pid = UPID_empty.
Proof. unfold pid_unset. by rewrite bool_decide_eq_true. Qed.

Lemma pid_unset_false (pid : UPID) : pid_unset pid = false ↔ pid ≠ UPID_empty.
Proof. unfold pid_unset. by rewrite bool_decide_eq_false. Qed.

Lemma getExecutor_task_Some taskId framework k executor :
  getExecutor_task taskId framework = Some (k, executor) →
  executors framework !! k = Some executor ∧
  (is_Some (queuedTasks executor !! taskId) ∨ is_Some (launchedTasks executor !! taskId)).
Proof.
  unfold getExecutor_task, hashmap_items. intros Hfind.
  apply find_some in Hfind as [Hin Htest]. simpl in Htest.
  apply list_elem_of_In, elem_of_map_to_list in Hin. split; [done|].
  apply orb_true_iff in Htest as [Hq|Hl]; [left|right]; by apply contains_Some.
Qed.

Lemma getExecutor_task_None taskId framework :
  getExecutor_task taskId framework = None ↔
  ∀ k executor, executors framework !! k = Some executor →
    queuedTasks executor !! taskId = None ∧ launchedTasks executor !! taskId = None.
Proof.
  unfold getExecutor_task, hashmap_items. split.
  - intros Hfind k executor Hk.
    apply elem_of_map_to_list, list_elem_of_In in Hk.
    apply (find_none _ _ Hfind) in Hk. simpl in Hk.
    apply orb_false_iff in Hk as [Hq Hl]. by rewrite <- !contains_None.
  - intros Hall.
    assert (Hl : ∀ ke, ke ∈ map_to_list (executors framework) →
              contains (queuedTasks ke.2) taskId || contains (launchedTasks ke.2) taskId = false).
    { intros [k executor] Hin. apply elem_of_map_to_list in Hin.
      destruct (Hall _ _ Hin) as [Hq Hl]. simpl.
      apply contains_None in Hq, Hl. by rewrite Hq, Hl. }
    induction (map_to_list (executors framework)) as [|ke l IH]; [done|].
    simpl. rewrite (Hl ke) by left. apply IH. intros ke' Hin. apply Hl. by right.
Qed.

(** ** What the executor methods leave alone *)

Lemma addTask_Some task executor executor' :
  addTask task executor = Some executor' →
  launchedTasks executor !! td_task_id task = None ∧
  executor' = set_e_resources (radd (e_resources executor) (td_resources task))
                (set_launchedTasks
                   (<[td_task_id task := new_Task executor task]> (launchedTasks executor))
                   executor).
Proof.
  unfold addTask. destruct (contains _ _) eqn:Hc; [done|].
  apply contains_None in Hc. by intros [= <-].
Qed.

Lemma addTask_fresh task executor :
  launchedTasks executor !! td_task_id task = None → is_Some (addTask task executor).
Proof. intros Hl. unfold addTask. apply contains_None in Hl. rewrite Hl. eauto. Qed.

Lemma removeTask_queuedTasks taskId executor :
  queuedTasks (removeTask taskId executor) = delete taskId (queuedTasks executor).
Proof. unfold removeTask. simpl. by destruct (launchedTasks executor !! taskId). Qed.

Lemma removeTask_launchedTasks taskId executor :
  launchedTasks (removeTask taskId executor) = delete taskId (launchedTasks executor).
Proof.
  unfold removeTask. simpl. destruct (launchedTasks executor !! taskId) eqn:Hl; simpl; [done|].
  by rewrite delete_id.
Qed.

Lemma removeTask_e_resources taskId executor :
  e_resources (removeTask taskId executor) =
  match launchedTasks executor !! taskId with
  | Some t => rsub (e_resources executor) (t_resources t)
  | None => e_resources executor
  end.
Proof. unfold removeTask. simpl. by destruct (launchedTasks executor !! taskId). Qed.

Lemma removeTask_fixed taskId executor :
  e_id (removeTask taskId executor) = e_id executor ∧
  e_pid (removeTask taskId executor) = e_pid executor ∧
  e_info (removeTask taskId executor) = e_info executor.
Proof. unfold removeTask. simpl. by destruct (launchedTasks executor !! taskId). Qed.

Lemma updateTaskState_fixed taskId st executor :
  e_id (updateTaskState taskId st executor) = e_id executor ∧
  e_pid (updateTaskState taskId st executor) = e_pid executor ∧
  e_resources (updateTaskState taskId st executor) = e_resources executor ∧
  queuedTasks (updateTaskState taskId st executor) = queuedTasks executor.
Proof. unfold updateTaskState. by destruct (launchedTasks executor !! taskId). Qed.


Lemma updateTaskState_absent taskId st executor :
  launchedTasks executor !! taskId = None → updateTaskState taskId st executor = executor.
Proof. unfold updateTaskState. by intros ->. Qed.

(** The flush loop keeps the endpoint and the queue, and adds to
    [launchedTasks] only. *)
Lemma flush_fixed framework ts executor x executor' x' out :
  flush framework ts executor x = Some (executor', x', out) →
  e_id executor' = e_id executor ∧ e_pid executor' = e_pid executor ∧
  e_info executor' = e_info executor ∧ queuedTasks executor' = queuedTasks executor.
Proof.
  revert executor x executor' x' out.
  induction ts as [|task ts IH]; intros executor x executor' x' out; simpl.
  - by intros [= <- <- <-].
  - destruct (addTask task executor) as [executor1|] eqn:Hadd; [simpl|done].
    destruct (flush framework ts executor1 _) as [[[executor2 x2] out2]|] eqn:Hflush;
      [simpl|done].
    intros [= <- <- <-]. apply IH in Hflush as (-> & -> & -> & ->).
    apply addTask_Some in Hadd as [_ ->]. done.
Qed.

(** ** Invariants of every executor record

    A property [P k e] of the executor [e] stored at key [k] that the
    executor methods preserve holds of every executor in every reachable
    state. *)

Section executor_invariant.
Variable P : ExecutorID → Executor R → Prop.
Hypothesis P_new : ∀ frameworkId info directory,
  P (ei_executor_id info) (new_Executor frameworkId info directory).
Hypothesis P_enqueue : ∀ k e task,
  P k e → P k (set_queuedTasks (<[td_task_id task := task]> (queuedTasks e)) e).
Hypothesis P_clear : ∀ k e, P k e → P k (set_queuedTasks ∅ e).
Hypothesis P_add : ∀ k e task e',
  P k e → e_pid e ≠ UPID_empty → addTask task e = Some e' → P k e'.
Hypothesis P_remove : ∀ k e taskId, P k e → P k (removeTask taskId e).
Hypothesis P_update : ∀ k e taskId st, P k e → P k (updateTaskState taskId st e).
Hypothesis P_pid : ∀ k e from, P k e → from ≠ UPID_empty → P k (set_e_pid from e).

Local Abbreviation framework_executors_ok := (all_executors_of P).
Local Abbreviation executors_ok := (all_executors P).

Lemma store_executor_ok k e framework :
  framework_executors_ok framework → P k e →
  framework_executors_ok (store_executor k e framework).
Proof.
  intros Hok HP k' e'. unfold store_executor. simpl.
  rewrite lookup_insert. case_decide; [by intros [= <-]; subst|apply Hok].
Qed.

Lemma store_framework_ok k framework s :
  executors_ok s → framework_executors_ok framework →
  executors_ok (store_framework k framework s).
Proof.
  intros Hok Hf k' framework'. unfold store_framework. simpl.
  rewrite lookup_insert. case_decide; [by intros [= <-]|apply Hok].
Qed.

Lemma destroyExecutor_ok k framework :
  framework_executors_ok framework → framework_executors_ok (destroyExecutor k framework).
Proof.
  intros Hok k' e'. unfold destroyExecutor. destruct (contains _ _); [simpl|apply Hok].
  rewrite lookup_delete. case_decide; [done|apply Hok].
Qed.

Lemma removeExecutors_ok es kill framework :
  framework_executors_ok framework →
  framework_executors_ok (removeExecutors es kill framework).1.
Proof.
  revert framework. induction es as [|e es IH]; intros framework Hok; simpl; [done|].
  specialize (IH (destroyExecutor (e_id e) framework) (destroyExecutor_ok _ _ Hok)).
  by destruct (removeExecutors es kill _).
Qed.

Lemma removeFramework_ok k framework kill s :
  executors_ok s → framework_executors_ok framework →
  executors_ok (removeFramework k framework kill s).1.
Proof.
  intros Hok Hf. unfold removeFramework.
  pose proof (removeExecutors_ok (hashmap_values (executors framework)) kill _ Hf) as Hf'.
  destruct (removeExecutors _ _ _) as [framework' out]. simpl in *.
  intros k' framework''. simpl. rewrite lookup_delete. case_decide; [done|].
  rewrite lookup_insert. case_decide; [by intros [= <-]|apply Hok].
Qed.

Lemma flush_ok k framework ts e x e' x' out :
  P k e → e_pid e ≠ UPID_empty → flush framework ts e x = Some (e', x', out) → P k e'.
Proof.
  revert e x e' x' out. induction ts as [|task ts IH]; intros e x e' x' out HP Hpid; simpl.
  - by intros [= <- <- <-].
  - destruct (addTask task e) as [e1|] eqn:Hadd; [simpl|done].
    destruct (flush framework ts e1 _) as [[[e2 x2] out2]|] eqn:Hflush; [simpl|done].
    intros [= <- <- <-]. eapply IH; [| |done].
    + by eapply P_add.
    + apply addTask_Some in Hadd as [_ ->]. done.
Qed.

Lemma handle_executors_ok ev s s' out :
  delivered ev → executors_ok s → handle ev s = Some (s', out) → executors_ok s'.
Proof.
  intros Hdel Hok. destruct ev; simpl.
  - (* newMasterDetected *)
    unfold newMasterDetected. case_bool_decide; by intros [= <- <-].
  - by intros [= <- <-].
  - by intros [= <- <-].
  - unfold reregistered. case_bool_decide; [by intros [= <- <-]|done].
  - (* runTask *)
    unfold runTask.
    set (framework := match getFramework frameworkId s with
                      | Some framework => framework
                      | None => new_Framework frameworkId frameworkInfo pid
                      end).
    assert (Hf : framework_executors_ok framework).
    { subst framework. unfold getFramework.
      destruct (frameworks s !! frameworkId) eqn:Hl; [by eapply Hok|].
      intros k e. simpl. by rewrite lookup_empty. }
    set (executorInfo := match td_executor task with
                         | Some executorInfo => executorInfo
                         | None => fi_executor (f_info framework)
                         end).
    unfold getExecutor.
    destruct (executors framework !! ei_executor_id executorInfo) as [executor|] eqn:He.
    + destruct (pid_unset (e_pid executor)) eqn:Hpid.
      * intros [= <- <-]. apply store_framework_ok; [done|].
        apply store_executor_ok; [done|]. apply P_enqueue. by eapply Hf.
      * destruct (addTask task executor) as [executor'|] eqn:Hadd; [simpl|done].
        intros [= <- <-].
        apply (store_framework_ok frameworkId _ s); [done|].
        apply store_executor_ok; [done|].
        eapply P_add; [by eapply Hf| |done]. by apply pid_unset_false.
    + unfold createExecutor. rewrite (proj2 (contains_None _ _) He). simpl.
      intros [= <- <-]. apply store_framework_ok; [done|].
      apply store_executor_ok; [by apply store_executor_ok|]. apply P_enqueue, P_new.
  - (* killTask *)
    unfold killTask, getFramework.
    destruct (frameworks s !! frameworkId) as [framework|] eqn:Hl; [|by intros [= <- <-]].
    destruct (getExecutor_task taskId framework) as [[k executor]|] eqn:Hg;
      [|by intros [= <- <-]].
    apply getExecutor_task_Some in Hg as [Hk _].
    destruct (pid_unset (e_pid executor)); [|by intros [= <- <-]].
    intros [= <- <-]. apply store_framework_ok; [done|].
    apply store_executor_ok; [by eapply Hok|]. apply P_remove. by eapply Hok.
  - (* killFramework *)
    unfold killFramework, getFramework.
    destruct (frameworks s !! frameworkId) as [framework|] eqn:Hl; [|by intros [= <- <-]].
    intros [= Hrm]. pose proof (removeFramework_ok frameworkId framework true s Hok) as H'.
    rewrite Hrm in H'. apply H'. by eapply Hok.
  - (* schedulerMessage *)
    unfold schedulerMessage, getFramework, getExecutor.
    repeat case_match; by intros [= <- <-].
  - (* updateFramework *)
    unfold updateFramework, getFramework.
    destruct (frameworks s !! frameworkId) as [framework|] eqn:Hl; [|by intros [= <- <-]].
    intros [= <- <-]. apply store_framework_ok; [done|]. intros k e. simpl. by eapply Hok.
  - (* statusUpdateAcknowledgement *)
    unfold statusUpdateAcknowledgement, getFramework.
    destruct (frameworks s !! frameworkId) as [framework|] eqn:Hl; [|by intros [= <- <-]].
    destruct (contains _ _); [|by intros [= <- <-]].
    intros [= <- <-]. apply store_framework_ok; [done|]. intros k e. simpl. by eapply Hok.
  - (* registerExecutor *)
    unfold registerExecutor, getFramework, getExecutor.
    destruct (frameworks s !! frameworkId) as [framework|] eqn:Hl; [|by intros [= <- <-]].
    destruct (executors framework !! executorId) as [executor|] eqn:He;
      [|by intros [= <- <-]].
    case_bool_decide; [by intros [= <- <-]|].
    destruct (flush _ _ _ _) as [[[executor2 x] out2]|] eqn:Hflush; [simpl|done].
    intros [= <- <-]. apply (store_framework_ok frameworkId _ s); [done|].
    apply store_executor_ok; [by eapply Hok|]. apply P_clear.
    eapply flush_ok; [| |done]; [|done].
    apply P_pid; [|done]. by eapply Hok.
  - (* statusUpdate *)
    unfold statusUpdate, getFramework.
    destruct (frameworks s !! su_framework_id update) as [framework|] eqn:Hl;
      [|by intros [= <- <-]].
    destruct (getExecutor_task _ framework) as [[k executor]|] eqn:Hg;
      [|by intros [= <- <-]].
    apply getExecutor_task_Some in Hg as [Hk _].
    intros [= <- <-]. apply (store_framework_ok _ _ s); [done|].
    intros k' e'. simpl. apply store_executor_ok; [by eapply Hok|].
    destruct (terminal _); [apply P_remove|]; apply P_update; by eapply Hok.
  - (* executorMessage *)
    unfold executorMessage, getFramework. repeat case_match; by intros [= <- <-].
  - by intros [= <- <-].
  - unfold statusUpdateTimeout, getFramework. repeat case_match; by intros [= <- <-].
  - by intros [= <- <-].
  - by intros [= <- <-].
  - (* executorExited *)
    unfold executorExited, getFramework, getExecutor.
    destruct (frameworks s !! frameworkId) as [framework|] eqn:Hl; [|by intros [= <- <-]].
    destruct (executors framework !! executorId) as [executor|] eqn:He;
      [|by intros [= <- <-]].
    simpl. assert (Hf : framework_executors_ok (destroyExecutor (e_id executor) framework)).
    { apply destroyExecutor_ok. by eapply Hok. }
    case_bool_decide.
    + pose proof (removeFramework_ok frameworkId _ true s Hok Hf) as H'.
      destruct (removeFramework _ _ _ _) as [s1 out3]. by intros [= <- <-].
    + intros [= <- <-]. by apply store_framework_ok.
Qed.

Theorem reachable_executors_ok s : reachable s → executors_ok s.
Proof.
  induction 1 as [info|s ev s' out _ IH Hdel Hh].
  - intros f framework. simpl. by rewrite lookup_empty.
  - by eapply handle_executors_ok.
Qed.

End executor_invariant.

(** Every executor record is stored under its own id. *)
Lemma reachable_executor_key s f framework k e :
  reachable s → frameworks s !! f = Some framework → executors framework !! k = Some e →
  e_id e = k.
Proof.
  intros Hr Hf He.
  refine (reachable_executors_ok (λ k e, e_id e = k) _ _ _ _ _ _ _ s Hr f framework Hf k e He);
    clear; simpl; try done.
  - intros k e task e' <- _ Hadd. by apply addTask_Some in Hadd as [_ ->].
  - intros k e taskId <-. apply removeTask_fixed.
  - intros k e taskId st <-. apply updateTaskState_fixed.
Qed.

(** An executor that has not registered has launched nothing. *)
Lemma reachable_unregistered s f framework k e :
  reachable s → frameworks s !! f = Some framework → executors framework !! k = Some e →
  e_pid e = UPID_empty → launchedTasks e = ∅.
Proof.
  intros Hr Hf He.
  refine (reachable_executors_ok (λ _ e, e_pid e = UPID_empty → launchedTasks e = ∅)
            _ _ _ _ _ _ _ s Hr f framework Hf k e He); clear; simpl; try done.
  - intros _ e task e' _ Hpid Hadd Hpid'. apply addTask_Some in Hadd as [_ ->]. done.
  - intros _ e taskId IH Hpid. rewrite removeTask_launchedTasks.
    rewrite IH; [apply delete_empty|]. by rewrite <- (proj1 (proj2 (removeTask_fixed taskId e))).
  - intros _ e taskId st IH Hpid.
    destruct (updateTaskState_fixed taskId st e) as (_ & Hp & _).
    rewrite Hp in Hpid. specialize (IH Hpid).
    rewrite updateTaskState_absent; [done|]. by rewrite IH, lookup_empty.
Qed.

(** A queued task is stored under its own id. *)
Lemma reachable_queued_key s f framework k e t task :
  reachable s → frameworks s !! f = Some framework → executors framework !! k = Some e →
  queuedTasks e !! t = Some task → td_task_id task = t.
Proof.
  intros Hr Hf He. revert t task.
  refine (reachable_executors_ok
            (λ _ e, ∀ t task, queuedTasks e !! t = Some task → td_task_id task = t)
            _ _ _ _ _ _ _ s Hr f framework Hf k e He); clear; simpl; try done.
  - intros _ e task IH t task'. rewrite lookup_insert.
    case_decide; [by intros [= <-]|apply IH].
  - intros _ e task e' IH _ Hadd. by apply addTask_Some in Hadd as [_ ->].
  - intros _ e taskId IH t task. rewrite removeTask_queuedTasks, lookup_delete.
    case_decide; [done|apply IH].
  - intros _ e taskId st IH t task.
    destruct (updateTaskState_fixed taskId st e) as (_ & _ & _ & ->). apply IH.
Qed.

(** ** Invariants of every framework record *)

Lemma removeExecutors_f_id es kill framework :
  f_id (removeExecutors es kill framework).1 = f_id framework.
Proof.
  revert framework. induction es as [|e es IH]; intros framework; simpl; [done|].
  specialize (IH (destroyExecutor (e_id e) framework)).
  destruct (removeExecutors es kill _) as [framework2 out2]. simpl in *. rewrite IH.
  unfold destroyExecutor. by destruct (contains _ _).
Qed.

Lemma removeExecutors_updates es kill framework :
  updates (removeExecutors es kill framework).1 = updates framework.
Proof.
  revert framework. induction es as [|e es IH]; intros framework; simpl; [done|].
  specialize (IH (destroyExecutor (e_id e) framework)).
  destruct (removeExecutors es kill _) as [framework2 out2]. simpl in *. rewrite IH.
  unfold destroyExecutor. by destruct (contains _ _).
Qed.

(** [removeFramework] on a record stored under its own id erases that
    record and nothing else. *)
Lemma removeFramework_frameworks k framework kill s :
  f_id framework = k →
  frameworks (removeFramework k framework kill s).1 = delete k (frameworks s).
Proof.
  intros Hid. unfold removeFramework.
  pose proof (removeExecutors_f_id (hashmap_values (executors framework)) kill framework) as Hid'.
  destruct (removeExecutors _ _ _) as [framework' out]. simpl in *.
  rewrite Hid', Hid. by rewrite delete_insert_eq.
Qed.

Lemma store_framework_frameworks_ok k framework s :
  frameworks_ok s → framework_ok k framework → frameworks_ok (store_framework k framework s).
Proof.
  intros Hok Hf k' framework'. unfold store_framework. simpl.
  rewrite lookup_insert. case_decide; [by intros [= <-]; subst|apply Hok].
Qed.

Lemma delete_frameworks_ok k s s' :
  frameworks_ok s → frameworks s' = delete k (frameworks s) → frameworks_ok s'.
Proof.
  intros Hok Heq k' framework'. rewrite Heq, lookup_delete.
  case_decide; [done|apply Hok].
Qed.

Lemma handle_frameworks_ok ev s s' out :
  frameworks_ok s → handle ev s = Some (s', out) → frameworks_ok s'.
Proof.
  intros Hok. destruct ev; simpl.
  - unfold newMasterDetected. case_bool_decide; by intros [= <- <-].
  - by intros [= <- <-].
  - by intros [= <- <-].
  - unfold reregistered. case_bool_decide; [by intros [= <- <-]|done].
  - (* runTask *)
    unfold runTask.
    set (framework := match getFramework frameworkId s with
                      | Some framework => framework
                      | None => new_Framework frameworkId frameworkInfo pid
                      end).
    assert (Hf : f_id framework = frameworkId).
    { subst framework. unfold getFramework.
      destruct (frameworks s !! frameworkId) eqn:Hl; [by eapply Hok|done]. }
    set (executorInfo := match td_executor task with
                         | Some executorInfo => executorInfo
                         | None => fi_executor (f_info framework)
                         end).
    unfold getExecutor.
    destruct (executors framework !! ei_executor_id executorInfo) as [executor|] eqn:He.
    + destruct (pid_unset (e_pid executor)) eqn:Hpid.
      * intros [= <- <-]. apply store_framework_frameworks_ok; [done|].
        split; [done|]. simpl. apply insert_non_empty.
      * destruct (addTask task executor) as [executor'|] eqn:Hadd; [simpl|done].
        intros [= <- <-]. apply (store_framework_frameworks_ok frameworkId _ s); [done|].
        split; [done|]. simpl. apply insert_non_empty.
    + unfold createExecutor. rewrite (proj2 (contains_None _ _) He). simpl.
      intros [= <- <-]. apply store_framework_frameworks_ok; [done|].
      split; [done|]. simpl. apply insert_non_empty.
  - (* killTask *)
    unfold killTask, getFramework.
    destruct (frameworks s !! frameworkId) as [framework|] eqn:Hl; [|by intros [= <- <-]].
    destruct (getExecutor_task taskId framework) as [[k executor]|] eqn:Hg;
      [|by intros [= <- <-]].
    destruct (pid_unset (e_pid executor)); [|by intros [= <- <-]].
    intros [= <- <-]. apply store_framework_frameworks_ok; [done|].
    split; [simpl; by eapply Hok|]. simpl. apply insert_non_empty.
  - (* killFramework *)
    unfold killFramework, getFramework.
    destruct (frameworks s !! frameworkId) as [framework|] eqn:Hl; [|by intros [= <- <-]].
    intros [= Hrm]. eapply (delete_frameworks_ok frameworkId s); [done|].
    rewrite <- (removeFramework_frameworks frameworkId framework true s); [by rewrite Hrm|].
    by eapply Hok.
  - unfold schedulerMessage, getFramework, getExecutor.
    repeat case_match; by intros [= <- <-].
  - (* updateFramework *)
    unfold updateFramework, getFramework.
    destruct (frameworks s !! frameworkId) as [framework|] eqn:Hl; [|by intros [= <- <-]].
    intros [= <- <-]. apply store_framework_frameworks_ok; [done|].
    destruct (Hok _ _ Hl). by split.
  - (* statusUpdateAcknowledgement *)
    unfold statusUpdateAcknowledgement, getFramework.
    destruct (frameworks s !! frameworkId) as [framework|] eqn:Hl; [|by intros [= <- <-]].
    destruct (contains _ _); [|by intros [= <- <-]].
    intros [= <- <-]. apply store_framework_frameworks_ok; [done|].
    destruct (Hok _ _ Hl). by split.
  - (* registerExecutor *)
    unfold registerExecutor, getFramework, getExecutor.
    destruct (frameworks s !! frameworkId) as [framework|] eqn:Hl; [|by intros [= <- <-]].
    destruct (executors framework !! executorId) as [executor|] eqn:He;
      [|by intros [= <- <-]].
    case_bool_decide; [by intros [= <- <-]|].
    destruct (flush _ _ _ _) as [[[executor2 x] out2]|] eqn:Hflush; [simpl|done].
    intros [= <- <-]. apply (store_framework_frameworks_ok frameworkId _ s); [done|].
    split; [simpl; by eapply Hok|]. simpl. apply insert_non_empty.
  - (* statusUpdate *)
    unfold statusUpdate, getFramework.
    destruct (frameworks s !! su_framework_id update) as [framework|] eqn:Hl;
      [|by intros [= <- <-]].
    destruct (getExecutor_task _ framework) as [[k executor]|] eqn:Hg;
      [|by intros [= <- <-]].
    intros [= <- <-]. apply (store_framework_frameworks_ok _ _ s); [done|].
    split; [simpl; by eapply Hok|]. simpl. apply insert_non_empty.
  - unfold executorMessage, getFramework. repeat case_match; by intros [= <- <-].
  - by intros [= <- <-].
  - unfold statusUpdateTimeout, getFramework. repeat case_match; by intros [= <- <-].
  - by intros [= <- <-].
  - by intros [= <- <-].
  - (* executorExited *)
    unfold executorExited, getFramework, getExecutor.
    destruct (frameworks s !! frameworkId) as [framework|] eqn:Hl; [|by intros [= <- <-]].
    destruct (executors framework !! executorId) as [executor|] eqn:He;
      [|by intros [= <- <-]].
    simpl. assert (Hid : f_id (destroyExecutor (e_id executor) framework) = frameworkId).
    { unfold destroyExecutor. destruct (contains _ _); simpl; by eapply Hok. }
    case_bool_decide as Hsize.
    + pose proof (removeFramework_frameworks frameworkId _ true s Hid) as H'.
      destruct (removeFramework _ _ _ _) as [s1 out3]. intros [= <- <-].
      by eapply delete_frameworks_ok.
    + intros [= <- <-]. apply store_framework_frameworks_ok; [done|].
      split; [done|]. intros Hempty. apply Hsize. rewrite Hempty. apply map_size_empty.
Qed.

(** A framework record is stored under its own id and has an executor. *)
Theorem reachable_frameworks_ok s : reachable s → frameworks_ok s.
Proof.
  induction 1 as [info|s ev s' out _ IH Hdel Hh].
  - intros f framework. simpl. by rewrite lookup_empty.
  - by eapply handle_frameworks_ok.
Qed.

(** ** The flush loop *)

(** On queued tasks with distinct ids, none of them launched, the loop
    returns: it sends one RunTask per task, in the order of [ts], and
    launches exactly these tasks. *)
Lemma flush_returns framework ts e x :
  NoDup (td_task_id <$> ts) →
  (∀ task, task ∈ ts → launchedTasks e !! td_task_id task = None) →
  ∃ e',
    flush framework ts e x =
      Some (e', Nat.iter (length ts) (incr_tasks TASK_STARTING) x,
            (λ task, Send (e_pid e)
                       (RunTaskMessage (f_info framework) (f_id framework)
                          (f_pid framework) task)) <$> ts) ∧
    (∀ task, task ∈ ts → launchedTasks e' !! td_task_id task = Some (new_Task e task)) ∧
    (∀ t, t ∉ td_task_id <$> ts → launchedTasks e' !! t = launchedTasks e !! t).
Proof.
  revert e x. induction ts as [|task ts IH]; intros e x Hnd Hfresh; simpl.
  - exists e. split; [done|]. split; [|done]. intros task Hin. by apply elem_of_nil in Hin.
  - rewrite fmap_cons in Hnd. apply NoDup_cons in Hnd as [Hnotin Hnd].
    destruct (addTask_fresh task e) as [e1 Hadd]; [apply Hfresh; left|].
    rewrite Hadd. simpl. pose proof Hadd as Hadd'. apply addTask_Some in Hadd' as [_ He1].
    assert (Hlook : ∀ t, launchedTasks e1 !! t =
                      if decide (td_task_id task = t) then Some (new_Task e task)
                      else launchedTasks e !! t).
    { intros t. rewrite He1. simpl. apply lookup_insert. }
    destruct (IH e1 (incr_tasks TASK_STARTING x) Hnd) as (e' & Hflush & Hin & Hout).
    { intros task' Hin. rewrite Hlook. case_decide as Heq.
      - exfalso. apply Hnotin. rewrite Heq. by apply list_elem_of_fmap_2.
      - apply Hfresh. by right. }
    exists e'. rewrite Hflush. simpl.
    assert (Hfix : e_pid e1 = e_pid e ∧ ∀ task', new_Task e1 task' = new_Task e task').
    { rewrite He1. done. }
    destruct Hfix as [Hpid Hnew]. rewrite Hpid. split.
    { by rewrite <- Nat.iter_succ_r. }
    split.
    + intros task' Hin'. apply elem_of_cons in Hin' as [->|Hin'].
      * rewrite (Hout _ Hnotin), Hlook. by rewrite decide_True.
      * rewrite (Hin _ Hin'). by rewrite Hnew.
    + intros t Hnot. apply not_elem_of_cons in Hnot as [Hne Hnot].
      rewrite (Hout _ Hnot), Hlook. by rewrite decide_False.
Qed.

(** The queue of any executor in a reachable state can be flushed. *)
Lemma hashmap_values_NoDup_ids (q : gmap string (TaskDescription R)) :
  (∀ t task, q !! t = Some task → td_task_id task = t) →
  NoDup (td_task_id <$> hashmap_values q).
Proof.
  intros Hkey. unfold hashmap_values, hashmap_items.
  assert (Heq : td_task_id <$> (map_to_list q).*2 = (map_to_list q).*1).
  { rewrite <- list_fmap_compose. apply list_fmap_ext.
    intros i [t task] Hin. apply list_elem_of_lookup_2, elem_of_map_to_list in Hin.
    simpl. by apply Hkey. }
  rewrite Heq. apply NoDup_fst_map_to_list.
Qed.

Lemma elem_of_hashmap_values {V : Type} (m : gmap string V) (v : V) :
  v ∈ hashmap_values m ↔ ∃ k, m !! k = Some v.
Proof.
  unfold hashmap_values, hashmap_items. rewrite list_elem_of_fmap. split.
  - intros [[k v'] [-> Hin]]. exists k. by apply elem_of_map_to_list.
  - intros [k Hk]. exists (k, v). split; [done|]. by apply elem_of_map_to_list.
Qed.

(** ** RegisterExecutor *)

(** In a reachable state, the registration of an executor that has no
    endpoint yet is accepted, and this is what the handler does. *)
Lemma registerExecutor_accepts (from : UPID) (frameworkId : FrameworkID)
    (executorId : ExecutorID) s framework executor :
  reachable s →
  getFramework frameworkId s = Some framework →
  getExecutor executorId framework = Some executor →
  e_pid executor = UPID_empty →
  ∃ executor',
    registerExecutor from frameworkId executorId s =
      Some (set_stats
              (Nat.iter (size (queuedTasks executor)) (incr_tasks TASK_STARTING) (stats s))
              (store_framework frameworkId
                 (store_executor executorId (set_queuedTasks ∅ executor') framework) s),
            ResourcesChanged (f_id framework) (e_id executor) (e_resources executor)
            :: Send from
                 (ExecutorRegisteredMessage
                    {| ea_framework_id := f_id framework;
                       ea_executor_id := e_id executor;
                       ea_slave_id := s_id s;
                       ea_hostname := si_hostname (s_info s);
                       ea_data := ei_data (e_info executor) |})
            :: ((λ task, Send from
                           (RunTaskMessage (f_info framework) (f_id framework)
                              (f_pid framework) task))
                  <$> hashmap_values (queuedTasks executor))) ∧
    e_pid executor' = from ∧
    e_id executor' = e_id executor ∧
    (∀ t, launchedTasks executor' !! t = new_Task executor <$> queuedTasks executor !! t).
Proof.
  intros Hr Hf He Hpid. unfold getFramework, getExecutor in *.
  assert (Hkey : ∀ t task, queuedTasks executor !! t = Some task → td_task_id task = t).
  { intros t task. by eapply reachable_queued_key. }
  assert (Hl : launchedTasks executor = ∅) by by eapply reachable_unregistered.
  destruct (flush_returns framework (hashmap_values (queuedTasks executor))
              (set_e_pid from executor) (stats s)) as (e' & Hflush & Hin & Hout).
  { by apply hashmap_values_NoDup_ids. }
  { intros task _. simpl. by rewrite Hl, lookup_empty. }
  exists e'. unfold registerExecutor, getFramework, getExecutor. rewrite Hf, He.
  rewrite bool_decide_false by (by intros Hne; apply Hne).
  simpl in *. rewrite Hflush. simpl.
  destruct (flush_fixed _ _ _ _ _ _ _ Hflush) as (Hid & Hpid' & _ & _). simpl in *.
  split.
  { unfold hashmap_values at 1. rewrite length_fmap. unfold hashmap_items.
    by rewrite length_map_to_list. }
  split; [done|]. split; [done|].
  intros t. destruct (queuedTasks executor !! t) as [task|] eqn:Hq; simpl.
  - pose proof (Hkey _ _ Hq) as <-. apply Hin. apply elem_of_hashmap_values. eauto.
  - rewrite Hout; [by rewrite Hl, lookup_empty|].
    intros Hin'. apply list_elem_of_fmap in Hin' as (task & -> & Hin').
    apply elem_of_hashmap_values in Hin' as [t' Ht'].
    pose proof (Hkey _ _ Ht') as <-. congruence.
Qed.

(** C8.  A RegisterExecutor for an unknown framework, an unknown executor
    id, or an executor that already has an endpoint is answered with
    Shutdown to the sender and changes nothing; otherwise (an executor
    without endpoint, in a reachable state) no Shutdown is sent and the
    sender is recorded as the executor's pid. *)
Theorem registerExecutor_failure_modes (from : UPID) (frameworkId : FrameworkID)
    (executorId : ExecutorID) s :
  ((∀ executor, executor_at frameworkId executorId s = Some executor →
                e_pid executor ≠ UPID_empty) →
   registerExecutor from frameworkId executorId s = Some (s, [Send from ShutdownMessage]))
  ∧
  (∀ executor, reachable s →
     executor_at frameworkId executorId s = Some executor →
     e_pid executor = UPID_empty →
     ∃ s' out executor',
       registerExecutor from frameworkId executorId s = Some (s', out) ∧
       ¬ (Send from ShutdownMessage ∈ out) ∧
       executor_at frameworkId executorId s' = Some executor' ∧
       e_pid executor' = from).
Proof.
  split.
  - intros Hbad. unfold executor_at in Hbad. unfold registerExecutor.
    destruct (getFramework frameworkId s) as [framework|]; [simpl in Hbad|done].
    destruct (getExecutor executorId framework) as [executor|]; [|done].
    by rewrite bool_decide_true by by apply Hbad.
  - intros executor Hr Hat Hpid. unfold executor_at in Hat.
    destruct (getFramework frameworkId s) as [framework|] eqn:Hf; [simpl in Hat|done].
    destruct (registerExecutor_accepts from frameworkId executorId s framework executor)
      as (e' & Hreg & Hpid' & _); [done..|].
    eexists _, _, (set_queuedTasks ∅ e'). split; [exact Hreg|]. split.
    + intros Hin. apply elem_of_cons in Hin as [?|Hin]; [done|].
      apply elem_of_cons in Hin as [?|Hin]; [done|].
      apply list_elem_of_fmap in Hin as (task & ? & _). done.
    + split; [|done]. unfold executor_at, getFramework, getExecutor. simpl.
      rewrite lookup_insert_eq. simpl. by rewrite lookup_insert_eq.
Qed.

(** ** Data messages *)

(** C7 (amended).  A FrameworkToExecutor message is dropped and counted
    invalid when the framework is unknown, the executor is unknown or the
    executor has not registered, and is otherwise forwarded unchanged to the
    executor's endpoint and counted valid.  An ExecutorToFramework message is
    dropped and counted invalid only when the framework is unknown; otherwise
    it is forwarded unchanged to the framework's scheduler endpoint and
    counted valid, whatever the executor id.  Counting adds one, modulo 2^64,
    to the one counter and leaves the other alone. *)
Theorem data_messages (slaveId : SlaveID) (frameworkId : FrameworkID)
    (executorId : ExecutorID) (data : string) s :
  (undeliverable frameworkId executorId s →
   schedulerMessage slaveId frameworkId executorId data s =
     Some (set_stats (incr_invalidFrameworkMessages (stats s)) s, []))
  ∧
  (∀ executor, executor_at frameworkId executorId s = Some executor →
     e_pid executor ≠ UPID_empty →
     schedulerMessage slaveId frameworkId executorId data s =
       Some (set_stats (incr_validFrameworkMessages (stats s)) s,
             [Send (e_pid executor)
                (FrameworkToExecutorMessage slaveId frameworkId executorId data)]))
  ∧
  (getFramework frameworkId s = None →
   executorMessage slaveId frameworkId executorId data s =
     Some (set_stats (incr_invalidFrameworkMessages (stats s)) s, []))
  ∧
  (∀ framework, getFramework frameworkId s = Some framework →
     executorMessage slaveId frameworkId executorId data s =
       Some (set_stats (incr_validFrameworkMessages (stats s)) s,
             [Send (f_pid framework)
                (ExecutorToFrameworkMessage slaveId frameworkId executorId data)]))
  ∧
  (invalidFrameworkMessages (incr_invalidFrameworkMessages (stats s)) =
     ((invalidFrameworkMessages (stats s) + 1) mod 2 ^ 64)%Z ∧
   validFrameworkMessages (incr_invalidFrameworkMessages (stats s)) =
     validFrameworkMessages (stats s) ∧
   validFrameworkMessages (incr_validFrameworkMessages (stats s)) =
     ((validFrameworkMessages (stats s) + 1) mod 2 ^ 64)%Z ∧
   invalidFrameworkMessages (incr_validFrameworkMessages (stats s)) =
     invalidFrameworkMessages (stats s)).
Proof.
  unfold undeliverable, executor_at, schedulerMessage, executorMessage.
  repeat split.
  - destruct (getFramework frameworkId s) as [framework|]; [simpl|done].
    destruct (getExecutor executorId framework) as [executor|]; [|done].
    intros ->. done.
  - intros executor.
    destruct (getFramework frameworkId s) as [framework|]; [simpl|done].
    intros -> Hpid. by rewrite (proj2 (pid_unset_false _) Hpid).
  - by intros ->.
  - by intros framework ->.
Qed.

(** The counters of C7 move by one step of [incr]. *)
Lemma incr_FrameworkMessages x :
  invalidFrameworkMessages (incr_invalidFrameworkMessages x) =
    incr (invalidFrameworkMessages x) ∧
  validFrameworkMessages (incr_invalidFrameworkMessages x) = validFrameworkMessages x ∧
  validFrameworkMessages (incr_validFrameworkMessages x) = incr (validFrameworkMessages x) ∧
  invalidFrameworkMessages (incr_validFrameworkMessages x) = invalidFrameworkMessages x.
Proof. done. Qed.

(** Below the wrap-around [incr] adds one. *)
Lemma incr_succ (c : Z) : (0 ≤ c < 2 ^ 64 - 1)%Z → incr c = (c + 1)%Z.
Proof. intros Hc. unfold incr. apply Z.mod_small. lia. Qed.

(** ** KillTask *)


(** ** StatusUpdate *)

(** What [statusUpdate] does once the framework and the executor of the
    task are found. *)
Lemma statusUpdate_known update s framework k executor :
  getFramework (su_framework_id update) s = Some framework →
  getExecutor_task (ts_task_id (su_status update)) framework = Some (k, executor) →
  let taskId := ts_task_id (su_status update) in
  let st := ts_state (su_status update) in
  let executor' :=
    if terminal st then removeTask taskId (updateTaskState taskId st executor)
    else updateTaskState taskId st executor in
  statusUpdate update s =
    Some (set_stats (incr_validStatusUpdates (incr_tasks st (stats s)))
            (store_framework (su_framework_id update)
               (set_updates (<[taskId := update]> (updates framework))
                  (store_executor k executor' framework)) s),
          (if terminal st
           then [ResourcesChanged (f_id framework) (e_id executor) (e_resources executor')]
           else [])
          ++ [Send (s_master s) (StatusUpdateMessage update true);
              DelayStatusUpdateTimeout update]).
Proof.
  intros Hf Hg. simpl. unfold statusUpdate. rewrite Hf, Hg.
  destruct (terminal _); [|done].
  destruct (removeTask_fixed (ts_task_id (su_status update))
              (updateTaskState (ts_task_id (su_status update))
                 (ts_state (su_status update)) executor)) as (-> & _ & _).
  by destruct (updateTaskState_fixed (ts_task_id (su_status update))
                 (ts_state (su_status update)) executor) as (-> & _).
Qed.



(** ** NewMasterDetected *)

Lemma flat_map_hashmap_values {V B : Type} (h : V → list B) (m : gmap string V) :
  flat_map h (hashmap_values m) = map_to_list m ≫= (λ kv, h kv.2).
Proof.
  unfold hashmap_values, hashmap_items.
  induction (map_to_list m) as [|kv l IH]; [done|]. csimpl. by rewrite IH.
Qed.

Lemma fmap_list_bind {A B C : Type} (f : B → C) (g : A → list B) (l : list A) :
  f <$> (l ≫= g) = l ≫= (λ x, f <$> g x).
Proof. induction l as [|x l IH]; [done|]. csimpl. by rewrite fmap_app, IH. Qed.

(** The tasks of a ReregisterSlaveMessage are the launched entries, without
    their keys. *)
Lemma running_tasks_entries s : running_tasks s = (launched_entries s).*2.
Proof.
  unfold running_tasks, launched_entries.
  rewrite flat_map_hashmap_values, fmap_list_bind.
  apply list_bind_ext; [|done]. intros [f framework]. simpl.
  rewrite flat_map_hashmap_values, fmap_list_bind.
  apply list_bind_ext; [|done]. intros [e executor]. simpl.
  rewrite fmap_list_bind. unfold hashmap_values, hashmap_items.
  induction (map_to_list (launchedTasks executor)) as [|[t task] l IH]; [done|].
  csimpl. by rewrite IH.
Qed.

Lemma elem_of_launched_entries s f e t (x : Task R) :
  (f, e, t, x) ∈ launched_entries s ↔
  ∃ framework executor,
    frameworks s !! f = Some framework ∧ executors framework !! e = Some executor ∧
    launchedTasks executor !! t = Some x.
Proof.
  unfold launched_entries. rewrite list_elem_of_bind. split.
  - intros ([f' framework] & Hin & Hf). apply elem_of_map_to_list in Hf.
    apply list_elem_of_bind in Hin as ([e' executor] & Hin & He).
    apply elem_of_map_to_list in He.
    apply list_elem_of_bind in Hin as ([t' x'] & Hin & Ht).
    apply elem_of_map_to_list in Ht.
    apply list_elem_of_singleton in Hin as [= -> -> -> ->]. eauto.
  - intros (framework & executor & Hf & He & Ht).
    exists (f, framework). split; [|by apply elem_of_map_to_list].
    apply list_elem_of_bind. exists (e, executor). split; [|by apply elem_of_map_to_list].
    apply list_elem_of_bind. exists (t, x). split; [|by apply elem_of_map_to_list].
    by apply list_elem_of_singleton.
Qed.

Lemma NoDup_launched_entries s : NoDup (launched_entries s).
Proof.
  unfold launched_entries. apply NoDup_bind; [| |apply NoDup_map_to_list].
  { intros [f1 fw1] [f2 fw2] [[[f e] t] x] H1 H2 Hin1 Hin2.
    apply elem_of_map_to_list in H1, H2.
    apply list_elem_of_bind in Hin1 as ([e1 ex1] & Hin1 & _).
    apply list_elem_of_bind in Hin1 as ([t1 x1] & Hin1 & _).
    apply list_elem_of_singleton in Hin1 as [= -> -> -> ->].
    apply list_elem_of_bind in Hin2 as ([e2 ex2] & Hin2 & _).
    apply list_elem_of_bind in Hin2 as ([t2 x2] & Hin2 & _).
    apply list_elem_of_singleton in Hin2 as [= -> -> -> ->]. congruence. }
  intros [f framework] _. apply NoDup_bind; [| |apply NoDup_map_to_list].
  { intros [e1 ex1] [e2 ex2] [[[f' e] t] x] H1 H2 Hin1 Hin2.
    apply elem_of_map_to_list in H1, H2.
    apply list_elem_of_bind in Hin1 as ([t1 x1] & Hin1 & _).
    apply list_elem_of_singleton in Hin1 as [= -> -> -> ->].
    apply list_elem_of_bind in Hin2 as ([t2 x2] & Hin2 & _).
    apply list_elem_of_singleton in Hin2 as [= -> -> ->]. congruence. }
  intros [e executor] _. apply NoDup_bind; [| |apply NoDup_map_to_list].
  { intros [t1 x1] [t2 x2] [[[f' e'] t] x] _ _ Hin1 Hin2.
    apply list_elem_of_singleton in Hin1 as [= -> -> -> ->].
    by apply list_elem_of_singleton in Hin2 as [= -> ->]. }
  intros [t x] _. apply NoDup_singleton.
Qed.

(** C9.  With a non-empty slave id, NewMasterDetected records the new
    master, links to it and sends it exactly one message, a ReregisterSlave
    whose tasks are, as a multiset, the launched tasks of all executors of
    all frameworks: the task records of a duplicate-free list of entries
    (framework, executor, task id, record) that holds exactly the entries of
    the [launchedTasks] maps. *)
Theorem newMasterDetected_reregisters (pid : UPID) s :
  s_id s ≠ "" →
  ∃ entries : list (string * string * string * Task R),
    newMasterDetected pid s =
      Some (set_s_master pid s,
            [Link pid; Send pid (ReregisterSlaveMessage (s_id s) (s_info s) entries.*2)]) ∧
    NoDup entries ∧
    ∀ f e t x,
      (f, e, t, x) ∈ entries ↔
      ∃ framework executor,
        frameworks s !! f = Some framework ∧ executors framework !! e = Some executor ∧
        launchedTasks executor !! t = Some x.
Proof.
  intros Hid. exists (launched_entries s). split; [|split].
  - unfold newMasterDetected. simpl. rewrite bool_decide_false by done.
    by rewrite <- running_tasks_entries.
  - apply NoDup_launched_entries.
  - apply elem_of_launched_entries.
Qed.

(** ** The resource ledger *)

Lemma executor_at_Some f e s executor :
  executor_at f e s = Some executor ↔
  ∃ framework, frameworks s !! f = Some framework ∧ executors framework !! e = Some executor.
Proof.
  unfold executor_at, getFramework, getExecutor. split.
  - destruct (frameworks s !! f) as [framework|]; [simpl|done]. eauto.
  - by intros (framework & -> & ?).
Qed.

Lemma executor_at_store f e k k' (executor' : Executor R) framework s :
  executor_at f e (store_framework k (store_executor k' executor' framework) s) =
  if decide (k = f)
  then if decide (k' = e) then Some executor' else executors framework !! e
  else executor_at f e s.
Proof.
  unfold executor_at, getFramework, getExecutor, store_framework. simpl.
  rewrite lookup_insert. case_decide; [simpl|done]. apply lookup_insert.
Qed.

Lemma notifications_cons_RC f e f' e' (r : R) out :
  notifications f e (ResourcesChanged f' e' r :: out) =
  if bool_decide (f' = f ∧ e' = e) then S (notifications f e out) else notifications f e out.
Proof.
  unfold notifications. simpl. by destruct (bool_decide (f' = f ∧ e' = e)).
Qed.

Lemma destroyExecutor_lookup k framework e :
  executors (destroyExecutor k framework) !! e =
  if decide (k = e) then None else executors framework !! e.
Proof.
  unfold destroyExecutor. destruct (contains _ _) eqn:Hc; simpl.
  - apply lookup_delete.
  - apply contains_None in Hc. case_decide; by subst.
Qed.

Lemma executor_at_store_framework f e k (framework' : Framework R) s :
  executor_at f e (store_framework k framework' s) =
  if decide (k = f) then executors framework' !! e else executor_at f e s.
Proof.
  unfold executor_at, getFramework, getExecutor, store_framework. simpl.
  rewrite lookup_insert. by case_decide.
Qed.

Lemma flush_notifications f e framework ts executor x executor' x' out :
  flush framework ts executor x = Some (executor', x', out) → notifications f e out = 0.
Proof.
  revert executor x executor' x' out.
  induction ts as [|task ts IH]; intros executor x executor' x' out; simpl.
  - by intros [= <- <- <-].
  - destruct (addTask task executor) as [executor1|]; [simpl|done].
    destruct (flush framework ts executor1 _) as [[[executor2 x2] out2]|] eqn:Hflush;
      [simpl|done].
    intros [= <- <- <-]. by apply IH in Hflush.
Qed.

(** A handler leaves the ledger of an executor as it was, unless it
    dispatched exactly one resourcesChanged for that executor. *)
Lemma handle_notifies ev s s' out f e executor executor' :
  reachable s →
  handle ev s = Some (s', out) →
  executor_at f e s = Some executor →
  executor_at f e s' = Some executor' →
  e_resources executor' = e_resources executor ∨ notifications f e out = 1.
Proof.
  intros Hr Hh Hat Hat'.
  assert (Hfw : frameworks_ok s) by by apply reachable_frameworks_ok.
  assert (Hek : ∀ f framework k e, frameworks s !! f = Some framework →
                  executors framework !! k = Some e → e_id e = k).
  { intros. by eapply reachable_executor_key. }
  assert (Hsame : frameworks s' = frameworks s → e_resources executor' = e_resources executor).
  { intros Heq. unfold executor_at, getFramework in *. rewrite Heq in Hat'. congruence. }
  destruct ev; simpl in Hh.
  - left. apply Hsame. revert Hh. unfold newMasterDetected.
    case_bool_decide; by intros [= <- <-].
  - left. apply Hsame. by injection Hh as <- <-.
  - left. apply Hsame. by injection Hh as <- <-.
  - left. apply Hsame. revert Hh. unfold reregistered.
    case_bool_decide; [by intros [= <- <-]|done].
  - (* runTask *)
    revert Hh. unfold runTask.
    set (framework := match getFramework frameworkId s with
                      | Some framework => framework
                      | None => new_Framework frameworkId frameworkInfo pid
                      end).
    set (executorInfo := match td_executor task with
                         | Some executorInfo => executorInfo
                         | None => fi_executor (f_info framework)
                         end).
    assert (Hfr : f = frameworkId → frameworks s !! f = Some framework).
    { intros ->. apply executor_at_Some in Hat as (framework0 & Hf0 & _).
      subst framework. unfold getFramework. by rewrite Hf0. }
    unfold getExecutor.
    destruct (executors framework !! ei_executor_id executorInfo) as [executor0|] eqn:He.
    + destruct (pid_unset (e_pid executor0)) eqn:Hpid.
      * intros [= <- <-]. left. rewrite executor_at_store in Hat'.
        case_decide as Hf; [subst f|congruence].
        apply executor_at_Some in Hat as (framework0 & Hf0 & He0).
        rewrite (Hfr eq_refl) in Hf0. injection Hf0 as <-.
        case_decide; [|congruence]. subst e. injection Hat' as <-. simpl. congruence.
      * destruct (addTask task executor0) as [executor1|] eqn:Hadd; [simpl|done].
        intros [= <- <-]. unfold set_stats in Hat'.
        change (executor_at f e (store_framework frameworkId
                  (store_executor (ei_executor_id executorInfo) executor1 framework) s)
                = Some executor') in Hat'.
        rewrite executor_at_store in Hat'.
        case_decide as Hf; [subst f|left; congruence].
        apply executor_at_Some in Hat as (framework0 & Hf0 & He0).
        rewrite (Hfr eq_refl) in Hf0. injection Hf0 as <-.
        case_decide as Hk; [|left; congruence]. subst e. right.
        unfold notifications. simpl. rewrite bool_decide_true; [done|].
        destruct (Hfw _ _ (Hfr eq_refl)) as [-> _]. split; [done|].
        apply addTask_Some in Hadd as [_ ->]. simpl. apply (Hek _ _ _ _ (Hfr eq_refl) He).
    + unfold createExecutor. rewrite (proj2 (contains_None _ _) He). simpl.
      intros [= <- <-]. left. rewrite executor_at_store in Hat'.
      case_decide as Hf; [subst f|congruence].
      apply executor_at_Some in Hat as (framework0 & Hf0 & He0).
      rewrite (Hfr eq_refl) in Hf0. injection Hf0 as <-.
      case_decide as Hk; [subst e; congruence|].
      simpl in Hat'. rewrite lookup_insert_ne in Hat' by done. congruence.
  - (* killTask *)
    revert Hh. unfold killTask, getFramework.
    destruct (frameworks s !! frameworkId) as [framework|] eqn:Hl;
      [|intros [= <- <-]; left; by apply Hsame].
    destruct (getExecutor_task taskId framework) as [[k executor0]|] eqn:Hg;
      [|intros [= <- <-]; left; by apply Hsame].
    apply getExecutor_task_Some in Hg as [Hk _].
    destruct (pid_unset (e_pid executor0)); [|intros [= <- <-]; left; by apply Hsame].
    intros [= <- <-]. rewrite executor_at_store in Hat'.
    case_decide as Hf; [subst f|left; congruence].
    apply executor_at_Some in Hat as (framework0 & Hf0 & He0).
    rewrite Hl in Hf0. injection Hf0 as <-.
    case_decide as Hk'; [subst e|left; congruence]. right.
    rewrite notifications_cons_RC, bool_decide_true; [done|].
    destruct (Hfw _ _ Hl) as [-> _]. split; [done|].
    destruct (removeTask_fixed taskId executor0) as (-> & _). by eapply Hek.
  - (* killFramework *)
    revert Hh. unfold killFramework, getFramework.
    destruct (frameworks s !! frameworkId) as [framework|] eqn:Hl;
      [|intros [= <- <-]; left; by apply Hsame].
    intros [= Hrm]. left.
    pose proof (removeFramework_frameworks frameworkId framework true s
                  (proj1 (Hfw _ _ Hl))) as Hd.
    rewrite Hrm in Hd. simpl in Hd.
    apply executor_at_Some in Hat' as (framework' & Hf' & He').
    apply executor_at_Some in Hat as (framework0 & Hf0 & He0).
    rewrite Hd, lookup_delete in Hf'. case_decide; [done|]. congruence.
  - left. apply Hsame. revert Hh. unfold schedulerMessage, getFramework, getExecutor.
    repeat case_match; by intros [= <- <-].
  - (* updateFramework *)
    revert Hh. unfold updateFramework, getFramework.
    destruct (frameworks s !! frameworkId) as [framework|] eqn:Hl;
      [|intros [= <- <-]; left; by apply Hsame].
    intros [= <- <-]. left. rewrite executor_at_store_framework in Hat'.
    case_decide as Hf; [subst f|congruence].
    apply executor_at_Some in Hat as (framework0 & Hf0 & He0). simpl in Hat'. congruence.
  - (* statusUpdateAcknowledgement *)
    revert Hh. unfold statusUpdateAcknowledgement, getFramework.
    destruct (frameworks s !! frameworkId) as [framework|] eqn:Hl;
      [|intros [= <- <-]; left; by apply Hsame].
    destruct (contains _ _); [|intros [= <- <-]; left; by apply Hsame].
    intros [= <- <-]. left. rewrite executor_at_store_framework in Hat'.
    case_decide as Hf; [subst f|congruence].
    apply executor_at_Some in Hat as (framework0 & Hf0 & He0). simpl in Hat'. congruence.
  - (* registerExecutor *)
    revert Hh. unfold registerExecutor, getFramework, getExecutor.
    destruct (frameworks s !! frameworkId) as [framework|] eqn:Hl;
      [|intros [= <- <-]; left; by apply Hsame].
    destruct (executors framework !! executorId) as [executor0|] eqn:He;
      [|intros [= <- <-]; left; by apply Hsame].
    case_bool_decide; [intros [= <- <-]; left; by apply Hsame|].
    destruct (flush _ _ _ _) as [[[executor2 x] out2]|] eqn:Hflush; [simpl|done].
    intros [= <- <-].
    change (executor_at f e (store_framework frameworkId
              (store_executor executorId (set_queuedTasks ∅ executor2) framework) s)
            = Some executor') in Hat'.
    rewrite executor_at_store in Hat'.
    case_decide as Hf; [subst f|left; congruence].
    apply executor_at_Some in Hat as (framework0 & Hf0 & He0).
    rewrite Hl in Hf0. injection Hf0 as <-.
    case_decide as Hk'; [subst e|left; congruence]. right.
    rewrite notifications_cons_RC, bool_decide_true.
    + unfold notifications. simpl. f_equal.
      by apply (flush_notifications frameworkId executorId) in Hflush.
    + destruct (Hfw _ _ Hl) as [-> _]. split; [done|]. simpl. by eapply Hek.
  - (* statusUpdate *)
    revert Hh. unfold statusUpdate, getFramework.
    destruct (frameworks s !! su_framework_id update) as [framework|] eqn:Hl;
      [|intros [= <- <-]; left; by apply Hsame].
    destruct (getExecutor_task _ framework) as [[k executor0]|] eqn:Hg;
      [|intros [= <- <-]; left; by apply Hsame].
    apply getExecutor_task_Some in Hg as [Hk _].
    intros [= <- <-].
    match type of Hat' with
    | executor_at _ _ (set_stats _ ?s1) = _ =>
        change (executor_at f e s1 = Some executor') in Hat'
    end.
    rewrite executor_at_store_framework in Hat'.
    case_decide as Hf; [subst f|left; congruence].
    apply executor_at_Some in Hat as (framework0 & Hf0 & He0).
    rewrite Hl in Hf0. injection Hf0 as <-.
    simpl in Hat'. rewrite lookup_insert in Hat'.
    case_decide as Hk'; [subst e|left; congruence].
    injection Hat' as <-. rewrite He0 in Hk. injection Hk as <-.
    destruct (updateTaskState_fixed (ts_task_id (su_status update))
                (ts_state (su_status update)) executor) as (Hid & _ & Hres & _).
    destruct (terminal _).
    + right. simpl. rewrite notifications_cons_RC, bool_decide_true; [done|].
      destruct (Hfw _ _ Hl) as [-> _]. split; [done|].
      destruct (removeTask_fixed (ts_task_id (su_status update))
                  (updateTaskState (ts_task_id (su_status update))
                     (ts_state (su_status update)) executor)) as (-> & _).
      rewrite Hid. by eapply Hek.
    + by left.
  - left. apply Hsame. revert Hh. unfold executorMessage, getFramework.
    repeat case_match; by intros [= <- <-].
  - left. apply Hsame. by injection Hh as <- <-.
  - left. apply Hsame. revert Hh. unfold statusUpdateTimeout, getFramework.
    repeat case_match; by intros [= <- <-].
  - left. apply Hsame. by injection Hh as <- <-.
  - left. apply Hsame. by injection Hh as <- <-.
  - (* executorExited *)
    revert Hh. unfold executorExited, getFramework, getExecutor.
    destruct (frameworks s !! frameworkId) as [framework|] eqn:Hl;
      [|intros [= <- <-]; left; by apply Hsame].
    destruct (executors framework !! executorId) as [executor0|] eqn:He;
      [|intros [= <- <-]; left; by apply Hsame].
    simpl.
    assert (Hid : f_id (destroyExecutor (e_id executor0) framework) = frameworkId).
    { unfold destroyExecutor. destruct (contains _ _); simpl; by eapply Hfw. }
    apply executor_at_Some in Hat as (framework0 & Hf0 & He0).
    case_bool_decide as Hsize.
    + pose proof (removeFramework_frameworks frameworkId _ true s Hid) as Hd.
      destruct (removeFramework _ _ _ _) as [s1 out3]. intros [= <- <-]. left.
      apply executor_at_Some in Hat' as (framework' & Hf' & He').
      simpl in Hd. rewrite Hd, lookup_delete in Hf'. case_decide; [done|]. congruence.
    + intros [= <- <-]. left. rewrite executor_at_store_framework in Hat'.
      case_decide as Hf.
      * subst f. rewrite Hl in Hf0. injection Hf0 as <-.
        rewrite destroyExecutor_lookup in Hat'. case_decide; [done|]. congruence.
      * apply executor_at_Some in Hat' as (framework' & Hf' & He'). congruence.
Qed.

Section ledger.
Context `{!ResourceLaws R}.

Lemma radd_swap (a b c : R) : radd (radd a b) c = radd (radd a c) b.
Proof. by rewrite !radd_assoc, (radd_comm b c). Qed.

Lemma launched_resources_empty : launched_resources (∅ : gmap string (Task R)) = rzero.
Proof. apply map_fold_empty. Qed.

Lemma launched_resources_insert (l : gmap string (Task R)) t x :
  l !! t = None →
  launched_resources (<[t := x]> l) = radd (launched_resources l) (t_resources x).
Proof.
  intros Hl. unfold launched_resources.
  rewrite map_fold_insert_L; [done| |done]. intros. apply radd_swap.
Qed.

Lemma launched_resources_delete (l : gmap string (Task R)) t x :
  l !! t = Some x →
  launched_resources l = radd (launched_resources (delete t l)) (t_resources x).
Proof.
  intros Hl. rewrite <- (launched_resources_insert (delete t l) t x).
  - by rewrite insert_delete_id.
  - apply lookup_delete_eq.
Qed.

(** The ledger is kept by every method that touches an executor. *)
Lemma ledger_addTask task e e' : ledger_ok e → addTask task e = Some e' → ledger_ok e'.
Proof.
  unfold ledger_ok. intros Hok Hadd. apply addTask_Some in Hadd as [Hfresh ->]. simpl.
  by rewrite launched_resources_insert, Hok.
Qed.

Lemma ledger_removeTask taskId e : ledger_ok e → ledger_ok (removeTask taskId e).
Proof.
  unfold ledger_ok. intros Hok.
  rewrite removeTask_e_resources, removeTask_launchedTasks.
  destruct (launchedTasks e !! taskId) as [x|] eqn:Hl.
  - rewrite Hok, (launched_resources_delete _ _ _ Hl). apply rsub_radd.
  - by rewrite delete_id.
Qed.

Lemma ledger_updateTaskState taskId st e : ledger_ok e → ledger_ok (updateTaskState taskId st e).
Proof.
  unfold ledger_ok, updateTaskState. intros Hok.
  destruct (launchedTasks e !! taskId) as [x|] eqn:Hl; [simpl|done].
  rewrite <- insert_delete_eq, launched_resources_insert by apply lookup_delete_eq.
  simpl. by rewrite Hok, (launched_resources_delete _ _ _ Hl).
Qed.

(** The ledger invariant. *)
Lemma reachable_ledger s f framework e executor :
  reachable s → frameworks s !! f = Some framework → executors framework !! e = Some executor →
  ledger_ok executor.
Proof.
  intros Hr Hf He.
  refine (reachable_executors_ok (λ _ e, ledger_ok e) _ _ _ _ _ _ _ s Hr
            f framework Hf e executor He); simpl; try done.
  - intros _ e0 task e' Hok _. by apply ledger_addTask.
  - intros _ e0 taskId. apply ledger_removeTask.
  - intros _ e0 taskId st. apply ledger_updateTaskState.
Qed.

End ledger.

(** C2 (amended).  When the bundle operations obey the laws of an exact
    sum, the resources field of every executor is, in every reachable state,
    the sum of the resources of its launched tasks.  Whatever the bundle
    operations are, a handler that leaves an executor with a different
    resources field dispatched exactly one resourcesChanged for that
    executor. *)
Theorem resource_ledger s :
  reachable s →
  (ResourceLaws R →
   ∀ f e executor, executor_at f e s = Some executor →
     e_resources executor = launched_resources (launchedTasks executor))
  ∧
  (∀ ev s' out f e executor executor',
     handle ev s = Some (s', out) →
     executor_at f e s = Some executor →
     executor_at f e s' = Some executor' →
     e_resources executor' ≠ e_resources executor →
     notifications f e out = 1).
Proof.
  intros Hr. split.
  - intros Hlaws f e executor Hat. apply executor_at_Some in Hat as (framework & Hf & He).
    by eapply reachable_ledger.
  - intros ev s' out f e executor executor' Hh Hat Hat' Hne.
    by destruct (handle_notifies ev s s' out f e executor executor' Hr Hh Hat Hat').
Qed.

Lemma notifications_sends f e (out : list (Effect R)) :
  Forall (λ eff, is_Send eff = true) out → notifications f e out = 0.
Proof.
  unfold notifications. induction 1 as [|eff out Heff _ IH]; [done|].
  simpl. by destruct eff.
Qed.

(** An executor that has not registered has the empty bundle as its
    resources, whatever the bundle operations are. *)
Lemma reachable_unregistered_resources s f framework k e :
  reachable s → frameworks s !! f = Some framework → executors framework !! k = Some e →
  e_pid e = UPID_empty → e_resources e = rzero.
Proof.
  intros Hr Hf He Hpid.
  cut (e_pid e = UPID_empty → launchedTasks e = ∅ ∧ e_resources e = rzero).
  { intros Hcut. by destruct (Hcut Hpid). }
  clear Hpid.
  refine (reachable_executors_ok
            (λ _ e, e_pid e = UPID_empty → launchedTasks e = ∅ ∧ e_resources e = rzero)
            _ _ _ _ _ _ _ s Hr f framework Hf k e He); clear; simpl; try done.
  - intros _ e task e' _ Hpid Hadd Hpid'. apply addTask_Some in Hadd as [_ ->]. done.
  - intros _ e taskId IH Hpid.
    destruct (removeTask_fixed taskId e) as (_ & Hp & _). rewrite Hp in Hpid.
    destruct (IH Hpid) as [Hl Hres].
    rewrite removeTask_launchedTasks, removeTask_e_resources, Hl, lookup_empty.
    split; [apply delete_empty|done].
  - intros _ e taskId st IH Hpid.
    destruct (updateTaskState_fixed taskId st e) as (_ & Hp & _).
    rewrite Hp in Hpid. destruct (IH Hpid) as [Hl Hres].
    rewrite updateTaskState_absent; [done|]. by rewrite Hl, lookup_empty.
Qed.

(** The flush loop adds the bundles of the tasks to the resources of the
    executor, one after the other. *)
Lemma flush_resources framework ts e x e' x' out :
  flush framework ts e x = Some (e', x', out) →
  e_resources e' = foldl (λ r task, radd r (td_resources task)) (e_resources e) ts.
Proof.
  revert e x e' x' out. induction ts as [|task ts IH]; intros e x e' x' out; simpl.
  - by intros [= <- <- <-].
  - destruct (addTask task e) as [e1|] eqn:Hadd; [simpl|done].
    destruct (flush framework ts e1 _) as [[[e2 x2] out2]|] eqn:Hflush; [simpl|done].
    intros [= <- <- <-]. rewrite (IH _ _ _ _ _ Hflush).
    by apply addTask_Some in Hadd as [_ ->].
Qed.

(** X1.  The one resourcesChanged of an accepted registration is dispatched
    before the queue is flushed: it carries the empty bundle, while the
    resources after the handler are the bundles of the tasks that were
    queued, added one after the other to the empty bundle in the traversal
    order of the queue.  No law of the bundle operations is needed. *)
Theorem registerExecutor_notifies_before_flush (from : UPID) (F : FrameworkID)
    (E : ExecutorID) s executor :
  reachable s →
  from ≠ UPID_empty →
  executor_at F E s = Some executor →
  e_pid executor = UPID_empty →
  ∃ s' out executor',
    registerExecutor from F E s = Some (s', ResourcesChanged F E rzero :: out) ∧
    notifications F E out = 0 ∧
    executor_at F E s' = Some executor' ∧
    launchedTasks executor' =
      (λ task : TaskDescription R,
         {| t_name := td_name task; t_task_id := td_task_id task;
            t_framework_id := e_frameworkId executor; t_executor_id := e_id executor;
            t_slave_id := td_slave_id task; t_state := TASK_STARTING;
            t_resources := td_resources task |}) <$> queuedTasks executor ∧
    e_resources executor' =
      foldl (λ r task, radd r (td_resources task)) rzero
        (hashmap_values (queuedTasks executor)).
Proof.
  intros Hr Hfrom Hat Hpid. apply executor_at_Some in Hat as (framework & Hf & He).
  pose proof (reachable_frameworks_ok _ Hr _ _ Hf) as [Hfid _].
  pose proof (reachable_executor_key _ _ _ _ _ Hr Hf He) as Heid.
  pose proof (reachable_unregistered_resources _ _ _ _ _ Hr Hf He Hpid) as Hres.
  destruct (registerExecutor_accepts from F E s framework executor)
    as (executor2 & Hreg & Hp2 & Hid2 & Hl2); [done..|].
  assert (Hres2 : e_resources executor2 =
            foldl (λ r task, radd r (td_resources task)) rzero
              (hashmap_values (queuedTasks executor))).
  { revert Hreg. unfold registerExecutor, getFramework, getExecutor. rewrite Hf, He.
    rewrite bool_decide_false by (by intros Hne; apply Hne). simpl.
    destruct (flush _ _ _ _) as [[[executor3 x3] out3]|] eqn:Hflush; [simpl|done].
    intros [= Hstate _]. apply flush_resources in Hflush. simpl in Hflush.
    rewrite Hres in Hflush. rewrite <- Hflush.
    apply (f_equal (λ m, m !! F ≫= λ framework', executors framework' !! E)) in Hstate.
    rewrite !lookup_insert_eq in Hstate. simpl in Hstate.
    rewrite !lookup_insert_eq in Hstate. injection Hstate. intros. congruence. }
  assert (Hlaunched : launchedTasks executor2 = new_Task executor <$> queuedTasks executor).
  { apply map_eq. intros t. by rewrite Hl2, lookup_fmap. }
  eexists _, _, (set_queuedTasks ∅ executor2). split.
  { rewrite Hreg, Hfid, Heid, Hres. reflexivity. }
  split; [apply notifications_sends; constructor; [done|]; by apply Forall_fmap, Forall_true|].
  split; [|done].
  unfold executor_at, getFramework, getExecutor. simpl.
  rewrite lookup_insert_eq. simpl. by rewrite lookup_insert_eq.
Qed.

(** ** Retention of framework records *)

Lemma dom_delete_empty {V : Type} (m : gmap string V) (k : string) (v : V) :
  m !! k = Some v → delete k m = ∅ → dom m = {[k]}.
Proof.
  intros Hk Hd. rewrite <- (insert_delete_id m k v Hk), Hd.
  by rewrite dom_insert_L, dom_empty_L, union_empty_r_L.
Qed.

(** C3 (amended).  In every reachable state every framework record has at
    least one executor; and a handler removes a framework record only in
    KillFramework for that framework, or in executorExited for the only
    executor the framework has -- whether or not [updates] is empty. *)
Theorem framework_retention s :
  reachable s →
  (∀ f framework, frameworks s !! f = Some framework → executors framework ≠ ∅)
  ∧
  (∀ ev s' out f framework,
     handle ev s = Some (s', out) →
     frameworks s !! f = Some framework →
     frameworks s' !! f = None →
     ev = KillFramework f ∨
     ∃ e status, ev = ExecutorExited f e status ∧ dom (executors framework) = {[e]}).
Proof.
  intros Hr.
  assert (Hfw : frameworks_ok s) by by apply reachable_frameworks_ok.
  split; [intros f framework Hf; by destruct (Hfw _ _ Hf)|].
  intros ev s' out f framework Hh Hf Hf'.
  assert (Hsame : frameworks s' = frameworks s → False).
  { intros Heq. rewrite Heq in Hf'. congruence. }
  assert (Hins : ∀ k (framework' : Framework R),
            frameworks s' = <[k := framework']> (frameworks s) → False).
  { intros k framework' Heq. rewrite Heq, lookup_insert in Hf'.
    case_decide; congruence. }
  destruct ev; simpl in Hh.
  - exfalso. apply Hsame. revert Hh. unfold newMasterDetected.
    case_bool_decide; by intros [= <- <-].
  - exfalso. apply Hsame. by injection Hh as <- <-.
  - exfalso. apply Hsame. by injection Hh as <- <-.
  - exfalso. apply Hsame. revert Hh. unfold reregistered.
    case_bool_decide; [by intros [= <- <-]|done].
  - (* runTask *)
    exfalso.
    revert Hh. unfold runTask, createExecutor, getExecutor.
    destruct (executors _ !! _) as [executor0|] eqn:He.
    + destruct (pid_unset (e_pid executor0)); [intros [= <- <-]; by eapply Hins|].
      destruct (addTask task executor0); [simpl|done]. intros [= <- <-]. by eapply Hins.
    + rewrite (proj2 (contains_None _ _) He). simpl. intros [= <- <-]. by eapply Hins.
  - (* killTask *)
    exfalso.
    revert Hh. unfold killTask.
    destruct (getFramework frameworkId s) as [framework0|];
      [|intros [= <- <-]; by apply Hsame].
    destruct (getExecutor_task taskId framework0) as [[k executor0]|];
      [|intros [= <- <-]; by apply Hsame].
    destruct (pid_unset (e_pid executor0)); intros [= <- <-];
      [by eapply Hins|by apply Hsame].
  - (* killFramework *)
    revert Hh. unfold killFramework, getFramework.
    destruct (frameworks s !! frameworkId) as [framework0|] eqn:Hl;
      [|intros [= <- <-]; exfalso; by apply Hsame].
    intros [= Hrm]. left.
    pose proof (removeFramework_frameworks frameworkId framework0 true s
                  (proj1 (Hfw _ _ Hl))) as Hd.
    rewrite Hrm in Hd. simpl in Hd. rewrite Hd, lookup_delete in Hf'.
    case_decide; [by subst|congruence].
  - exfalso. apply Hsame. revert Hh. unfold schedulerMessage, getFramework, getExecutor.
    repeat case_match; by intros [= <- <-].
  - (* updateFramework *)
    exfalso.
    revert Hh. unfold updateFramework.
    destruct (getFramework frameworkId s) as [framework0|]; intros [= <- <-];
      [by eapply Hins|by apply Hsame].
  - (* statusUpdateAcknowledgement *)
    exfalso.
    revert Hh. unfold statusUpdateAcknowledgement.
    destruct (getFramework frameworkId s) as [framework0|];
      [|intros [= <- <-]; by apply Hsame].
    destruct (contains _ _); intros [= <- <-]; [by eapply Hins|by apply Hsame].
  - (* registerExecutor *)
    exfalso.
    revert Hh. unfold registerExecutor.
    destruct (getFramework frameworkId s) as [framework0|];
      [|intros [= <- <-]; by apply Hsame].
    destruct (getExecutor executorId framework0) as [executor0|];
      [|intros [= <- <-]; by apply Hsame].
    case_bool_decide; [intros [= <- <-]; by apply Hsame|].
    destruct (flush _ _ _ _) as [[[executor2 x] out2]|]; [simpl|done].
    intros [= <- <-]. by eapply Hins.
  - (* statusUpdate *)
    exfalso.
    revert Hh. unfold statusUpdate.
    destruct (getFramework (su_framework_id update) s) as [framework0|];
      [|intros [= <- <-]; by apply Hsame].
    destruct (getExecutor_task _ framework0) as [[k executor0]|];
      intros [= <- <-]; [by eapply Hins|by apply Hsame].
  - exfalso. apply Hsame. revert Hh. unfold executorMessage, getFramework.
    repeat case_match; by intros [= <- <-].
  - exfalso. apply Hsame. by injection Hh as <- <-.
  - exfalso. apply Hsame. revert Hh. unfold statusUpdateTimeout, getFramework.
    repeat case_match; by intros [= <- <-].
  - exfalso. apply Hsame. by injection Hh as <- <-.
  - exfalso. apply Hsame. by injection Hh as <- <-.
  - (* executorExited *)
    revert Hh. unfold executorExited, getFramework, getExecutor.
    destruct (frameworks s !! frameworkId) as [framework0|] eqn:Hl;
      [|intros [= <- <-]; exfalso; by apply Hsame].
    destruct (executors framework0 !! executorId) as [executor0|] eqn:He;
      [|intros [= <- <-]; exfalso; by apply Hsame].
    simpl.
    assert (Hid : f_id (destroyExecutor (e_id executor0) framework0) = frameworkId).
    { unfold destroyExecutor. destruct (contains _ _); simpl; by eapply Hfw. }
    assert (Hk : e_id executor0 = executorId) by by eapply reachable_executor_key.
    case_bool_decide as Hsize.
    + pose proof (removeFramework_frameworks frameworkId _ true s Hid) as Hd.
      destruct (removeFramework _ _ _ _) as [s1 out3]. intros [= <- <-]. right.
      simpl in Hd. rewrite Hd, lookup_delete in Hf'.
      case_decide; [subst f|congruence]. rewrite Hl in Hf. injection Hf as <-.
      exists executorId, status. split; [done|].
      apply map_size_empty_iff in Hsize. rewrite Hk in Hsize.
      unfold destroyExecutor in Hsize.
      rewrite (proj2 (contains_Some _ _)) in Hsize by by rewrite He.
      by eapply dom_delete_empty.
    + intros [= <- <-]. exfalso. by eapply Hins.
Qed.

(** ** Unacknowledged updates *)

Lemma removeFramework_lookup k framework kill s f framework' :
  frameworks s !! k = Some framework →
  frameworks (removeFramework k framework kill s).1 !! f = Some framework' →
  ∃ framework0, frameworks s !! f = Some framework0 ∧
                updates framework' = updates framework0.
Proof.
  intros Hk. unfold removeFramework.
  pose proof (removeExecutors_updates (hashmap_values (executors framework)) kill framework)
    as Hup.
  destruct (removeExecutors _ _ _) as [framework1 out]. simpl in *.
  rewrite lookup_delete. case_decide; [done|]. rewrite lookup_insert.
  case_decide; [intros [= <-]; subst|]; eauto.
Qed.

(** A handler other than the acknowledgement for task [t] of framework [f]
    keeps [updates[t]] of [f] populated, as long as it keeps the record of
    [f]. *)
Lemma handle_keeps_update ev s s' out f t framework framework' :
  handle ev s = Some (s', out) →
  not_ack f t ev →
  frameworks s !! f = Some framework →
  is_Some (updates framework !! t) →
  frameworks s' !! f = Some framework' →
  is_Some (updates framework' !! t).
Proof.
  intros Hh Hack Hf Hu Hf'.
  assert (Hsame : frameworks s' = frameworks s → is_Some (updates framework' !! t)).
  { intros Heq. rewrite Heq in Hf'. congruence. }
  assert (Hins : ∀ k (framework0 framework1 : Framework R),
            frameworks s' = <[k := framework1]> (frameworks s) →
            getFramework k s = Some framework0 →
            updates framework1 = updates framework0 →
            is_Some (updates framework' !! t)).
  { intros k framework0 framework1 Heq Hk Hup. unfold getFramework in Hk.
    rewrite Heq, lookup_insert in Hf'.
    case_decide; [subst k|congruence]. injection Hf' as <-. rewrite Hup. congruence. }
  destruct ev; simpl in Hh.
  - apply Hsame. revert Hh. unfold newMasterDetected.
    case_bool_decide; by intros [= <- <-].
  - apply Hsame. by injection Hh as <- <-.
  - apply Hsame. by injection Hh as <- <-.
  - apply Hsame. revert Hh. unfold reregistered.
    case_bool_decide; [by intros [= <- <-]|done].
  - (* runTask *)
    revert Hh. unfold runTask, createExecutor, getExecutor.
    destruct (getFramework frameworkId s) as [framework0|] eqn:Hl.
    + destruct (executors _ !! _) as [executor0|] eqn:He.
      * destruct (pid_unset (e_pid executor0)); [intros [= <- <-]; by eapply Hins|].
        destruct (addTask task executor0); [simpl|done]. intros [= <- <-]. by eapply Hins.
      * rewrite (proj2 (contains_None _ _) He). simpl. intros [= <- <-]. by eapply Hins.
    + assert (Hne : frameworkId ≠ f) by (intros ->; unfold getFramework in Hl; congruence).
      assert (Hins' : ∀ framework1 : Framework R,
                frameworks s' = <[frameworkId := framework1]> (frameworks s) →
                is_Some (updates framework' !! t)).
      { intros framework1 Heq. rewrite Heq, lookup_insert_ne in Hf' by done. congruence. }
      destruct (executors _ !! _) as [executor0|] eqn:He.
      * destruct (pid_unset (e_pid executor0)); [intros [= <- <-]; by eapply Hins'|].
        destruct (addTask task executor0); [simpl|done]. intros [= <- <-]. by eapply Hins'.
      * rewrite (proj2 (contains_None _ _) He). simpl. intros [= <- <-]. by eapply Hins'.
  - (* killTask *)
    revert Hh. unfold killTask.
    destruct (getFramework frameworkId s) as [framework0|] eqn:Hl;
      [|intros [= <- <-]; by apply Hsame].
    destruct (getExecutor_task taskId framework0) as [[k executor0]|];
      [|intros [= <- <-]; by apply Hsame].
    destruct (pid_unset (e_pid executor0)); intros [= <- <-];
      [by eapply Hins|by apply Hsame].
  - (* killFramework *)
    revert Hh. unfold killFramework.
    destruct (getFramework frameworkId s) as [framework0|] eqn:Hl;
      [|intros [= <- <-]; by apply Hsame].
    intros [= Hrm].
    pose proof (removeFramework_lookup frameworkId framework0 true s f framework' Hl) as Hd.
    rewrite Hrm in Hd. destruct (Hd Hf') as (framework1 & Hf1 & ->). congruence.
  - apply Hsame. revert Hh. unfold schedulerMessage, getFramework, getExecutor.
    repeat case_match; by intros [= <- <-].
  - (* updateFramework *)
    revert Hh. unfold updateFramework.
    destruct (getFramework frameworkId s) as [framework0|] eqn:Hl; intros [= <- <-];
      [by eapply Hins|by apply Hsame].
  - (* statusUpdateAcknowledgement *)
    revert Hh. unfold statusUpdateAcknowledgement.
    destruct (getFramework frameworkId s) as [framework0|] eqn:Hl;
      [|intros [= <- <-]; by apply Hsame].
    destruct (contains _ _); intros [= <- <-]; [|by apply Hsame].
    simpl in Hf'. rewrite lookup_insert in Hf'. unfold getFramework in Hl.
    case_decide; [subst frameworkId|congruence]. injection Hf' as <-. simpl.
    rewrite lookup_delete_ne; [congruence|]. intros ->. by apply Hack.
  - (* registerExecutor *)
    revert Hh. unfold registerExecutor.
    destruct (getFramework frameworkId s) as [framework0|] eqn:Hl;
      [|intros [= <- <-]; by apply Hsame].
    destruct (getExecutor executorId framework0) as [executor0|];
      [|intros [= <- <-]; by apply Hsame].
    case_bool_decide; [intros [= <- <-]; by apply Hsame|].
    destruct (flush _ _ _ _) as [[[executor2 x] out2]|]; [simpl|done].
    intros [= <- <-]. by eapply Hins.
  - (* statusUpdate *)
    revert Hh. unfold statusUpdate.
    destruct (getFramework (su_framework_id update) s) as [framework0|] eqn:Hl;
      [|intros [= <- <-]; by apply Hsame].
    destruct (getExecutor_task _ framework0) as [[k executor0]|];
      intros [= <- <-]; [|by apply Hsame].
    simpl in Hf'. rewrite lookup_insert in Hf'. unfold getFramework in Hl.
    case_decide; [|congruence]. injection Hf' as <-. simpl.
    rewrite lookup_insert. case_decide; [eauto|]. congruence.
  - apply Hsame. revert Hh. unfold executorMessage, getFramework.
    repeat case_match; by intros [= <- <-].
  - apply Hsame. by injection Hh as <- <-.
  - apply Hsame. revert Hh. unfold statusUpdateTimeout, getFramework.
    repeat case_match; by intros [= <- <-].
  - apply Hsame. by injection Hh as <- <-.
  - apply Hsame. by injection Hh as <- <-.
  - (* executorExited *)
    revert Hh. unfold executorExited.
    destruct (getFramework frameworkId s) as [framework0|] eqn:Hl;
      [|intros [= <- <-]; by apply Hsame].
    destruct (getExecutor executorId framework0) as [executor0|];
      [|intros [= <- <-]; by apply Hsame].
    simpl.
    assert (Hup : updates (destroyExecutor (e_id executor0) framework0) = updates framework0).
    { unfold destroyExecutor. by destruct (contains _ _). }
    case_bool_decide as Hsize.
    + pose proof (removeFramework_lookup frameworkId
                    (destroyExecutor (e_id executor0) framework0) true
                    (store_framework frameworkId
                       (destroyExecutor (e_id executor0) framework0) s) f framework') as Hd.
      assert (Heq : removeFramework frameworkId
                      (destroyExecutor (e_id executor0) framework0) true
                      (store_framework frameworkId
                         (destroyExecutor (e_id executor0) framework0) s) =
                    removeFramework frameworkId
                      (destroyExecutor (e_id executor0) framework0) true s).
      { unfold removeFramework. destruct (removeExecutors _ _ _). simpl.
        by rewrite insert_insert_eq. }
      rewrite Heq in Hd. destruct (removeFramework _ _ _ _) as [s1 out3].
      intros [= <- <-]. destruct Hd as (framework1 & Hf1 & ->).
      { simpl. apply lookup_insert_eq. }
      { done. }
      simpl in Hf1. rewrite lookup_insert in Hf1. unfold getFramework in Hl.
      case_decide; [subst; injection Hf1 as <-; rewrite Hup|]; congruence.
    + intros [= <- <-]. by eapply Hins.
Qed.

(** The same along a run of handlers. *)
Lemma serve_keeps_update evs s s' out f t framework :
  serve evs s = Some (s', out) →
  Forall (not_ack f t) evs →
  retained f evs s →
  frameworks s !! f = Some framework →
  is_Some (updates framework !! t) →
  ∃ framework', frameworks s' !! f = Some framework' ∧ is_Some (updates framework' !! t).
Proof.
  revert s out framework.
  induction evs as [|ev evs IH]; intros s out framework; simpl.
  - intros [= <- <-]. eauto.
  - destruct (handle ev s) as [[s1 out1]|] eqn:Hh; [simpl|done].
    destruct (serve evs s1) as [[s2 out2]|] eqn:Hs; [simpl|done].
    intros [= <- <-] Hack [[framework1 Hf1] Hret] Hf Hu.
    apply Forall_cons in Hack as [Hack1 Hack].
    eapply IH; [done..|].
    by eapply handle_keeps_update.
Qed.

(** C4 (amended).  An update accepted by [statusUpdate] is sent to the
    master with the reliable flag, its timer is armed, and it is stored.  As
    long as no acknowledgement for the task is handled and the record of the
    framework stays in the map, [updates] keeps an entry for the task; and
    then the timer, when it fires, sends to the master one StatusUpdate
    carrying the very update the timer was armed with, reliable flag set --
    as it does in any state in which [updates] has an entry for the task. *)
Theorem at_least_once update s0 framework k executor s1 out1 evs s2 out2 :
  getFramework (su_framework_id update) s0 = Some framework →
  getExecutor_task (ts_task_id (su_status update)) framework = Some (k, executor) →
  statusUpdate update s0 = Some (s1, out1) →
  serve evs s1 = Some (s2, out2) →
  Forall (not_ack (su_framework_id update) (ts_task_id (su_status update))) evs →
  retained (su_framework_id update) evs s1 →
  Send (s_master s0) (StatusUpdateMessage update true) ∈ out1 ∧
  DelayStatusUpdateTimeout update ∈ out1 ∧
  (∃ framework1,
     frameworks s1 !! su_framework_id update = Some framework1 ∧
     updates framework1 !! ts_task_id (su_status update) = Some update) ∧
  (∃ framework2,
     frameworks s2 !! su_framework_id update = Some framework2 ∧
     is_Some (updates framework2 !! ts_task_id (su_status update))) ∧
  statusUpdateTimeout update s2 =
    Some (s2, [Send (s_master s2) (StatusUpdateMessage update true)]) ∧
  (∀ s framework',
     getFramework (su_framework_id update) s = Some framework' →
     is_Some (updates framework' !! ts_task_id (su_status update)) →
     statusUpdateTimeout update s =
       Some (s, [Send (s_master s) (StatusUpdateMessage update true)])).
Proof.
  intros Hf Hg Hupdate Hserve Hack Hret.
  assert (Hfires : ∀ s framework',
            getFramework (su_framework_id update) s = Some framework' →
            is_Some (updates framework' !! ts_task_id (su_status update)) →
            statusUpdateTimeout update s =
              Some (s, [Send (s_master s) (StatusUpdateMessage update true)])).
  { intros s framework' Hf' Hu'. unfold statusUpdateTimeout. rewrite Hf'.
    by rewrite (proj2 (contains_Some _ _) Hu'). }
  rewrite (statusUpdate_known _ _ _ _ _ Hf Hg) in Hupdate. simpl in Hupdate.
  injection Hupdate as <- <-.
  split; [apply elem_of_app; right; by left|].
  split; [apply elem_of_app; right; right; by left|].
  split.
  { eexists. split; [simpl; apply lookup_insert_eq|]. simpl. apply lookup_insert_eq. }
  edestruct (serve_keeps_update evs) as (framework2 & Hf2 & Hu2); [done..| | |].
  { simpl. apply lookup_insert_eq. }
  { simpl. rewrite lookup_insert_eq. eauto. }
  split; [eauto|]. split; [|exact Hfires].
  by apply (Hfires s2 framework2).
Qed.

(** X2.  After a StatusUpdateAcknowledgement for task [t] of framework [f],
    the [updates] of [f] hold no entry for [t]; nothing is sent. *)
Theorem ack_clears (slaveId : SlaveID) (f : FrameworkID) (t : TaskID) s :
  ∃ s',
    statusUpdateAcknowledgement slaveId f t s = Some (s', []) ∧
    ∀ framework, getFramework f s' = Some framework → updates framework !! t = None.
Proof.
  unfold statusUpdateAcknowledgement, getFramework.
  destruct (frameworks s !! f) as [framework|] eqn:Hf.
  - destruct (contains (updates framework) t) eqn:Hc.
    + eexists. split; [done|]. intros framework'. simpl. rewrite lookup_insert_eq.
      intros [= <-]. simpl. apply lookup_delete_eq.
    + eexists. split; [done|]. intros framework'. rewrite Hf. intros [= <-].
      by apply contains_None.
  - eexists. split; [done|]. intros framework'. by rewrite Hf.
Qed.

(** ** Queue, then drain *)

(** A RunTask meant for an executor that has no endpoint sends nothing: it
    queues the task, after creating the framework and the executor where
    they are missing. *)
Lemma runTask_enqueues (F : FrameworkID) (E : ExecutorID) (a : Arrival R) s info :
  (∀ executor, executor_at F E s = Some executor → e_pid executor = UPID_empty) →
  info_after F [a] s = Some info →
  target info (a_task a) = E →
  ∃ s1 out1 framework1 executor1,
    handle (arrival_event F a) s = Some (s1, out1) ∧
    Forall (λ eff, is_Send eff = false) out1 ∧
    getFramework F s1 = Some framework1 ∧
    f_info framework1 = info ∧
    getExecutor E framework1 = Some executor1 ∧
    e_pid executor1 = UPID_empty ∧
    queuedTasks executor1 = enqueue (queued_at F E s) a.
Proof.
  intros Hpid Hinfo Htarget. unfold info_after in Hinfo. unfold queued_at.
  unfold executor_at in *. simpl. unfold runTask.
  destruct (getFramework F s) as [framework|] eqn:Hf; simpl in *.
  - injection Hinfo as <-. unfold target in Htarget. rewrite Htarget.
    destruct (getExecutor E framework) as [executor|] eqn:He.
    + rewrite (proj2 (pid_unset_true _) (Hpid _ eq_refl)).
      eexists _, _, _, _. split; [done|]. split; [constructor|].
      unfold getFramework, getExecutor, store_framework. simpl.
      rewrite lookup_insert_eq. split; [done|]. split; [done|]. simpl.
      rewrite lookup_insert_eq. split; [done|]. split; [exact (Hpid _ eq_refl)|done].
    + unfold createExecutor. unfold getExecutor in He.
      rewrite <- Htarget in He. rewrite (proj2 (contains_None _ _) He). simpl.
      rewrite Htarget.
      eexists _, _, _, _. split; [done|]. split; [by repeat constructor|].
      unfold getFramework, getExecutor, store_framework. simpl.
      rewrite lookup_insert_eq. split; [done|]. split; [done|]. simpl.
      rewrite lookup_insert_eq. done.
  - injection Hinfo as <-. unfold target in Htarget. rewrite Htarget.
    unfold getExecutor, createExecutor. simpl. rewrite lookup_empty.
    unfold contains. simpl. rewrite lookup_empty.
    rewrite bool_decide_false by (by intros [? ?]). simpl. rewrite Htarget.
    eexists _, _, _, _. split; [done|]. split; [by repeat constructor|].
    unfold getFramework, getExecutor, store_framework. simpl.
    rewrite lookup_insert_eq. split; [done|]. split; [done|]. simpl.
    rewrite lookup_insert_eq. done.
Qed.

Lemma serve_cons (ev : Event R) evs s :
  serve (ev :: evs) s =
  '(s1, out1) ← handle ev s; '(s2, out2) ← serve evs s1; Some (s2, out1 ++ out2).
Proof. done. Qed.

(** A run of such RunTask messages: nothing is sent, and the queue of the
    executor grows by the tasks, in arrival order. *)
Lemma serve_arrivals (F : FrameworkID) (E : ExecutorID) (arrivals : list (Arrival R)) s info :
  reachable s →
  (∀ executor, executor_at F E s = Some executor → e_pid executor = UPID_empty) →
  is_Some (executor_at F E s) ∨ arrivals ≠ [] →
  info_after F arrivals s = Some info →
  Forall (λ a, target info (a_task a) = E) arrivals →
  ∃ s1 out1 framework1 executor1,
    serve (arrival_event F <$> arrivals) s = Some (s1, out1) ∧
    reachable s1 ∧
    Forall (λ eff, is_Send eff = false) out1 ∧
    getFramework F s1 = Some framework1 ∧
    getExecutor E framework1 = Some executor1 ∧
    e_pid executor1 = UPID_empty ∧
    queuedTasks executor1 = foldl enqueue (queued_at F E s) arrivals.
Proof.
  revert s. induction arrivals as [|a arrivals IH]; intros s Hr Hpid Hex Hinfo Htarget.
  - destruct Hex as [[executor Hat]|]; [|done].
    pose proof (Hpid _ Hat) as Hp. unfold queued_at. rewrite Hat.
    apply executor_at_Some in Hat as (framework & Hf & He).
    exists s, [], framework, executor. simpl. by repeat split.
  - apply Forall_cons in Htarget as [Ha Htarget].
    destruct (runTask_enqueues F E a s info) as
      (s1 & out1 & framework1 & executor1 & Hh & Hout1 & Hf1 & Hinfo1 & He1 & Hp1 & Hq1);
      [done| |done|].
    { revert Hinfo. unfold info_after. by destruct (getFramework F s). }
    assert (Hat1 : executor_at F E s1 = Some executor1).
    { unfold executor_at. by rewrite Hf1. }
    destruct (IH s1) as
      (s2 & out2 & framework2 & executor2 & Hs & Hr2 & Hout2 & Hf2 & He2 & Hp2 & Hq2).
    + eapply reachable_handle; [exact Hr| |exact Hh]. exact I.
    + intros executor. rewrite Hat1. by intros [= <-].
    + left. by rewrite Hat1.
    + unfold info_after. by rewrite Hf1, Hinfo1.
    + done.
    + exists s2, (out1 ++ out2), framework2, executor2.
      rewrite fmap_cons, serve_cons, Hh. simpl. rewrite Hs. simpl.
      split; [done|]. split; [done|]. split; [by apply Forall_app|].
      split; [done|]. split; [done|]. split; [done|].
      rewrite Hq2. simpl. unfold queued_at at 1. by rewrite Hat1, Hq1.
Qed.

(** The traversal of a queue filled with tasks of distinct ids visits each
    of them once. *)
Lemma map_to_list_enqueue (arrivals : list (Arrival R)) (q : gmap string (TaskDescription R)) :
  NoDup ((λ a, td_task_id (a_task a)) <$> arrivals) →
  (∀ a, a ∈ arrivals → q !! td_task_id (a_task a) = None) →
  map_to_list (foldl enqueue q arrivals) ≡ₚ
  map_to_list q ++ ((λ a, (td_task_id (a_task a), a_task a)) <$> arrivals).
Proof.
  revert q. induction arrivals as [|a arrivals IH]; intros q Hnd Hfresh; simpl.
  - by rewrite app_nil_r.
  - rewrite fmap_cons in Hnd. apply NoDup_cons in Hnd as [Hnotin Hnd].
    rewrite IH; [|done|].
    + unfold enqueue at 1. rewrite map_to_list_insert by (apply Hfresh; left).
      simpl. apply Permutation_middle.
    + intros a' Hin. unfold enqueue. rewrite lookup_insert_ne.
      * apply Hfresh. by right.
      * intros Heq. apply Hnotin. rewrite Heq.
        by apply (list_elem_of_fmap_2 (λ a, td_task_id (a_task a))).
Qed.

(** C1 (amended).  RunTask messages for tasks of distinct ids that arrive
    for an executor without endpoint and with an empty queue, followed by
    its RegisterExecutor: the RunTask handlers send nothing; the registration
    dispatches resourcesChanged and sends the executor one ExecutorRegistered
    followed by one RunTask per task, in the traversal order of the queue (a
    permutation of the arrival order); afterwards the queue is empty and
    [launchedTasks] holds exactly these tasks, in state STARTING. *)
Theorem queue_then_drain (from : UPID) (F : FrameworkID) (E : ExecutorID)
    (arrivals : list (Arrival R)) s info :
  reachable s →
  (∀ executor, executor_at F E s = Some executor →
     e_pid executor = UPID_empty ∧ queuedTasks executor = ∅) →
  is_Some (executor_at F E s) ∨ arrivals ≠ [] →
  info_after F arrivals s = Some info →
  Forall (λ a, target info (a_task a) = E) arrivals →
  NoDup ((λ a, td_task_id (a_task a)) <$> arrivals) →
  ∃ s1 out1 s2 framework executor r args drained,
    serve (arrival_event F <$> arrivals) s = Some (s1, out1) ∧
    Forall (λ eff, is_Send eff = false) out1 ∧
    getFramework F s1 = Some framework ∧
    registerExecutor from F E s1 =
      Some (s2, ResourcesChanged F E r
                :: Send from (ExecutorRegisteredMessage args)
                :: ((λ task, Send from
                               (RunTaskMessage (f_info framework) (f_id framework)
                                  (f_pid framework) task)) <$> drained)) ∧
    ea_framework_id args = F ∧ ea_executor_id args = E ∧
    drained ≡ₚ a_task <$> arrivals ∧
    executor_at F E s2 = Some executor ∧
    e_pid executor = from ∧
    queuedTasks executor = ∅ ∧
    dom (launchedTasks executor) =
      list_to_set ((λ a, td_task_id (a_task a)) <$> arrivals) ∧
    (∀ a, a ∈ arrivals →
       ∃ x, launchedTasks executor !! td_task_id (a_task a) = Some x ∧
            t_task_id x = td_task_id (a_task a) ∧
            t_executor_id x = E ∧
            t_state x = TASK_STARTING ∧
            t_name x = td_name (a_task a) ∧
            t_resources x = td_resources (a_task a)).
Proof.
  intros Hr Hfresh Hex Hinfo Htarget Hnd.
  assert (Hq0 : queued_at F E s = ∅).
  { unfold queued_at. destruct (executor_at F E s) as [executor|] eqn:Hat; [|done].
    by destruct (Hfresh _ eq_refl). }
  destruct (serve_arrivals F E arrivals s info) as
    (s1 & out1 & framework1 & executor1 & Hs & Hr1 & Hout1 & Hf1 & He1 & Hp1 & Hq1);
    [done| |done..|].
  { intros executor Hat. by destruct (Hfresh _ Hat). }
  rewrite Hq0 in Hq1.
  destruct (registerExecutor_accepts from F E s1 framework1 executor1)
    as (executor2 & Hreg & Hp2 & Hid2 & Hl2); [done..|].
  pose proof (reachable_frameworks_ok _ Hr1 _ _ Hf1) as [Hfid _].
  pose proof (reachable_executor_key _ _ _ _ _ Hr1 Hf1 He1) as Heid.
  pose proof (map_to_list_enqueue arrivals ∅ Hnd (λ a _, lookup_empty _)) as Hperm.
  rewrite map_to_list_empty in Hperm. simpl in Hperm. rewrite <- Hq1 in Hperm.
  assert (Hlook : ∀ a, a ∈ arrivals →
            queuedTasks executor1 !! td_task_id (a_task a) = Some (a_task a)).
  { intros a Hin. apply elem_of_map_to_list. rewrite Hperm.
    by apply (list_elem_of_fmap_2 (λ a, (td_task_id (a_task a), a_task a))). }
  eexists s1, out1, _, framework1, (set_queuedTasks ∅ executor2), _, _,
    (hashmap_values (queuedTasks executor1)).
  split; [done|]. split; [done|]. split; [done|].
  split; [rewrite Hreg, Hfid, Heid; reflexivity|].
  split; [done|]. split; [done|]. split.
  { unfold hashmap_values, hashmap_items. rewrite Hperm.
    rewrite <- list_fmap_compose. done. }
  split.
  { unfold executor_at, getFramework, getExecutor, store_framework. simpl.
    rewrite lookup_insert_eq. simpl. by rewrite lookup_insert_eq. }
  split; [done|]. split; [done|]. split.
  - simpl. apply set_eq. intros t. rewrite elem_of_dom, Hl2, elem_of_list_to_set.
    rewrite fmap_is_Some. split.
    + intros [task Ht]. apply elem_of_map_to_list in Ht. rewrite Hperm in Ht.
      apply list_elem_of_fmap in Ht as (a & [= -> ->] & Hin).
      by apply (list_elem_of_fmap_2 (λ a, td_task_id (a_task a))).
    + intros Hin. apply list_elem_of_fmap in Hin as (a & -> & Hin).
      rewrite (Hlook _ Hin). eauto.
  - intros a Hin. simpl. rewrite Hl2, (Hlook _ Hin). simpl.
    eexists. split; [done|]. simpl. by repeat split.
Qed.

(** * More of the handlers *)

(** ** Invariants that hold between handlers only

    [reachable_executors_ok] asks that [P] survives each executor method on
    its own.  Some invariants are broken inside a handler and restored
    before it returns: here [P] has to survive what each handler does to an
    executor as a whole, under the conditions the handler checked. *)

Section executor_transitions.
Variable P : ExecutorID → Executor R → Prop.
Hypothesis P_create : ∀ frameworkId info directory task,
  P (ei_executor_id info)
    (set_queuedTasks (<[td_task_id task := task]> ∅)
       (new_Executor frameworkId info directory)).
Hypothesis P_enqueue : ∀ k e task,
  P k e → e_pid e = UPID_empty →
  P k (set_queuedTasks (<[td_task_id task := task]> (queuedTasks e)) e).
Hypothesis P_launch : ∀ k e task e',
  P k e → e_pid e ≠ UPID_empty → addTask task e = Some e' → P k e'.
Hypothesis P_kill : ∀ k e taskId,
  P k e → e_pid e = UPID_empty → P k (removeTask taskId e).
Hypothesis P_status : ∀ k e taskId st,
  P k e →
  P k (if terminal st then removeTask taskId (updateTaskState taskId st e)
       else updateTaskState taskId st e).
Hypothesis P_register : ∀ k e from framework x e' x' out,
  P k e → e_pid e = UPID_empty → from ≠ UPID_empty →
  flush framework (hashmap_values (queuedTasks e)) (set_e_pid from e) x =
    Some (e', x', out) →
  P k (set_queuedTasks ∅ e').

Lemma handle_transitions ev s s' out :
  delivered ev → all_executors P s → handle ev s = Some (s', out) → all_executors P s'.
Proof.
  intros Hdel Hok. destruct ev; simpl.
  - unfold newMasterDetected. case_bool_decide; by intros [= <- <-].
  - by intros [= <- <-].
  - by intros [= <- <-].
  - unfold reregistered. case_bool_decide; [by intros [= <- <-]|done].
  - (* runTask *)
    unfold runTask.
    set (framework := match getFramework frameworkId s with
                      | Some framework => framework
                      | None => new_Framework frameworkId frameworkInfo pid
                      end).
    assert (Hf : all_executors_of P framework).
    { subst framework. unfold getFramework.
      destruct (frameworks s !! frameworkId) eqn:Hl; [by eapply Hok|].
      intros k e. simpl. by rewrite lookup_empty. }
    set (executorInfo := match td_executor task with
                         | Some executorInfo => executorInfo
                         | None => fi_executor (f_info framework)
                         end).
    unfold getExecutor.
    destruct (executors framework !! ei_executor_id executorInfo) as [executor|] eqn:He.
    + destruct (pid_unset (e_pid executor)) eqn:Hpid.
      * intros [= <- <-]. apply store_framework_ok; [done|].
        apply store_executor_ok; [done|].
        apply P_enqueue; [by eapply Hf|by apply pid_unset_true].
      * destruct (addTask task executor) as [executor'|] eqn:Hadd; [simpl|done].
        intros [= <- <-].
        apply (store_framework_ok P frameworkId _ s); [done|].
        apply store_executor_ok; [done|].
        eapply P_launch; [by eapply Hf| |done]. by apply pid_unset_false.
    + unfold createExecutor. rewrite (proj2 (contains_None _ _) He). simpl.
      intros [= <- <-]. apply store_framework_ok; [done|].
      intros k e. simpl. rewrite lookup_insert.
      case_decide as Hk; [intros [= <-]; subst k; apply P_create|].
      rewrite lookup_insert_ne by done. apply Hf.
  - (* killTask *)
    unfold killTask, getFramework.
    destruct (frameworks s !! frameworkId) as [framework|] eqn:Hl; [|by intros [= <- <-]].
    destruct (getExecutor_task taskId framework) as [[k executor]|] eqn:Hg;
      [|by intros [= <- <-]].
    apply getExecutor_task_Some in Hg as [Hk _].
    destruct (pid_unset (e_pid executor)) eqn:Hpid; [|by intros [= <- <-]].
    intros [= <- <-]. apply store_framework_ok; [done|].
    apply store_executor_ok; [by eapply Hok|].
    apply P_kill; [by eapply Hok|by apply pid_unset_true].
  - (* killFramework *)
    unfold killFramework, getFramework.
    destruct (frameworks s !! frameworkId) as [framework|] eqn:Hl; [|by intros [= <- <-]].
    intros [= Hrm]. pose proof (removeFramework_ok P frameworkId framework true s Hok) as H'.
    rewrite Hrm in H'. apply H'. by eapply Hok.
  - unfold schedulerMessage, getFramework, getExecutor.
    repeat case_match; by intros [= <- <-].
  - (* updateFramework *)
    unfold updateFramework, getFramework.
    destruct (frameworks s !! frameworkId) as [framework|] eqn:Hl; [|by intros [= <- <-]].
    intros [= <- <-]. apply store_framework_ok; [done|]. intros k e. simpl. by eapply Hok.
  - (* statusUpdateAcknowledgement *)
    unfold statusUpdateAcknowledgement, getFramework.
    destruct (frameworks s !! frameworkId) as [framework|] eqn:Hl; [|by intros [= <- <-]].
    destruct (contains _ _); [|by intros [= <- <-]].
    intros [= <- <-]. apply store_framework_ok; [done|]. intros k e. simpl. by eapply Hok.
  - (* registerExecutor *)
    unfold registerExecutor, getFramework, getExecutor.
    destruct (frameworks s !! frameworkId) as [framework|] eqn:Hl; [|by intros [= <- <-]].
    destruct (executors framework !! executorId) as [executor|] eqn:He;
      [|by intros [= <- <-]].
    case_bool_decide as Hpid; [by intros [= <- <-]|].
    destruct (flush _ _ _ _) as [[[executor2 x] out2]|] eqn:Hflush; [simpl|done].
    intros [= <- <-]. apply (store_framework_ok P frameworkId _ s); [done|].
    apply store_executor_ok; [by eapply Hok|].
    eapply P_register; [by eapply Hok| |exact Hdel|exact Hflush].
    by destruct (decide (e_pid executor = UPID_empty)).
  - (* statusUpdate *)
    unfold statusUpdate, getFramework.
    destruct (frameworks s !! su_framework_id update) as [framework|] eqn:Hl;
      [|by intros [= <- <-]].
    destruct (getExecutor_task _ framework) as [[k executor]|] eqn:Hg;
      [|by intros [= <- <-]].
    apply getExecutor_task_Some in Hg as [Hk _].
    intros [= <- <-]. apply (store_framework_ok P _ _ s); [done|].
    intros k' e'. simpl. apply store_executor_ok; [by eapply Hok|].
    apply P_status. by eapply Hok.
  - unfold executorMessage, getFramework. repeat case_match; by intros [= <- <-].
  - by intros [= <- <-].
  - unfold statusUpdateTimeout, getFramework. repeat case_match; by intros [= <- <-].
  - by intros [= <- <-].
  - by intros [= <- <-].
  - (* executorExited *)
    unfold executorExited, getFramework, getExecutor.
    destruct (frameworks s !! frameworkId) as [framework|] eqn:Hl; [|by intros [= <- <-]].
    destruct (executors framework !! executorId) as [executor|] eqn:He;
      [|by intros [= <- <-]].
    simpl. assert (Hf : all_executors_of P (destroyExecutor (e_id executor) framework)).
    { apply destroyExecutor_ok. by eapply Hok. }
    case_bool_decide.
    + pose proof (removeFramework_ok P frameworkId _ true s Hok Hf) as H'.
      destruct (removeFramework _ _ _ _) as [s1 out3]. by intros [= <- <-].
    + intros [= <- <-]. by apply store_framework_ok.
Qed.

Theorem reachable_transitions s : reachable s → all_executors P s.
Proof.
  induction 1 as [info|s ev s' out _ IH Hdel Hh].
  - intros f framework. simpl. by rewrite lookup_empty.
  - by eapply handle_transitions.
Qed.

End executor_transitions.

(** An executor that has registered has an empty queue. *)
Lemma reachable_registered s f framework k e :
  reachable s → frameworks s !! f = Some framework → executors framework !! k = Some e →
  e_pid e ≠ UPID_empty → queuedTasks e = ∅.
Proof.
  intros Hr Hf He.
  refine (reachable_transitions (λ _ e, e_pid e ≠ UPID_empty → queuedTasks e = ∅)
            _ _ _ _ _ _ s Hr f framework Hf k e He); clear; simpl; try done.
  - intros _ e task e' IH _ Hadd. apply addTask_Some in Hadd as [_ ->]. done.
  - intros _ e taskId _ Hpid Hpid'.
    destruct (removeTask_fixed taskId e) as (_ & Hp & _). congruence.
  - intros _ e taskId st IH.
    destruct (updateTaskState_fixed taskId st e) as (_ & Hp & _ & Hq).
    destruct (terminal st).
    + destruct (removeTask_fixed taskId (updateTaskState taskId st e)) as (_ & Hp' & _).
      rewrite Hp', Hp, removeTask_queuedTasks, Hq. intros Hpid.
      rewrite (IH Hpid). apply delete_empty.
    + by rewrite Hp, Hq.
Qed.

(** X3.  Between handlers an executor is in one of two phases: without
    endpoint it has launched nothing, with an endpoint it has nothing queued;
    so no task id is both queued and launched. *)
Theorem queued_or_launched s f e executor :
  reachable s →
  executor_at f e s = Some executor →
  (e_pid executor = UPID_empty → launchedTasks executor = ∅) ∧
  (e_pid executor ≠ UPID_empty → queuedTasks executor = ∅) ∧
  dom (queuedTasks executor) ## dom (launchedTasks executor).
Proof.
  intros Hr Hat. apply executor_at_Some in Hat as (framework & Hf & He).
  pose proof (reachable_unregistered _ _ _ _ _ Hr Hf He) as Hl.
  pose proof (reachable_registered _ _ _ _ _ Hr Hf He) as Hq.
  split; [done|]. split; [done|].
  destruct (decide (e_pid executor = UPID_empty)) as [Hpid|Hpid].
  - rewrite (Hl Hpid), dom_empty_L. apply disjoint_empty_r.
  - rewrite (Hq Hpid), dom_empty_L. apply disjoint_empty_l.
Qed.


(** ** Teardown *)

Lemma destroyExecutor_f_id k framework : f_id (destroyExecutor k framework) = f_id framework.
Proof. unfold destroyExecutor. by destruct (contains _ _). Qed.

Lemma removeExecutors_out es kill framework :
  (removeExecutors es kill framework).2 =
  if kill
  then es ≫= (λ e, [Send (e_pid e) ShutdownMessage; KillExecutor (f_id framework) (e_id e)])
  else [].
Proof.
  revert framework. induction es as [|e es IH]; intros framework; simpl.
  - by destruct kill.
  - specialize (IH (destroyExecutor (e_id e) framework)).
    destruct (removeExecutors es kill _) as [framework2 out2]. simpl in *.
    rewrite IH, destroyExecutor_f_id. by destruct kill.
Qed.

(** [removeFramework] on a record that is stored under its own id, as its
    executors are: it erases the record and tears down each executor. *)
Lemma removeFramework_tidy s f framework :
  f_id framework = f →
  (∀ k e, executors framework !! k = Some e → e_id e = k) →
  removeFramework f framework true s =
    (set_frameworks (delete f (frameworks s)) s,
     hashmap_items (executors framework) ≫= teardown f).
Proof.
  intros Hid Hkeys. unfold removeFramework.
  pose proof (removeExecutors_out (hashmap_values (executors framework)) true framework) as Hout.
  pose proof (removeExecutors_f_id (hashmap_values (executors framework)) true framework) as Hid'.
  destruct (removeExecutors _ _ _) as [framework' out]. simpl in *.
  rewrite Hid', Hid, delete_insert_eq. f_equal. rewrite Hout.
  unfold hashmap_values. rewrite list_fmap_bind. apply Forall_bind_ext.
  apply Forall_forall. intros [k e] Hin. apply elem_of_map_to_list in Hin.
  unfold teardown, compose. simpl. by rewrite Hid, (Hkeys _ _ Hin).
Qed.

Lemma removeFramework_reachable s f framework :
  reachable s → frameworks s !! f = Some framework →
  removeFramework f framework true s =
    (set_frameworks (delete f (frameworks s)) s,
     hashmap_items (executors framework) ≫= teardown f).
Proof.
  intros Hr Hf. destruct (reachable_frameworks_ok _ Hr _ _ Hf) as [Hid _].
  apply removeFramework_tidy; [done|]. intros k e. by eapply reachable_executor_key.
Qed.

(** X5.  KillFramework for an unknown framework does nothing.  For a known
    one it erases that framework record and no other, and emits, for each
    executor of the framework once, a Shutdown to the executor's endpoint
    followed by a killExecutor dispatch -- and nothing else. *)
Theorem killFramework_tears_down (f : FrameworkID) s :
  reachable s →
  (getFramework f s = None → killFramework f s = Some (s, [])) ∧
  (∀ framework, getFramework f s = Some framework →
     killFramework f s =
       Some (set_frameworks (delete f (frameworks s)) s,
             hashmap_items (executors framework) ≫= teardown f)).
Proof.
  intros Hr. unfold killFramework. split.
  - by intros ->.
  - intros framework Hf. rewrite Hf. f_equal. by apply removeFramework_reachable.
Qed.

(** X6.  The exit of an unknown executor is ignored.  The exit of a known
    one is reported to the master in one ExitedExecutor message, and that is
    all the handler emits: the executor is sent no Shutdown and no
    killExecutor is dispatched.  Its record is gone afterwards, every other
    executor is as before, and the framework record goes with it exactly when
    it was the framework's only executor. *)
Theorem executorExited_reports (f : FrameworkID) (e : ExecutorID) (status : Z) s :
  reachable s →
  (executor_at f e s = None → executorExited f e status s = Some (s, [])) ∧
  (∀ framework executor,
     getFramework f s = Some framework → getExecutor e framework = Some executor →
     ∃ s',
       executorExited f e status s =
         Some (s', [Send (s_master s) (ExitedExecutorMessage (s_id s) f e status)]) ∧
       executor_at f e s' = None ∧
       (∀ f' e', (f', e') ≠ (f, e) → executor_at f' e' s' = executor_at f' e' s) ∧
       (getFramework f s' = None ↔ dom (executors framework) = {[e]})).
Proof.
  intros Hr. unfold executorExited. split.
  - unfold executor_at. destruct (getFramework f s) as [framework|]; [simpl|done].
    by intros ->.
  - intros framework executor Hf He. rewrite Hf, He. simpl.
    unfold getFramework, getExecutor in *.
    destruct (reachable_frameworks_ok _ Hr _ _ Hf) as [Hid _].
    rewrite (reachable_executor_key _ _ _ _ _ Hr Hf He).
    assert (Hdestroy : destroyExecutor e framework =
              set_executors (delete e (executors framework)) framework).
    { unfold destroyExecutor. by rewrite (proj2 (contains_Some _ _)) by by rewrite He. }
    rewrite Hdestroy. simpl.
    assert (Hat : ∀ e', executor_at f e' s = executors framework !! e').
    { intros e'. unfold executor_at, getFramework, getExecutor. by rewrite Hf. }
    case_bool_decide as Hsize.
    + apply map_size_empty_iff in Hsize.
      assert (Hrm : removeFramework f
                      (set_executors (delete e (executors framework)) framework) true s =
                (set_frameworks (delete f (frameworks s)) s, [])).
      { unfold removeFramework. simpl. rewrite Hsize.
        unfold hashmap_values, hashmap_items. rewrite map_to_list_empty. simpl.
        by rewrite Hid, delete_insert_eq. }
      rewrite Hrm. eexists. split; [done|].
      unfold executor_at, getFramework, getExecutor. simpl. rewrite lookup_delete_eq.
      split; [done|]. split.
      * intros f' e' Hne. destruct (decide (f' = f)) as [->|Hf'].
        -- rewrite lookup_delete_eq. simpl. rewrite Hf. simpl.
           assert (e' ≠ e) by congruence.
           by rewrite <- (lookup_delete_ne (executors framework) e e'), Hsize, lookup_empty.
        -- by rewrite lookup_delete_ne.
      * split; [intros _; by eapply dom_delete_empty|done].
    + eexists. split; [done|].
      split; [rewrite executor_at_store_framework, decide_True by done;
              simpl; apply lookup_delete_eq|].
      split.
      * intros f' e' Hne. rewrite executor_at_store_framework.
        case_decide as Hf'; [subst f'|done]. simpl. rewrite Hat.
        apply lookup_delete_ne. congruence.
      * unfold getFramework. simpl. rewrite lookup_insert_eq. split; [done|].
        intros Hdom. exfalso. apply Hsize. apply map_size_empty_iff.
        apply dom_empty_iff_L. by rewrite dom_delete_L, Hdom, difference_diag_L.
Qed.

Lemma removeFrameworks_tidy (l : list (FrameworkID * Framework R)) s :
  (∀ f framework, (f, framework) ∈ l →
     f_id framework = f ∧ ∀ k e, executors framework !! k = Some e → e_id e = k) →
  removeFrameworks l s =
    (set_frameworks (foldl (λ m kf, delete kf.1 m) (frameworks s) l) s,
     l ≫= (λ kf, hashmap_items (executors kf.2) ≫= teardown kf.1)).
Proof.
  revert s. induction l as [|[f framework] l IH]; intros s Hl; simpl.
  - by destruct s.
  - destruct (Hl f framework) as [Hid Hkeys]; [by left|].
    rewrite (removeFramework_tidy s f framework Hid Hkeys).
    rewrite IH by (intros f' framework' Hin; apply Hl; by right). done.
Qed.

Lemma foldl_delete_lookup {V : Type} (l : list (string * V)) (m : gmap string V) k :
  foldl (λ m kf, delete kf.1 m) m l !! k = if decide (k ∈ l.*1) then None else m !! k.
Proof.
  revert m. induction l as [|[k' v] l IH]; intros m.
  - destruct (decide (k ∈ ([] : list (string * V)).*1)) as [Hin|Hin]; [|done].
    by apply elem_of_nil in Hin.
  - change (foldl (λ m kf, delete kf.1 m) (delete k' m) l !! k =
            if decide (k ∈ k' :: l.*1) then None else m !! k).
    rewrite IH. destruct (decide (k ∈ l.*1)) as [Hin|Hin].
    + destruct (decide (k ∈ k' :: l.*1)) as [|Hn]; [done|]. destruct Hn. by right.
    + rewrite lookup_delete. destruct (decide (k ∈ k' :: l.*1)) as [Hin'|Hn].
      * apply elem_of_cons in Hin' as [->|?]; [|done]. by rewrite decide_True.
      * rewrite decide_False; [done|]. intros ->. apply Hn. by left.
Qed.

(** X7.  On TERMINATE, in a reachable state, the slave erases every
    framework record and changes nothing else of its state; it emits, for
    each executor of each framework once, a Shutdown to the executor's
    endpoint followed by a killExecutor dispatch, and nothing else. *)
Theorem terminate_tears_down s :
  reachable s →
  terminate s =
    (set_frameworks ∅ s,
     hashmap_items (frameworks s) ≫=
       (λ kf, hashmap_items (executors kf.2) ≫= teardown kf.1)).
Proof.
  intros Hr. unfold terminate. rewrite removeFrameworks_tidy.
  - f_equal. f_equal. apply map_eq. intros k. rewrite foldl_delete_lookup, lookup_empty.
    case_decide as Hin; [done|]. destruct (frameworks s !! k) as [framework|] eqn:Hk; [|done].
    exfalso. apply Hin. apply list_elem_of_fmap. exists (k, framework).
    split; [done|]. by apply elem_of_map_to_list.
  - intros f framework Hin. apply elem_of_map_to_list in Hin.
    destruct (reachable_frameworks_ok _ Hr _ _ Hin) as [Hid _].
    split; [done|]. intros k e. by eapply reachable_executor_key.
Qed.

(** ** RunTask for an executor that has registered *)

(** X8.  A RunTask for a known framework whose target executor has
    registered: if the executor already has a launched task of that id the
    CHECK in addTask fails and the slave aborts.  Otherwise the task is
    launched with a fresh record in state STARTING, the ledger grows by the
    task's resources, the STARTING counter grows by one modulo 2^64, the
    queue is left alone, and the slave emits one RunTask to the executor's
    endpoint -- carrying the info and pid of the stored framework record, not
    those of the message -- followed by one resourcesChanged with the new
    ledger. *)
Theorem runTask_registered (frameworkInfo : FrameworkInfo) (F : FrameworkID) (pid : UPID)
    (task : TaskDescription R) (directory : string) s framework executor :
  getFramework F s = Some framework →
  getExecutor (target (f_info framework) task) framework = Some executor →
  e_pid executor ≠ UPID_empty →
  (is_Some (launchedTasks executor !! td_task_id task) →
   runTask frameworkInfo F pid task directory s = None) ∧
  (launchedTasks executor !! td_task_id task = None →
   ∃ s' executor',
     runTask frameworkInfo F pid task directory s =
       Some (s', [Send (e_pid executor)
                    (RunTaskMessage (f_info framework) (f_id framework)
                       (f_pid framework) task);
                  ResourcesChanged (f_id framework) (e_id executor)
                    (radd (e_resources executor) (td_resources task))]) ∧
     executor_at F (target (f_info framework) task) s' = Some executor' ∧
     launchedTasks executor' =
       <[td_task_id task :=
           {| t_name := td_name task; t_task_id := td_task_id task;
              t_framework_id := e_frameworkId executor; t_executor_id := e_id executor;
              t_slave_id := td_slave_id task; t_state := TASK_STARTING;
              t_resources := td_resources task |}]> (launchedTasks executor) ∧
     e_resources executor' = radd (e_resources executor) (td_resources task) ∧
     queuedTasks executor' = queuedTasks executor ∧
     e_pid executor' = e_pid executor ∧
     tasks (stats s') TASK_STARTING =
       ((tasks (stats s) TASK_STARTING + 1) mod 2 ^ 64)%Z ∧
     (∀ f e, (f, e) ≠ (F, target (f_info framework) task) →
        executor_at f e s' = executor_at f e s)).
Proof.
  intros Hf He Hpid. unfold runTask. rewrite Hf. unfold target in *. rewrite He.
  rewrite (proj2 (pid_unset_false _) Hpid). split.
  - intros Hl. unfold addTask. by rewrite (proj2 (contains_Some _ _) Hl).
  - intros Hl. unfold addTask. rewrite (proj2 (contains_None _ _) Hl). simpl.
    eexists _, _. split; [done|]. split.
    { unfold executor_at, getFramework, getExecutor. simpl.
      rewrite lookup_insert_eq. simpl. by rewrite lookup_insert_eq. }
    simpl. split; [done|]. split; [done|]. split; [done|]. split; [done|].
    split.
    { unfold incr_tasks. simpl. by destruct (decide (TASK_STARTING = TASK_STARTING)). }
    intros f e Hne. unfold executor_at at 1. unfold getFramework. simpl.
    rewrite lookup_insert. case_decide as Hk; [subst f; simpl|done].
    unfold getExecutor. simpl. rewrite lookup_insert_ne by congruence.
    unfold executor_at, getFramework in *. by rewrite Hf.
Qed.

(** ** What reaches the executor at its registration *)

(** X9.  A second RunTask with the id of a task that is still queued
    replaces the queued description.  Neither RunTask sends anything; the
    registration that follows sends the executor RunTask messages for tasks
    of pairwise distinct ids, the one for this id carries the later
    description, and the launched record is built from the later
    description. *)
Theorem requeue_replaces (from : UPID) (F : FrameworkID) (E : ExecutorID)
    (a1 a2 : Arrival R) s info :
  reachable s →
  (∀ executor, executor_at F E s = Some executor → e_pid executor = UPID_empty) →
  info_after F [a1; a2] s = Some info →
  target info (a_task a1) = E →
  target info (a_task a2) = E →
  td_task_id (a_task a1) = td_task_id (a_task a2) →
  ∃ s1 out1 s2 framework executor r args drained x,
    serve [arrival_event F a1; arrival_event F a2] s = Some (s1, out1) ∧
    Forall (λ eff, is_Send eff = false) out1 ∧
    getFramework F s1 = Some framework ∧
    registerExecutor from F E s1 =
      Some (s2, ResourcesChanged F E r
                :: Send from (ExecutorRegisteredMessage args)
                :: ((λ task, Send from
                               (RunTaskMessage (f_info framework) (f_id framework)
                                  (f_pid framework) task)) <$> drained)) ∧
    NoDup (td_task_id <$> drained) ∧
    a_task a2 ∈ drained ∧
    (a_task a1 ≠ a_task a2 → a_task a1 ∉ drained) ∧
    executor_at F E s2 = Some executor ∧
    launchedTasks executor !! td_task_id (a_task a2) = Some x ∧
    t_name x = td_name (a_task a2) ∧
    t_resources x = td_resources (a_task a2) ∧
    t_state x = TASK_STARTING.
Proof.
  intros Hr Hpid Hinfo Ht1 Ht2 Hsame.
  destruct (serve_arrivals F E [a1; a2] s info) as
    (s1 & out1 & framework1 & executor1 & Hs & Hr1 & Hout1 & Hf1 & He1 & Hp1 & Hq1);
    [done|done|by right|done|by repeat constructor|].
  simpl in Hq1. unfold enqueue in Hq1. rewrite Hsame in Hq1.
  destruct (registerExecutor_accepts from F E s1 framework1 executor1)
    as (executor' & Hreg & Hpid' & Hid' & Hl'); [done..|].
  unfold getFramework, getExecutor in Hf1, He1.
  destruct (reachable_frameworks_ok _ Hr1 _ _ Hf1) as [Hid _].
  pose proof (reachable_executor_key _ _ _ _ _ Hr1 Hf1 He1) as Hkey.
  assert (Hqkey : ∀ t task, queuedTasks executor1 !! t = Some task → td_task_id task = t).
  { intros t task. by eapply reachable_queued_key. }
  assert (Hnd : NoDup (td_task_id <$> hashmap_values (queuedTasks executor1))).
  { by apply hashmap_values_NoDup_ids. }
  assert (Hin2 : a_task a2 ∈ hashmap_values (queuedTasks executor1)).
  { apply elem_of_hashmap_values. exists (td_task_id (a_task a2)).
    by rewrite Hq1, lookup_insert_eq. }
  rewrite Hid, Hkey in Hreg.
  eexists s1, out1, _, framework1, (set_queuedTasks ∅ executor'), _, _,
    (hashmap_values (queuedTasks executor1)), (new_Task executor1 (a_task a2)).
  split; [exact Hs|]. split; [done|]. split; [done|]. split; [rewrite Hid; exact Hreg|].
  split; [done|]. split; [done|]. split.
  { intros Hne Hin1. apply elem_of_hashmap_values in Hin1 as [k Hk].
    pose proof (Hqkey _ _ Hk) as Hk'. rewrite Hsame in Hk'. subst k.
    rewrite Hq1, lookup_insert_eq in Hk. congruence. }
  split.
  { unfold executor_at, getFramework, getExecutor. simpl.
    rewrite lookup_insert_eq. simpl. by rewrite lookup_insert_eq. }
  simpl. split; [|done]. by rewrite Hl', Hq1, lookup_insert_eq.
Qed.

(** X10.  A KillTask for a task queued on an executor without endpoint
    takes the task out of the queue for good: the registration that follows
    sends no RunTask for that id, sends one for every other queued task, and
    leaves the executor without a record for the task. *)
Theorem kill_before_registration (from : UPID) (F : FrameworkID) (E : ExecutorID)
    (t : TaskID) (now : Z) s framework executor :
  reachable s →
  getFramework F s = Some framework →
  getExecutor_task t framework = Some (E, executor) →
  e_pid executor = UPID_empty →
  ∃ s1 out1 s2 out2 executor2,
    killTask F t now s = Some (s1, out1) ∧
    registerExecutor from F E s1 = Some (s2, out2) ∧
    (∀ to i f p task,
       Send to (RunTaskMessage i f p task) ∈ out2 → td_task_id task ≠ t) ∧
    (∀ t' task, queuedTasks executor !! t' = Some task → t' ≠ t →
       Send from (RunTaskMessage (f_info framework) (f_id framework)
                    (f_pid framework) task) ∈ out2) ∧
    executor_at F E s2 = Some executor2 ∧
    queuedTasks executor2 = ∅ ∧
    launchedTasks executor2 !! t = None.
Proof.
  intros Hr Hf Hget Hpid.
  assert (Hkill : killTask F t now s =
            Some (store_framework F (store_executor E (removeTask t executor) framework) s,
                  [ResourcesChanged (f_id framework) (e_id (removeTask t executor))
                     (e_resources (removeTask t executor));
                   Send (s_master s)
                     (StatusUpdateMessage
                        (fabricated (f_id framework) (Some (e_id (removeTask t executor)))
                           (s_id s) t TASK_KILLED now 0) false)])).
  { unfold killTask. rewrite Hf, Hget. by rewrite (proj2 (pid_unset_true _) Hpid). }
  assert (Hr1 : reachable
                  (store_framework F (store_executor E (removeTask t executor) framework) s)).
  { eapply (reachable_handle s (KillTask F t now)); [exact Hr|exact I|].
    simpl. exact Hkill. }
  destruct (getExecutor_task_Some _ _ _ _ Hget) as [He _].
  unfold getFramework in Hf.
  assert (Hqkey : ∀ t' task, queuedTasks executor !! t' = Some task → td_task_id task = t').
  { intros t' task. exact (reachable_queued_key s F framework E executor t' task Hr Hf He). }
  destruct (removeTask_fixed t executor) as (_ & Hp' & _).
  destruct (registerExecutor_accepts from F E _
              (store_executor E (removeTask t executor) framework) (removeTask t executor) Hr1)
    as (executor' & Hreg & Hpid' & Hid' & Hl').
  { unfold getFramework. simpl. by rewrite lookup_insert_eq. }
  { unfold getExecutor. simpl. by rewrite lookup_insert_eq. }
  { congruence. }
  simpl in Hreg. rewrite removeTask_queuedTasks in Hreg, Hl'.
  eexists _, _, _, _, (set_queuedTasks ∅ executor').
  split; [exact Hkill|]. split; [exact Hreg|]. split.
  { intros to i f p task Hin. apply elem_of_cons in Hin as [?|Hin]; [done|].
    apply elem_of_cons in Hin as [?|Hin]; [done|].
    apply list_elem_of_fmap in Hin as (task' & [= _ _ _ _ <-] & Hin).
    apply elem_of_hashmap_values in Hin as [k Hk].
    rewrite lookup_delete in Hk. case_decide as Hne; [done|].
    by rewrite (Hqkey _ _ Hk). }
  split.
  { intros t' task Hq Hne. do 2 apply list_elem_of_further.
    apply list_elem_of_fmap. exists task. split; [done|].
    apply elem_of_hashmap_values. exists t'. by rewrite lookup_delete_ne. }
  split.
  { unfold executor_at, getFramework, getExecutor. simpl.
    rewrite lookup_insert_eq. simpl. by rewrite lookup_insert_eq. }
  simpl. split; [done|]. by rewrite Hl', lookup_delete_eq.
Qed.

(** ** Status updates: the remaining cases *)

(** X11.  A status update is dropped exactly when its framework is unknown
    or no executor of the framework has the task queued or launched (the
    executor id in the update plays no part).  Dropping it forwards nothing
    to the master, arms no timer, records nothing and only increments
    invalidStatusUpdates. *)
Theorem statusUpdate_dropped update s :
  (∀ framework k executor,
     getFramework (su_framework_id update) s = Some framework →
     executors framework !! k = Some executor →
     queuedTasks executor !! ts_task_id (su_status update) = None ∧
     launchedTasks executor !! ts_task_id (su_status update) = None)
  ↔ statusUpdate update s =
      Some (set_stats (incr_invalidStatusUpdates (stats s)) s, []).
Proof.
  split.
  - intros Hnone. unfold statusUpdate.
    destruct (getFramework _ s) as [framework|] eqn:Hf; [|done].
    rewrite (proj2 (getExecutor_task_None _ framework)); [done|].
    intros k executor. by apply Hnone.
  - intros Hdrop framework k executor Hf He.
    destruct (getExecutor_task (ts_task_id (su_status update)) framework)
      as [[k' executor']|] eqn:Hget.
    + rewrite (statusUpdate_known _ _ _ _ _ Hf Hget) in Hdrop.
      injection Hdrop as _ Hout. by destruct (terminal _).
    + by eapply (proj1 (getExecutor_task_None _ framework)).
Qed.

(** X12.  A non-terminal update for a launched task sets the state of the
    task record and nothing else of the executor: the task stays launched,
    the ledger and the queue are as before, and no resourcesChanged is
    dispatched.  The update is forwarded reliably to the master, its timer
    is armed, it is recorded as pending, and it is counted valid:
    validStatusUpdates and the counter of its state grow by one modulo
    2^64. *)
Theorem statusUpdate_nonterminal_launched update s framework k executor x :
  getFramework (su_framework_id update) s = Some framework →
  getExecutor_task (ts_task_id (su_status update)) framework = Some (k, executor) →
  launchedTasks executor !! ts_task_id (su_status update) = Some x →
  terminal (ts_state (su_status update)) = false →
  let taskId := ts_task_id (su_status update) in
  let st := ts_state (su_status update) in
  ∃ s' framework' executor',
    statusUpdate update s =
      Some (s', [Send (s_master s) (StatusUpdateMessage update true);
                 DelayStatusUpdateTimeout update]) ∧
    getFramework (su_framework_id update) s' = Some framework' ∧
    (∀ f, f ≠ su_framework_id update → frameworks s' !! f = frameworks s !! f) ∧
    executors framework' = <[k := executor']> (executors framework) ∧
    launchedTasks executor' = <[taskId := set_t_state st x]> (launchedTasks executor) ∧
    e_resources executor' = e_resources executor ∧
    queuedTasks executor' = queuedTasks executor ∧
    e_pid executor' = e_pid executor ∧
    updates framework' = <[taskId := update]> (updates framework) ∧
    validStatusUpdates (stats s') = ((validStatusUpdates (stats s) + 1) mod 2 ^ 64)%Z ∧
    invalidStatusUpdates (stats s') = invalidStatusUpdates (stats s) ∧
    tasks (stats s') st = ((tasks (stats s) st + 1) mod 2 ^ 64)%Z.
Proof.
  intros Hf Hget Hl Hst. simpl.
  rewrite (statusUpdate_known _ _ _ _ _ Hf Hget). rewrite Hst. simpl.
  eexists _, _, _. split; [done|].
  unfold getFramework. simpl. rewrite lookup_insert_eq. split; [done|].
  split; [by intros f Hne; rewrite lookup_insert_ne|].
  simpl. split; [done|].
  unfold updateTaskState. rewrite Hl. simpl.
  do 6 (split; [done|]).
  by destruct (decide (ts_state (su_status update) = ts_state (su_status update))).
Qed.

(** ** The message counters *)

Lemma flush_stats framework ts e x e' x' out :
  flush framework ts e x = Some (e', x', out) →
  validStatusUpdates x' = validStatusUpdates x ∧
  invalidStatusUpdates x' = invalidStatusUpdates x ∧
  validFrameworkMessages x' = validFrameworkMessages x ∧
  invalidFrameworkMessages x' = invalidFrameworkMessages x.
Proof.
  revert e x e' x' out. induction ts as [|task ts IH]; intros e x e' x' out; simpl.
  - by intros [= <- <- <-].
  - destruct (addTask task e) as [e1|]; [simpl|done].
    destruct (flush framework ts e1 _) as [[[e2 x2] out2]|] eqn:Hflush; [simpl|done].
    intros [= <- <- <-]. by apply IH in Hflush.
Qed.

Lemma removeFramework_stats k framework kill s :
  stats (removeFramework k framework kill s).1 = stats s.
Proof. unfold removeFramework. by destruct (removeExecutors _ _ _). Qed.

(** One handler moves one counter by one, and only for its own kind of
    event. *)
Lemma handle_counters ev s s' out :
  handle ev s = Some (s', out) →
  (if is_StatusUpdate ev
   then (validStatusUpdates (stats s') = incr (validStatusUpdates (stats s)) ∧
         invalidStatusUpdates (stats s') = invalidStatusUpdates (stats s)) ∨
        (validStatusUpdates (stats s') = validStatusUpdates (stats s) ∧
         invalidStatusUpdates (stats s') = incr (invalidStatusUpdates (stats s)))
   else validStatusUpdates (stats s') = validStatusUpdates (stats s) ∧
        invalidStatusUpdates (stats s') = invalidStatusUpdates (stats s)) ∧
  (if is_data_message ev
   then (validFrameworkMessages (stats s') = incr (validFrameworkMessages (stats s)) ∧
         invalidFrameworkMessages (stats s') = invalidFrameworkMessages (stats s)) ∨
        (validFrameworkMessages (stats s') = validFrameworkMessages (stats s) ∧
         invalidFrameworkMessages (stats s') = incr (invalidFrameworkMessages (stats s)))
   else validFrameworkMessages (stats s') = validFrameworkMessages (stats s) ∧
        invalidFrameworkMessages (stats s') = invalidFrameworkMessages (stats s)).
Proof.
  destruct ev; simpl.
  - unfold newMasterDetected. case_bool_decide; by intros [= <- <-].
  - by intros [= <- <-].
  - by intros [= <- <-].
  - unfold reregistered. case_bool_decide; [by intros [= <- <-]|done].
  - unfold runTask. destruct (getExecutor _ _) as [executor|].
    + destruct (pid_unset _); [by intros [= <- <-]|].
      destruct (addTask _ _); [simpl|done]. by intros [= <- <-].
    + destruct (createExecutor _ _ _) as [[executor framework']|]; [simpl|done].
      by intros [= <- <-].
  - unfold killTask. destruct (getFramework _ _); [|by intros [= <- <-]].
    destruct (getExecutor_task _ _) as [[k executor]|]; [|by intros [= <- <-]].
    destruct (pid_unset _); by intros [= <- <-].
  - unfold killFramework. destruct (getFramework _ _) as [framework|]; [|by intros [= <- <-]].
    pose proof (removeFramework_stats frameworkId framework true s) as Hst.
    destruct (removeFramework _ _ _ _). intros [= <- <-]. simpl in Hst. by rewrite Hst.
  - unfold schedulerMessage.
    destruct (getFramework _ _); [|intros [= <- <-]; split; [done|by right]].
    destruct (getExecutor _ _); [|intros [= <- <-]; split; [done|by right]].
    destruct (pid_unset _); intros [= <- <-]; split; try done; [by right|by left].
  - unfold updateFramework. destruct (getFramework _ _); by intros [= <- <-].
  - unfold statusUpdateAcknowledgement. destruct (getFramework _ _); [|by intros [= <- <-]].
    destruct (contains _ _); by intros [= <- <-].
  - unfold registerExecutor. destruct (getFramework _ _); [|by intros [= <- <-]].
    destruct (getExecutor _ _); [|by intros [= <- <-]].
    case_bool_decide; [by intros [= <- <-]|].
    destruct (flush _ _ _ _) as [[[e2 x2] out2]|] eqn:Hflush; [simpl|done].
    intros [= <- <-]. simpl. apply flush_stats in Hflush as (-> & -> & -> & ->). done.
  - unfold statusUpdate. destruct (getFramework _ _); [|intros [= <- <-]; split; [by right|done]].
    destruct (getExecutor_task _ _) as [[k executor]|];
      intros [= <- <-]; split; try done; [by left|by right].
  - unfold executorMessage.
    destruct (getFramework _ _); intros [= <- <-]; split; try done; [by left|by right].
  - by intros [= <- <-].
  - unfold statusUpdateTimeout. destruct (getFramework _ _); [|by intros [= <- <-]].
    destruct (contains _ _); by intros [= <- <-].
  - by intros [= <- <-].
  - by intros [= <- <-].
  - unfold executorExited. destruct (getFramework _ _) as [framework|]; [|by intros [= <- <-]].
    destruct (getExecutor _ _) as [executor|]; [|by intros [= <- <-]].
    simpl. case_bool_decide; [|by intros [= <- <-]].
    pose proof (removeFramework_stats frameworkId
                  (destroyExecutor (e_id executor) framework) true s) as Hst.
    destruct (removeFramework _ _ _ _). intros [= <- <-]. simpl in Hst. by rewrite Hst.
Qed.

Lemma incr_sum (a b n : Z) :
  ((incr a + b + n) mod 2 ^ 64 = (a + b + Z.succ n) mod 2 ^ 64 ∧
   (a + incr b + n) mod 2 ^ 64 = (a + b + Z.succ n) mod 2 ^ 64)%Z.
Proof.
  unfold incr. split.
  - rewrite <- Z.add_assoc, Z.add_mod_idemp_l by done. f_equal. lia.
  - replace (a + (b + 1) mod 2 ^ 64 + n)%Z with ((b + 1) mod 2 ^ 64 + (a + n))%Z by lia.
    rewrite Z.add_mod_idemp_l by done. f_equal. lia.
Qed.

(** X13.  Every status update is counted once, as valid or as invalid, and
    every data message between scheduler and executor likewise; no other
    event moves these counters.  Over any run the two sums grow, modulo the
    width of the counters, by the number of events of each kind. *)
Theorem counters_account (evs : list (Event R)) s s' out :
  serve evs s = Some (s', out) →
  ((validStatusUpdates (stats s') + invalidStatusUpdates (stats s')) mod 2 ^ 64 =
   (validStatusUpdates (stats s) + invalidStatusUpdates (stats s)
    + count is_StatusUpdate evs) mod 2 ^ 64)%Z ∧
  ((validFrameworkMessages (stats s') + invalidFrameworkMessages (stats s')) mod 2 ^ 64 =
   (validFrameworkMessages (stats s) + invalidFrameworkMessages (stats s)
    + count is_data_message evs) mod 2 ^ 64)%Z.
Proof.
  revert s out. induction evs as [|ev evs IH]; intros s out.
  - simpl. intros [= <- <-]. unfold count. simpl. by rewrite !Z.add_0_r.
  - rewrite serve_cons.
    destruct (handle ev s) as [[s1 out1]|] eqn:Hh; [simpl|done].
    destruct (serve evs s1) as [[s2 out2]|] eqn:Hs; [simpl|done].
    intros [= <- <-]. destruct (IH _ _ Hs) as [IH1 IH2]. rewrite IH1, IH2.
    apply handle_counters in Hh as [H1 H2]. unfold count. simpl. split.
    + destruct (is_StatusUpdate ev); simpl.
      * rewrite Nat2Z.inj_succ. destruct H1 as [[-> ->]|[-> ->]]; apply incr_sum.
      * by destruct H1 as [-> ->].
    + destruct (is_data_message ev); simpl.
      * rewrite Nat2Z.inj_succ. destruct H2 as [[-> ->]|[-> ->]]; apply incr_sum.
      * by destruct H2 as [-> ->].
Qed.

(** ** Retries *)

(** Neither the flush loop nor a teardown sends a status update or arms a
    timer. *)
Lemma flush_quiet framework ts e x e' x' out :
  flush framework ts e x = Some (e', x', out) →
  List.filter is_Delay out = [] ∧ List.filter is_reliable_update out = [].
Proof.
  revert e x e' x' out. induction ts as [|task ts IH]; intros e x e' x' out; simpl.
  - by intros [= <- <- <-].
  - destruct (addTask task e) as [e1|]; [simpl|done].
    destruct (flush framework ts e1 _) as [[[e2 x2] out2]|] eqn:Hflush; [simpl|done].
    intros [= <- <- <-]. simpl. by apply IH in Hflush.
Qed.

Lemma removeFramework_quiet k framework kill s :
  List.filter is_Delay (removeFramework k framework kill s).2 = [] ∧
  List.filter is_reliable_update (removeFramework k framework kill s).2 = [].
Proof.
  unfold removeFramework.
  pose proof (removeExecutors_out (hashmap_values (executors framework)) kill framework) as Hout.
  destruct (removeExecutors _ _ _) as [framework' out]. simpl in *. subst out.
  destruct kill; [|done].
  induction (hashmap_values (executors framework)) as [|e es IH]; [done|].
  rewrite bind_cons, !List.filter_app. by destruct IH as [-> ->].
Qed.

(** Only [statusUpdate] arms a timer, once for each update it counts valid;
    a reliable update is sent by [statusUpdate], and by [statusUpdateTimeout]
    while some update of that task is pending. *)
Lemma handle_retries ev s s' out :
  handle ev s = Some (s', out) →
  ((validStatusUpdates (stats s') = validStatusUpdates (stats s) ∧
    List.filter is_Delay out = []) ∨
   (∃ u, ev = StatusUpdateEvent u ∧
         validStatusUpdates (stats s') = incr (validStatusUpdates (stats s)) ∧
         List.filter is_Delay out = [DelayStatusUpdateTimeout u])) ∧
  (List.filter is_reliable_update out = [] ∨
   (∃ u, ev = StatusUpdateEvent u ∧
         List.filter is_reliable_update out =
           [Send (s_master s) (StatusUpdateMessage u true)]) ∨
   (∃ u framework,
      ev = StatusUpdateTimeout u ∧
      getFramework (su_framework_id u) s = Some framework ∧
      is_Some (updates framework !! ts_task_id (su_status u)) ∧
      List.filter is_reliable_update out =
        [Send (s_master s) (StatusUpdateMessage u true)])).
Proof.
  destruct ev; simpl.
  - unfold newMasterDetected. case_bool_decide; intros [= <- <-]; auto.
  - intros [= <- <-]; auto.
  - intros [= <- <-]; auto.
  - unfold reregistered. case_bool_decide; [intros [= <- <-]; auto|done].
  - unfold runTask. destruct (getExecutor _ _) as [executor|].
    + destruct (pid_unset _); [intros [= <- <-]; auto|].
      destruct (addTask _ _); [simpl|done]. intros [= <- <-]; auto.
    + destruct (createExecutor _ _ _) as [[executor framework']|]; [simpl|done].
      intros [= <- <-]; auto.
  - unfold killTask. destruct (getFramework _ _); [|intros [= <- <-]; auto].
    destruct (getExecutor_task _ _) as [[k executor]|]; [|intros [= <- <-]; auto].
    destruct (pid_unset _); intros [= <- <-]; auto.
  - unfold killFramework. destruct (getFramework _ _) as [framework|]; [|intros [= <- <-]; auto].
    pose proof (removeFramework_stats frameworkId framework true s) as Hst.
    destruct (removeFramework_quiet frameworkId framework true s) as [Hd Hr].
    destruct (removeFramework _ _ _ _). intros [= <- <-]. simpl in *. rewrite Hst. auto.
  - unfold schedulerMessage.
    destruct (getFramework _ _); [|intros [= <- <-]; auto].
    destruct (getExecutor _ _); [|intros [= <- <-]; auto].
    destruct (pid_unset _); intros [= <- <-]; auto.
  - unfold updateFramework. destruct (getFramework _ _); intros [= <- <-]; auto.
  - unfold statusUpdateAcknowledgement. destruct (getFramework _ _); [|intros [= <- <-]; auto].
    destruct (contains _ _); intros [= <- <-]; auto.
  - unfold registerExecutor. destruct (getFramework _ _); [|intros [= <- <-]; auto].
    destruct (getExecutor _ _); [|intros [= <- <-]; auto].
    case_bool_decide; [intros [= <- <-]; auto|].
    destruct (flush _ _ _ _) as [[[e2 x2] out2]|] eqn:Hflush; [simpl|done].
    intros [= <- <-]. simpl.
    destruct (flush_quiet _ _ _ _ _ _ _ Hflush) as [-> ->].
    apply flush_stats in Hflush as (-> & _). auto.
  - unfold statusUpdate. destruct (getFramework _ _); [|intros [= <- <-]; auto].
    destruct (getExecutor_task _ _) as [[k executor]|]; [|intros [= <- <-]; auto].
    intros [= <- <-]. split.
    + right. exists update. split; [done|]. split; [done|]. by destruct (terminal _).
    + right. left. exists update. split; [done|]. by destruct (terminal _).
  - unfold executorMessage. destruct (getFramework _ _); intros [= <- <-]; auto.
  - intros [= <- <-]; auto.
  - unfold statusUpdateTimeout.
    destruct (getFramework _ _) as [framework|] eqn:Hf; [|intros [= <- <-]; auto].
    destruct (contains _ _) eqn:Hc; intros [= <- <-]; [|auto].
    split; [auto|]. right. right. exists update, framework.
    split; [done|]. split; [done|]. split; [by apply contains_Some|done].
  - intros [= <- <-]; auto.
  - intros [= <- <-]; auto.
  - unfold executorExited. destruct (getFramework _ _) as [framework|]; [|intros [= <- <-]; auto].
    destruct (getExecutor _ _) as [executor|]; [|intros [= <- <-]; auto].
    simpl. case_bool_decide; [|intros [= <- <-]; auto].
    pose proof (removeFramework_stats frameworkId
                  (destroyExecutor (e_id executor) framework) true s) as Hst.
    destruct (removeFramework_quiet frameworkId
                (destroyExecutor (e_id executor) framework) true s) as [Hd Hr].
    destruct (removeFramework _ _ _ _). intros [= <- <-]. simpl in *. rewrite Hst. auto.
Qed.

(** X14.  Timers are armed by the status-update handler alone, one for
    each update it counts valid: over any run the valid counter grows,
    modulo its width, by the number of timers armed, and every timer armed
    is for an update that arrived in the run.  In particular the timeout
    handler arms no timer. *)
Theorem timers_armed_once (evs : list (Event R)) s s' out :
  serve evs s = Some (s', out) →
  (validStatusUpdates (stats s') mod 2 ^ 64 =
   (validStatusUpdates (stats s) + Z.of_nat (length (List.filter is_Delay out)))
     mod 2 ^ 64)%Z ∧
  (∀ u, DelayStatusUpdateTimeout u ∈ out → StatusUpdateEvent u ∈ evs).
Proof.
  revert s out. induction evs as [|ev evs IH]; intros s out.
  - simpl. intros [= <- <-]. simpl. rewrite Z.add_0_r. split; [done|].
    intros u Hin. by apply elem_of_nil in Hin.
  - rewrite serve_cons.
    destruct (handle ev s) as [[s1 out1]|] eqn:Hh; [simpl|done].
    destruct (serve evs s1) as [[s2 out2]|] eqn:Hs; [simpl|done].
    intros [= <- <-]. destruct (IH _ _ Hs) as [IH1 IH2].
    apply handle_retries in Hh as [Hd _].
    rewrite List.filter_app, length_app, Nat2Z.inj_add, IH1.
    assert (Hmem : ∀ u, DelayStatusUpdateTimeout u ∈ out1 →
                        DelayStatusUpdateTimeout u ∈ List.filter is_Delay out1).
    { intros u Hin. apply list_elem_of_In, filter_In. split; [|done].
      by apply list_elem_of_In. }
    destruct Hd as [[-> Hnil]|(u & -> & -> & Hone)].
    + rewrite Hnil. simpl. split; [done|]. intros u Hin.
      apply elem_of_app in Hin as [Hin|Hin].
      * apply Hmem in Hin. rewrite Hnil in Hin. by apply elem_of_nil in Hin.
      * right. by apply IH2.
    + rewrite Hone. simpl. split.
      * unfold incr. rewrite Z.add_mod_idemp_l by done. f_equal. lia.
      * intros u' Hin. apply elem_of_app in Hin as [Hin|Hin].
        -- apply Hmem in Hin. rewrite Hone in Hin.
           apply list_elem_of_singleton in Hin as [= ->]. by left.
        -- right. by apply IH2.
Qed.

(** A handler other than a status update for task [t] of framework [f]
    leaves that task without pending update. *)
Lemma handle_unpending ev s s' out f t :
  handle ev s = Some (s', out) → not_update f t ev → unpending f t s → unpending f t s'.
Proof.
  intros Hh Hnot Hun framework' Hf'. unfold unpending, getFramework in *.
  assert (Hsame : frameworks s' = frameworks s → updates framework' !! t = None).
  { intros Heq. rewrite Heq in Hf'. by apply Hun. }
  assert (Hins : ∀ k (framework0 framework1 : Framework R),
            frameworks s' = <[k := framework1]> (frameworks s) →
            frameworks s !! k = Some framework0 →
            updates framework1 = updates framework0 →
            updates framework' !! t = None).
  { intros k framework0 framework1 Heq Hk Hup.
    rewrite Heq, lookup_insert in Hf'.
    case_decide; [subst k|by apply Hun]. injection Hf' as <-. rewrite Hup. by apply Hun. }
  assert (Hnew : ∀ k (framework1 : Framework R),
            frameworks s' = <[k := framework1]> (frameworks s) →
            updates framework1 = ∅ →
            updates framework' !! t = None).
  { intros k framework1 Heq Hup.
    rewrite Heq, lookup_insert in Hf'.
    case_decide; [subst k|by apply Hun]. injection Hf' as <-. by rewrite Hup. }
  destruct ev; simpl in Hh.
  - apply Hsame. revert Hh. unfold newMasterDetected.
    case_bool_decide; by intros [= <- <-].
  - apply Hsame. by injection Hh as <- <-.
  - apply Hsame. by injection Hh as <- <-.
  - apply Hsame. revert Hh. unfold reregistered.
    case_bool_decide; [by intros [= <- <-]|done].
  - (* runTask *)
    revert Hh. unfold runTask, createExecutor, getExecutor, getFramework.
    destruct (frameworks s !! frameworkId) as [framework0|] eqn:Hl.
    + destruct (executors _ !! _) as [executor0|] eqn:He.
      * destruct (pid_unset (e_pid executor0)); [intros [= <- <-]; by eapply Hins|].
        destruct (addTask task executor0); [simpl|done]. intros [= <- <-]. by eapply Hins.
      * rewrite (proj2 (contains_None _ _) He). simpl. intros [= <- <-]. by eapply Hins.
    + destruct (executors _ !! _) as [executor0|] eqn:He.
      * destruct (pid_unset (e_pid executor0)); [intros [= <- <-]; by eapply Hnew|].
        destruct (addTask task executor0); [simpl|done]. intros [= <- <-]. by eapply Hnew.
      * rewrite (proj2 (contains_None _ _) He). simpl. intros [= <- <-]. by eapply Hnew.
  - (* killTask *)
    revert Hh. unfold killTask, getFramework.
    destruct (frameworks s !! frameworkId) as [framework0|] eqn:Hl;
      [|intros [= <- <-]; by apply Hsame].
    destruct (getExecutor_task taskId framework0) as [[k executor0]|];
      [|intros [= <- <-]; by apply Hsame].
    destruct (pid_unset (e_pid executor0)); intros [= <- <-];
      [by eapply Hins|by apply Hsame].
  - (* killFramework *)
    revert Hh. unfold killFramework, getFramework.
    destruct (frameworks s !! frameworkId) as [framework0|] eqn:Hl;
      [|intros [= <- <-]; by apply Hsame].
    intros [= Hrm].
    pose proof (removeFramework_lookup frameworkId framework0 true s f framework' Hl) as Hd.
    rewrite Hrm in Hd. destruct (Hd Hf') as (framework1 & Hf1 & ->). by apply Hun.
  - apply Hsame. revert Hh. unfold schedulerMessage, getFramework, getExecutor.
    repeat case_match; by intros [= <- <-].
  - (* updateFramework *)
    revert Hh. unfold updateFramework, getFramework.
    destruct (frameworks s !! frameworkId) as [framework0|] eqn:Hl; intros [= <- <-];
      [by eapply Hins|by apply Hsame].
  - (* statusUpdateAcknowledgement *)
    revert Hh. unfold statusUpdateAcknowledgement, getFramework.
    destruct (frameworks s !! frameworkId) as [framework0|] eqn:Hl;
      [|intros [= <- <-]; by apply Hsame].
    destruct (contains _ _); intros [= <- <-]; [|by apply Hsame].
    simpl in Hf'. rewrite lookup_insert in Hf'.
    case_decide; [subst frameworkId|by apply Hun]. injection Hf' as <-. simpl.
    rewrite lookup_delete. case_decide; [done|by eapply Hun].
  - (* registerExecutor *)
    revert Hh. unfold registerExecutor, getFramework.
    destruct (frameworks s !! frameworkId) as [framework0|] eqn:Hl;
      [|intros [= <- <-]; by apply Hsame].
    destruct (getExecutor executorId framework0) as [executor0|];
      [|intros [= <- <-]; by apply Hsame].
    case_bool_decide; [intros [= <- <-]; by apply Hsame|].
    destruct (flush _ _ _ _) as [[[executor2 x] out2]|]; [simpl|done].
    intros [= <- <-]. by eapply Hins.
  - (* statusUpdate *)
    revert Hh. unfold statusUpdate, getFramework.
    destruct (frameworks s !! su_framework_id update) as [framework0|] eqn:Hl;
      [|intros [= <- <-]; by apply Hsame].
    destruct (getExecutor_task _ framework0) as [[k executor0]|];
      intros [= <- <-]; [|by apply Hsame].
    simpl in Hf'. rewrite lookup_insert in Hf'.
    case_decide as Hk; [|by apply Hun]. injection Hf' as <-. simpl.
    rewrite lookup_insert_ne; [subst f; by eapply Hun|].
    intros Ht. by apply Hnot.
  - apply Hsame. revert Hh. unfold executorMessage, getFramework.
    repeat case_match; by intros [= <- <-].
  - apply Hsame. by injection Hh as <- <-.
  - apply Hsame. revert Hh. unfold statusUpdateTimeout, getFramework.
    repeat case_match; by intros [= <- <-].
  - apply Hsame. by injection Hh as <- <-.
  - apply Hsame. by injection Hh as <- <-.
  - (* executorExited *)
    revert Hh. unfold executorExited, getFramework.
    destruct (frameworks s !! frameworkId) as [framework0|] eqn:Hl;
      [|intros [= <- <-]; by apply Hsame].
    destruct (getExecutor executorId framework0) as [executor0|];
      [|intros [= <- <-]; by apply Hsame].
    simpl.
    assert (Hup : updates (destroyExecutor (e_id executor0) framework0) = updates framework0).
    { unfold destroyExecutor. by destruct (contains _ _). }
    case_bool_decide as Hsize.
    + pose proof (removeFramework_lookup frameworkId
                    (destroyExecutor (e_id executor0) framework0) true
                    (store_framework frameworkId
                       (destroyExecutor (e_id executor0) framework0) s) f framework') as Hd.
      assert (Heq : removeFramework frameworkId
                      (destroyExecutor (e_id executor0) framework0) true
                      (store_framework frameworkId
                         (destroyExecutor (e_id executor0) framework0) s) =
                    removeFramework frameworkId
                      (destroyExecutor (e_id executor0) framework0) true s).
      { unfold removeFramework. destruct (removeExecutors _ _ _). simpl.
        by rewrite insert_insert_eq. }
      rewrite Heq in Hd. destruct (removeFramework _ _ _ _) as [s1 out3].
      intros [= <- <-]. destruct Hd as (framework1 & Hf1 & ->).
      { simpl. apply lookup_insert_eq. }
      { done. }
      simpl in Hf1. rewrite lookup_insert in Hf1.
      case_decide; [subst; injection Hf1 as <-; rewrite Hup|]; by eapply Hun.
    + intros [= <- <-]. by eapply Hins.
Qed.

(** X15.  Once the update of task [t] of framework [f] is acknowledged,
    nothing is pending for the task, and this stays so until a new status
    update for the task arrives: over any run without one, the slave sends
    no reliable update of that task -- the timers still running for it find
    nothing to resend. *)
Theorem acknowledged_not_resent (slaveId : SlaveID) (f : FrameworkID) (t : TaskID)
    (evs : list (Event R)) s s1 out1 s2 out2 :
  statusUpdateAcknowledgement slaveId f t s = Some (s1, out1) →
  serve evs s1 = Some (s2, out2) →
  Forall (not_update f t) evs →
  out1 = [] ∧
  unpending f t s2 ∧
  (∀ to u, Send to (StatusUpdateMessage u true) ∈ out2 →
     ¬ (su_framework_id u = f ∧ ts_task_id (su_status u) = t)).
Proof.
  intros Hack Hs Hevs.
  assert (Hun : out1 = [] ∧ unpending f t s1).
  { revert Hack. unfold statusUpdateAcknowledgement, unpending.
    destruct (getFramework f s) as [framework|] eqn:Hf.
    - destruct (contains _ _) eqn:Hc; intros [= <- <-]; (split; [done|]).
      + intros framework'. unfold getFramework. simpl. rewrite lookup_insert_eq.
        intros [= <-]. simpl. apply lookup_delete_eq.
      + intros framework'. rewrite Hf. intros [= <-]. by apply contains_None.
    - intros [= <- <-]. split; [done|]. intros framework'. by rewrite Hf. }
  destruct Hun as [-> Hun]. split; [done|]. clear Hack.
  revert s1 out2 Hs Hun. induction Hevs as [|ev evs Hev _ IH]; intros s1 out2.
  - simpl. intros [= <- <-] Hun. split; [done|]. intros to u Hin. by apply elem_of_nil in Hin.
  - rewrite serve_cons.
    destruct (handle ev s1) as [[s3 out3]|] eqn:Hh; [simpl|done].
    destruct (serve evs s3) as [[s4 out4]|] eqn:Hs; [simpl|done].
    intros [= <- <-] Hun.
    destruct (IH _ _ Hs (handle_unpending _ _ _ _ _ _ Hh Hev Hun)) as [Hun' Hout].
    split; [done|]. intros to u Hin. apply elem_of_app in Hin as [Hin|Hin]; [|by eapply Hout].
    assert (Hin' : Send to (StatusUpdateMessage u true) ∈ List.filter is_reliable_update out3).
    { apply list_elem_of_In, filter_In. split; [by apply list_elem_of_In|done]. }
    apply handle_retries in Hh as [_ [Hnil|[(u' & -> & Hone)|(u' & framework & -> & Hf & Hp & Hone)]]].
    + rewrite Hnil in Hin'. by apply elem_of_nil in Hin'.
    + rewrite Hone in Hin'. apply list_elem_of_singleton in Hin' as [= _ ->]. exact Hev.
    + rewrite Hone in Hin'. apply list_elem_of_singleton in Hin' as [= _ ->].
      intros [Hfu Htu]. subst. rewrite (Hun _ Hf) in Hp. by destruct Hp.
Qed.

(** X16.  The retry is keyed on the task id alone: what timed out is not
    compared with what is pending.  Once a newer update [u2] of a task is
    accepted and recorded, the timer of an older update [u1] of the same
    task still resends [u1] to the master, reliably, and changes nothing. *)
Theorem stale_timeout_resends u1 u2 s framework k executor :
  getFramework (su_framework_id u2) s = Some framework →
  getExecutor_task (ts_task_id (su_status u2)) framework = Some (k, executor) →
  su_framework_id u1 = su_framework_id u2 →
  ts_task_id (su_status u1) = ts_task_id (su_status u2) →
  ∃ s' out framework',
    statusUpdate u2 s = Some (s', out) ∧
    getFramework (su_framework_id u2) s' = Some framework' ∧
    updates framework' !! ts_task_id (su_status u2) = Some u2 ∧
    statusUpdateTimeout u1 s' =
      Some (s', [Send (s_master s') (StatusUpdateMessage u1 true)]).
Proof.
  intros Hf Hget Hfid Htid.
  rewrite (statusUpdate_known _ _ _ _ _ Hf Hget).
  eexists _, _, _. split; [done|].
  split; [unfold getFramework; simpl; apply lookup_insert_eq|].
  simpl. split; [apply lookup_insert_eq|].
  unfold statusUpdateTimeout, getFramework. simpl. rewrite Hfid, Htid, lookup_insert_eq.
  unfold contains. simpl. rewrite lookup_insert_eq.
  by rewrite bool_decide_true by eauto.
Qed.

(** ** UpdateFramework *)

(** X17.  UpdateFramework for an unknown framework is ignored: the new
    endpoint is not remembered.  For a known framework it replaces the
    scheduler endpoint of the record and nothing else; from then on the
    messages of its executors are forwarded to the new endpoint, and a
    RunTask sent on to a registered executor names the new endpoint,
    whatever endpoint the RunTask itself carried. *)
Theorem updateFramework_redirects (f : FrameworkID) (pid : UPID) s :
  (getFramework f s = None → updateFramework f pid s = Some (s, [])) ∧
  (∀ framework, getFramework f s = Some framework →
     ∃ s',
       updateFramework f pid s = Some (s', []) ∧
       getFramework f s' = Some (set_f_pid pid framework) ∧
       (∀ f', f' ≠ f → getFramework f' s' = getFramework f' s) ∧
       stats s' = stats s ∧
       (∀ slaveId e data,
          executorMessage slaveId f e data s' =
            Some (set_stats (incr_validFrameworkMessages (stats s')) s',
                  [Send pid (ExecutorToFrameworkMessage slaveId f e data)])) ∧
       (∀ frameworkInfo pid' task directory executor,
          getExecutor (target (f_info framework) task) framework = Some executor →
          e_pid executor ≠ UPID_empty →
          launchedTasks executor !! td_task_id task = None →
          ∃ s2,
            runTask frameworkInfo f pid' task directory s' =
              Some (s2, [Send (e_pid executor)
                           (RunTaskMessage (f_info framework) (f_id framework) pid task);
                         ResourcesChanged (f_id framework) (e_id executor)
                           (radd (e_resources executor) (td_resources task))]))).
Proof.
  unfold updateFramework. split; [by intros ->|].
  intros framework Hf. rewrite Hf. eexists. split; [done|].
  unfold getFramework. simpl. rewrite lookup_insert_eq. split; [done|].
  split; [by intros f' Hne; rewrite lookup_insert_ne|]. split; [done|]. split.
  - intros slaveId e data. unfold executorMessage, getFramework. simpl.
    by rewrite lookup_insert_eq.
  - intros frameworkInfo pid' task directory executor He Hpid Hl.
    unfold runTask, getFramework, target in *. simpl. rewrite lookup_insert_eq. simpl.
    unfold getExecutor in *. simpl. rewrite He.
    rewrite (proj2 (pid_unset_false _) Hpid).
    unfold addTask. rewrite (proj2 (contains_None _ _) Hl). simpl. eauto.
Qed.

(** ** Work directories *)




(** ** The HTTP handlers *)

Lemma append_cons (x : Ascii.ascii) (a b : string) : String x a +:+ b = String x (a +:+ b).
Proof. done. Qed.





Lemma string_drop_append (a b : string) (n : nat) :
  string_drop (String.length a + n) (a +:+ b) = string_drop n b.
Proof. induction a as [|x a IH]; [done|]. rewrite append_cons. simpl. by rewrite IH. Qed.















(** ** Identity of the slave *)

Lemma removeFramework_identity k framework kill s :
  s_info (removeFramework k framework kill s).1 = s_info s ∧
  s_id (removeFramework k framework kill s).1 = s_id s ∧
  s_master (removeFramework k framework kill s).1 = s_master s.
Proof. unfold removeFramework. by destruct (removeExecutors _ _ _). Qed.

Lemma handle_identity ev s s' out :
  handle ev s = Some (s', out) →
  s_info s' = s_info s ∧
  s_id s' = id_after [ev] (s_id s) ∧
  s_master s' = master_after [ev] (s_master s).
Proof.
  destruct ev; simpl.
  - unfold newMasterDetected. case_bool_decide; by intros [= <- <-].
  - by intros [= <- <-].
  - by intros [= <- <-].
  - unfold reregistered. case_bool_decide; [by intros [= <- <-]|done].
  - unfold runTask. destruct (getExecutor _ _) as [executor|].
    + destruct (pid_unset _); [by intros [= <- <-]|].
      destruct (addTask _ _); [simpl|done]. by intros [= <- <-].
    + destruct (createExecutor _ _ _) as [[executor framework']|]; [simpl|done].
      by intros [= <- <-].
  - unfold killTask. destruct (getFramework _ _); [|by intros [= <- <-]].
    destruct (getExecutor_task _ _) as [[k executor]|]; [|by intros [= <- <-]].
    destruct (pid_unset _); by intros [= <- <-].
  - unfold killFramework. destruct (getFramework _ _) as [framework|]; [|by intros [= <- <-]].
    pose proof (removeFramework_identity frameworkId framework true s) as Hid.
    destruct (removeFramework _ _ _ _). by intros [= <- <-].
  - unfold schedulerMessage.
    destruct (getFramework _ _); [|by intros [= <- <-]].
    destruct (getExecutor _ _); [|by intros [= <- <-]].
    destruct (pid_unset _); by intros [= <- <-].
  - unfold updateFramework. destruct (getFramework _ _); by intros [= <- <-].
  - unfold statusUpdateAcknowledgement. destruct (getFramework _ _); [|by intros [= <- <-]].
    destruct (contains _ _); by intros [= <- <-].
  - unfold registerExecutor. destruct (getFramework _ _); [|by intros [= <- <-]].
    destruct (getExecutor _ _); [|by intros [= <- <-]].
    case_bool_decide; [by intros [= <- <-]|].
    destruct (flush _ _ _ _) as [[[e2 x2] out2]|]; [simpl|done]. by intros [= <- <-].
  - unfold statusUpdate. destruct (getFramework _ _); [|by intros [= <- <-]].
    destruct (getExecutor_task _ _) as [[k executor]|]; by intros [= <- <-].
  - unfold executorMessage. destruct (getFramework _ _); by intros [= <- <-].
  - by intros [= <- <-].
  - unfold statusUpdateTimeout. destruct (getFramework _ _); [|by intros [= <- <-]].
    destruct (contains _ _); by intros [= <- <-].
  - by intros [= <- <-].
  - by intros [= <- <-].
  - unfold executorExited. destruct (getFramework _ _) as [framework|]; [|by intros [= <- <-]].
    destruct (getExecutor _ _) as [executor|]; [|by intros [= <- <-]].
    simpl. case_bool_decide; [|by intros [= <- <-]].
    pose proof (removeFramework_identity frameworkId
                  (destroyExecutor (e_id executor) framework) true s) as Hid.
    destruct (removeFramework _ _ _ _). by intros [= <- <-].
Qed.

(** X21.  Over any run the slave keeps the description it was started
    with; its id is the one of the last Registered message of the run and
    its master the last one detected -- no other handler assigns either. *)
Theorem identity_stable (evs : list (Event R)) s s' out :
  serve evs s = Some (s', out) →
  s_info s' = s_info s ∧
  s_id s' = id_after evs (s_id s) ∧
  s_master s' = master_after evs (s_master s).
Proof.
  revert s out. induction evs as [|ev evs IH]; intros s out.
  - simpl. by intros [= <- <-].
  - rewrite serve_cons.
    destruct (handle ev s) as [[s1 out1]|] eqn:Hh; [simpl|done].
    destruct (serve evs s1) as [[s2 out2]|] eqn:Hs; [simpl|done].
    intros [= <- <-]. destruct (IH _ _ Hs) as (-> & -> & ->).
    by apply handle_identity in Hh as (-> & -> & ->).
Qed.

(** ** A framework that was killed *)

(** X22.  After KillFramework the framework is unknown to every handler:
    a registration of one of its executors is answered with Shutdown, its
    status updates are dropped and counted invalid, the timers still
    running for its updates resend nothing, messages for its executors are
    dropped and counted invalid, and a KillTask is answered with TASK_LOST. *)
Theorem killFramework_forgets (f : FrameworkID) s :
  reachable s →
  ∃ s' out,
    killFramework f s = Some (s', out) ∧
    getFramework f s' = None ∧
    (∀ from e, registerExecutor from f e s' = Some (s', [Send from ShutdownMessage])) ∧
    (∀ update, su_framework_id update = f →
       statusUpdate update s' =
         Some (set_stats (incr_invalidStatusUpdates (stats s')) s', []) ∧
       statusUpdateTimeout update s' = Some (s', [])) ∧
    (∀ slaveId e data,
       schedulerMessage slaveId f e data s' =
         Some (set_stats (incr_invalidFrameworkMessages (stats s')) s', [])) ∧
    (∀ t now,
       killTask f t now s' =
         Some (s', [Send (s_master s')
                      (StatusUpdateMessage
                         {| su_framework_id := f; su_executor_id := None;
                            su_slave_id := s_id s';
                            su_status := {| ts_task_id := t; ts_state := TASK_LOST;
                                            ts_data := "" |};
                            su_timestamp := now; su_sequence := -1 |}
                         false)])).
Proof.
  intros Hr.
  assert (Hkill : ∃ s' out, killFramework f s = Some (s', out) ∧ getFramework f s' = None).
  { unfold killFramework. destruct (getFramework f s) as [framework|] eqn:Hf.
    - rewrite (removeFramework_reachable s f framework Hr Hf).
      eexists _, _. split; [done|]. unfold getFramework. simpl. apply lookup_delete_eq.
    - eauto. }
  destruct Hkill as (s' & out & Hkill & Hf'). exists s', out. split; [done|].
  split; [done|]. split.
  { intros from e. unfold registerExecutor. by rewrite Hf'. }
  split.
  { intros update <-. unfold statusUpdate, statusUpdateTimeout. by rewrite Hf'. }
  split.
  { intros slaveId e data. unfold schedulerMessage. by rewrite Hf'. }
  intros t now. unfold killTask. by rewrite Hf'.
Qed.
(** A run of delivered events that does not abort ends in a reachable
    state. *)
Lemma reachable_serve (evs : list (Event R)) s s' out :
  reachable s → Forall delivered evs → serve evs s = Some (s', out) → reachable s'.
Proof.
  intros Hr Hdel. revert s out Hr.
  induction Hdel as [|ev evs Hev _ IH]; intros s out Hr.
  - simpl. by intros [= <- <-].
  - rewrite serve_cons.
    destruct (handle ev s) as [[s1 out1]|] eqn:Hh; [simpl|done].
    destruct (serve evs s1) as [[s2 out2]|] eqn:Hs; [simpl|done].
    intros [= <- <-]. eapply IH; [|exact Hs]. by eapply reachable_handle.
Qed.

End proofs.

(** * Concrete instances *)


Lemma reachable_after (evs : list (Event Z)) :
  Forall delivered evs → is_Some (serve evs (initial info0)) → reachable (after evs).
Proof.
  unfold after. intros Hdel.
  cut (∀ s, reachable s → is_Some (serve evs s) →
            reachable match serve evs s with Some (s', _) => s' | None => initial info0 end).
  { intros Hcut. apply Hcut. constructor. }
  induction Hdel as [|ev evs Hev _ IH]; intros s Hr; simpl; [done|].
  destruct (handle ev s) as [[s1 out1]|] eqn:Hh; simpl; [|by intros [? ?]].
  assert (Hr1 : reachable s1) by by eapply reachable_handle.
  specialize (IH s1 Hr1).
  destruct (serve evs s1) as [[s2 out2]|]; simpl in *; [|by intros [? ?]].
  intros _. apply IH. eauto.
Qed.

Lemma registerExecutor_failure_modes_witness :
  registerExecutor "Y" "F1" "E1" s_launched = Some (s_launched, [Send "Y" ShutdownMessage]).
Proof.
  apply (proj1 (registerExecutor_failure_modes "Y" "F1" "E1" s_launched)).
  intros executor. vm_compute. by intros [= <-].
Defined.

(** C7 as stated fails for the executor-to-framework direction: [E1] has
    not registered, and its message is forwarded to the scheduler and counted
    valid. *)
Lemma executorMessage_forwards_unregistered :
  undeliverable "F1" "E1" s_queued ∧
  executorMessage "S7" "F1" "E1" "payload" s_queued =
    Some (set_stats (incr_validFrameworkMessages (stats s_queued)) s_queued,
          [Send "sched" (ExecutorToFrameworkMessage "S7" "F1" "E1" "payload")]).
Proof. split; vm_compute; reflexivity. Qed.

Lemma data_messages_witness :
  schedulerMessage "S7" "F1" "E1" "payload" s_queued =
    Some (set_stats (incr_invalidFrameworkMessages (stats s_queued)) s_queued, []).
Proof.
  apply (proj1 (data_messages "S7" "F1" "E1" "payload" s_queued)).
  vm_compute. reflexivity.
Defined.




Lemma newMasterDetected_reregisters_witness :
  ∃ tasks : list (Task Z),
    newMasterDetected "master@b" s_registered =
      Some (set_s_master "master@b" s_registered,
            [Link "master@b";
             Send "master@b" (ReregisterSlaveMessage "S7" info0 tasks)]) ∧
    length tasks = 1.
Proof.
  destruct (newMasterDetected_reregisters "master@b" s_registered)
    as (entries & Hsend & _ & _); [by vm_compute|].
  exists entries.*2. split; [exact Hsend|].
  revert Hsend. vm_compute. by intros [= <-].
Defined.

Lemma reachable_s_queued : reachable s_queued.
Proof. apply reachable_after; [by repeat constructor|by vm_compute; eauto]. Qed.

Lemma reachable_s_launched : reachable s_launched.
Proof. apply reachable_after; [by repeat constructor|by vm_compute; eauto]. Qed.

Lemma reachable_s_pending : reachable s_pending.
Proof. apply reachable_after; [by repeat constructor|by vm_compute; eauto]. Qed.

Lemma resource_ledger_witness :
  ∃ executor : Executor Z,
    executor_at "F1" "E1" s_launched = Some executor ∧
    e_resources executor = launched_resources (launchedTasks executor).
Proof.
  destruct (resource_ledger s_launched reachable_s_launched) as [Hledger _].
  eexists. split; [vm_compute; reflexivity|]. apply (Hledger _ "F1" "E1").
  vm_compute. reflexivity.
Defined.

(** C2 as stated fails for bundles of doubles: [Ta] with 0.1 cpus and [Tb]
    with 0.2 cpus are launched on [E1], then [Ta] finishes.  The resources of
    [E1] are (0.1 + 0.2) - 0.1, which is 0.20000000000000004, while its one
    launched task has 0.2. *)
#[warnings="-inexact-float"] Lemma ledger_drifts_with_doubles :
  ∃ (s : Slave float) out (executor : Executor float),
    serve cpus_run (initial cpus_info) = Some (s, out) ∧
    reachable s ∧
    executor_at "F1" "E1" s = Some executor ∧
    e_resources executor = 0.20000000000000004%float ∧
    launched_resources (launchedTasks executor) = 0.2%float ∧
    e_resources executor ≠ launched_resources (launchedTasks executor).
Proof.
  eexists _, _, _. split; [vm_compute; reflexivity|]. split.
  { eapply (reachable_serve cpus_run (initial cpus_info));
      [constructor | by repeat constructor | vm_compute; reflexivity]. }
  split; [vm_compute; reflexivity|]. split; [vm_compute; reflexivity|].
  split; [vm_compute; reflexivity|].
  intros Heq.
  match type of Heq with
  | ?a = ?b => assert (Heqb : PrimFloat.eqb a b = true) by (by rewrite Heq)
  end.
  vm_compute in Heqb. discriminate Heqb.
Qed.

(** C3 as stated fails: the update for [T1] is still unacknowledged when
    the only executor of [F1] exits, and executorExited drops the framework
    record with it. *)
Lemma framework_dropped_with_pending_update :
  reachable s_pending ∧
  (∃ framework : Framework Z,
     frameworks s_pending !! "F1" = Some framework ∧
     updates framework !! "T1" = Some (update_of "T1" TASK_RUNNING)) ∧
  (∃ s' out,
     handle (ExecutorExited "F1" "E1" 137) s_pending = Some (s', out) ∧
     frameworks s' !! "F1" = None).
Proof.
  split; [apply reachable_s_pending|]. split.
  - eexists. split; vm_compute; reflexivity.
  - eexists _, _. split; vm_compute; reflexivity.
Qed.

Lemma framework_retention_witness :
  ∃ framework : Framework Z,
    frameworks s_launched !! "F1" = Some framework ∧ executors framework ≠ ∅.
Proof.
  destruct (framework_retention s_launched reachable_s_launched) as [Hexec _].
  eexists. split; [vm_compute; reflexivity|]. apply (Hexec "F1").
  vm_compute. reflexivity.
Defined.

(** C4 as stated fails: the update for [T1] is accepted and never
    acknowledged, and nobody kills the framework.  The only executor of [F1]
    exits; executorExited drops the framework record and its [updates] with
    it, and the timer, when it fires, sends nothing. *)
Lemma update_lost_with_framework :
  reachable s_launched ∧
  (∃ out1, statusUpdate (update_of "T1" TASK_RUNNING) s_launched = Some (s_pending, out1)) ∧
  Forall (not_ack (R := Z) "F1" "T1") [ExecutorExited "F1" "E1" 137] ∧
  (∃ s2 out2,
     serve [ExecutorExited "F1" "E1" 137] s_pending = Some (s2, out2) ∧
     frameworks s2 !! "F1" = None ∧
     statusUpdateTimeout (update_of "T1" TASK_RUNNING) s2 = Some (s2, [])).
Proof.
  split; [apply reachable_s_launched|].
  split; [eexists; vm_compute; reflexivity|]. split; [by repeat constructor|].
  eexists _, _. split; [vm_compute; reflexivity|]. split; vm_compute; reflexivity.
Qed.

Lemma at_least_once_witness :
  ∃ s2 : Slave Z,
    statusUpdateTimeout (update_of "T1" TASK_RUNNING) s2 =
      Some (s2, [Send "master@b"
                   (StatusUpdateMessage (update_of "T1" TASK_RUNNING) true)]).
Proof.
  edestruct (at_least_once (update_of "T1" TASK_RUNNING) s_launched)
    with (evs := [NewMasterDetected (R := Z) "master@b"])
    as (_ & _ & _ & _ & Htimeout & _);
    [vm_compute; reflexivity | vm_compute; reflexivity | vm_compute; reflexivity
    | vm_compute; reflexivity | by repeat constructor | by vm_compute; eauto |].
  eexists. exact Htimeout.
Defined.

(** C1 as stated fails: [Tb] arrives before [Ta], yet the registration
    sends RunTask for [Ta] first.  The queue is a hashmap: both arrival orders
    leave the slave in the same state, so no traversal can follow both. *)
Lemma drain_not_in_arrival_order :
  ∃ s1 out1 out1' s2 args,
    serve [run "Tb" 1; run "Ta" 2] (initial info0) = Some (s1, out1) ∧
    serve [run "Ta" 2; run "Tb" 1] (initial info0) = Some (s1, out1') ∧
    registerExecutor "X" "F1" "E1" s1 =
      Some (s2, [ResourcesChanged "F1" "E1" 0%Z;
                 Send "X" (ExecutorRegisteredMessage args);
                 Send "X" (RunTaskMessage F1_info "F1" "sched" (task_of "Ta" 2));
                 Send "X" (RunTaskMessage F1_info "F1" "sched" (task_of "Tb" 1))]).
Proof.
  eexists _, _, _, _, _. split; [vm_compute; reflexivity|].
  split; vm_compute; reflexivity.
Qed.

Lemma queue_then_drain_witness :
  ∃ s1 out1 s2 out2,
    serve [run "Tb" 1; run "Ta" 2] (initial info0) = Some (s1, out1) ∧
    registerExecutor "X" "F1" "E1" s1 = Some (s2, out2) ∧
    length out2 = 4.
Proof.
  destruct (queue_then_drain "X" "F1" "E1" [arrival_of "Tb" 1; arrival_of "Ta" 2]
              (initial info0) F1_info)
    as (s1 & out1 & s2 & framework & executor & r & args & drained
        & Hserve & _ & _ & Hregister & _ & _ & Hperm & _).
  - constructor.
  - intros executor. vm_compute. by intros [=].
  - by right.
  - reflexivity.
  - by repeat constructor.
  - apply (bool_decide_unpack _). vm_compute. exact I.
  - exists s1, out1, s2. eexists. split; [exact Hserve|]. split; [exact Hregister|].
    simpl. rewrite length_fmap. by rewrite (Permutation_length Hperm).
Defined.

Lemma registerExecutor_notifies_before_flush_witness :
  ∃ s' out executor',
    registerExecutor "X" "F1" "E1" s_queued =
      Some (s', ResourcesChanged "F1" "E1" 0%Z :: out) ∧
    executor_at "F1" "E1" s' = Some executor' ∧
    e_resources executor' = 1%Z.
Proof.
  edestruct (registerExecutor_notifies_before_flush "X" "F1" "E1" s_queued)
    as (s' & out & executor' & Hregister & _ & Hat & _ & Hres);
    [apply reachable_s_queued | done | vm_compute; reflexivity | reflexivity |].
  exists s', out, executor'. split; [exact Hregister|]. split; [exact Hat|].
  rewrite Hres. vm_compute. reflexivity.
Defined.

(** ** Instances of the further properties *)

Lemma queued_or_launched_witness :
  ∃ executor : Executor Z,
    executor_at "F1" "E1" s_launched = Some executor ∧
    queuedTasks executor = ∅ ∧
    dom (queuedTasks executor) ## dom (launchedTasks executor).
Proof.
  eexists. split; [vm_compute; reflexivity|].
  edestruct (queued_or_launched s_launched "F1" "E1") as (_ & Hq & Hdisjoint);
    [apply reachable_s_launched | vm_compute; reflexivity |].
  split; [apply Hq; by vm_compute|exact Hdisjoint].
Defined.


Lemma killFramework_tears_down_witness :
  ∃ s', killFramework "F1" s_launched =
          Some (s', [Send "X" ShutdownMessage; KillExecutor "F1" "E1"]).
Proof.
  destruct (killFramework_tears_down "F1" s_launched reachable_s_launched) as [_ Hknown].
  eexists. erewrite Hknown by (vm_compute; reflexivity). vm_compute. reflexivity.
Defined.

Lemma executorExited_reports_witness :
  ∃ s', executorExited "F1" "E1" 9 s_launched =
          Some (s', [Send "" (ExitedExecutorMessage "" "F1" "E1" 9)]) ∧
        executor_at "F1" "E1" s' = None.
Proof.
  destruct (executorExited_reports "F1" "E1" 9 s_launched reachable_s_launched)
    as [_ Hknown].
  edestruct Hknown as (s' & Hexit & Hgone & _);
    [vm_compute; reflexivity | vm_compute; reflexivity |].
  exists s'. split; [exact Hexit|exact Hgone].
Defined.

Lemma terminate_tears_down_witness :
  terminate s_launched =
    (set_frameworks ∅ s_launched, [Send "X" ShutdownMessage; KillExecutor "F1" "E1"]).
Proof.
  rewrite (terminate_tears_down s_launched reachable_s_launched). vm_compute. reflexivity.
Defined.

Lemma runTask_registered_witness :
  runTask F1_info "F1" "other" (task_of "T1" 1) "work/1" s_launched = None ∧
  ∃ s', runTask F1_info "F1" "other" (task_of "T2" 2) "work/1" s_launched =
          Some (s', [Send "X" (RunTaskMessage F1_info "F1" "sched" (task_of "T2" 2));
                     ResourcesChanged "F1" "E1" 3%Z]).
Proof.
  split.
  - edestruct (runTask_registered F1_info "F1" "other" (task_of "T1" 1) "work/1" s_launched)
      as [Habort _]; [vm_compute; reflexivity | vm_compute; reflexivity | by vm_compute |].
    apply Habort. vm_compute. eauto.
  - edestruct (runTask_registered F1_info "F1" "other" (task_of "T2" 2) "work/1" s_launched)
      as [_ Hlaunch]; [vm_compute; reflexivity | vm_compute; reflexivity | by vm_compute |].
    destruct Hlaunch as (s' & executor' & Hrun & _); [vm_compute; reflexivity|].
    exists s'. exact Hrun.
Defined.

Lemma requeue_replaces_witness :
  ∃ s1 out1 s2 out2 (executor : Executor Z) x,
    serve [arrival_event "F1" (arrival_of "T1" 1); arrival_event "F1" arrival_again]
      (initial info0) = Some (s1, out1) ∧
    registerExecutor "X" "F1" "E1" s1 = Some (s2, out2) ∧
    executor_at "F1" "E1" s2 = Some executor ∧
    launchedTasks executor !! "T1" = Some x ∧
    t_name x = "again" ∧ t_resources x = 3%Z.
Proof.
  destruct (requeue_replaces "X" "F1" "E1" (arrival_of "T1" 1) arrival_again
              (initial info0) F1_info)
    as (s1 & out1 & s2 & framework & executor & r & args & drained & x
        & Hserve & _ & _ & Hregister & _ & _ & _ & Hat & Hx & Hname & Hres & _).
  - constructor.
  - intros executor. vm_compute. by intros [=].
  - reflexivity.
  - reflexivity.
  - reflexivity.
  - reflexivity.
  - exists s1, out1, s2. eexists. exists executor, x.
    split; [exact Hserve|]. split; [exact Hregister|]. split; [exact Hat|].
    split; [exact Hx|]. split; [exact Hname|exact Hres].
Defined.

Lemma kill_before_registration_witness :
  ∃ s1 out1 s2 out2 (executor2 : Executor Z),
    killTask "F1" "T1" 5 s_queued = Some (s1, out1) ∧
    registerExecutor "X" "F1" "E1" s1 = Some (s2, out2) ∧
    executor_at "F1" "E1" s2 = Some executor2 ∧
    launchedTasks executor2 !! "T1" = None.
Proof.
  edestruct (kill_before_registration "X" "F1" "E1" "T1" 5 s_queued)
    as (s1 & out1 & s2 & out2 & executor2 & Hkill & Hregister & _ & _ & Hat & _ & Hgone);
    [apply reachable_s_queued | vm_compute; reflexivity | vm_compute; reflexivity
    | vm_compute; reflexivity |].
  exists s1, out1, s2, out2, executor2.
  split; [exact Hkill|]. split; [exact Hregister|]. split; [exact Hat|exact Hgone].
Defined.

Lemma statusUpdate_dropped_witness :
  statusUpdate update_unknown s_launched =
    Some (set_stats (incr_invalidStatusUpdates (stats s_launched)) s_launched, []).
Proof.
  apply (proj1 (statusUpdate_dropped update_unknown s_launched)).
  intros framework k executor. vm_compute. by intros [=].
Defined.

Lemma statusUpdate_nonterminal_launched_witness :
  ∃ s', statusUpdate (update_of "T1" TASK_RUNNING) s_launched =
          Some (s', [Send "" (StatusUpdateMessage (update_of "T1" TASK_RUNNING) true);
                     DelayStatusUpdateTimeout (update_of "T1" TASK_RUNNING)]).
Proof.
  edestruct (statusUpdate_nonterminal_launched (update_of "T1" TASK_RUNNING) s_launched)
    as (s' & framework' & executor' & Hupdate & _);
    [vm_compute; reflexivity | vm_compute; reflexivity | vm_compute; reflexivity
    | reflexivity |].
  exists s'. exact Hupdate.
Defined.

Lemma counters_account_witness :
  ∃ s' out,
    serve updates_run (initial info0) = Some (s', out) ∧
    ((validStatusUpdates (stats s') + invalidStatusUpdates (stats s')) mod 2 ^ 64 = 2)%Z.
Proof.
  destruct (serve updates_run (initial info0)) as [[s' out]|] eqn:Hserve;
    [|by vm_compute in Hserve].
  exists s', out. split; [done|].
  rewrite (proj1 (counters_account updates_run (initial info0) s' out Hserve)).
  reflexivity.
Defined.

Lemma timers_armed_once_witness :
  ∃ s' out,
    serve updates_run (initial info0) = Some (s', out) ∧
    (∀ u, DelayStatusUpdateTimeout u ∈ out → StatusUpdateEvent u ∈ updates_run).
Proof.
  destruct (serve updates_run (initial info0)) as [[s' out]|] eqn:Hserve;
    [|by vm_compute in Hserve].
  exists s', out. split; [done|].
  exact (proj2 (timers_armed_once updates_run (initial info0) s' out Hserve)).
Defined.

Lemma acknowledged_not_resent_witness :
  ∃ s1 s2 out2,
    statusUpdateAcknowledgement "S7" "F1" "T1" s_pending = Some (s1, []) ∧
    serve [StatusUpdateTimeout (update_of "T1" TASK_RUNNING)] s1 = Some (s2, out2) ∧
    unpending "F1" "T1" s2.
Proof.
  edestruct (acknowledged_not_resent "S7" "F1" "T1"
               [StatusUpdateTimeout (update_of "T1" TASK_RUNNING)] s_pending)
    as (_ & Hunpending & _);
    [vm_compute; reflexivity | vm_compute; reflexivity | by repeat constructor |].
  eexists _, _, _. split; [vm_compute; reflexivity|]. split; [vm_compute; reflexivity|].
  exact Hunpending.
Defined.

Lemma stale_timeout_resends_witness :
  ∃ s' out,
    statusUpdate (update_of "T1" TASK_RUNNING) s_launched = Some (s', out) ∧
    statusUpdateTimeout (update_of "T1" TASK_STARTING) s' =
      Some (s', [Send (s_master s')
                   (StatusUpdateMessage (update_of "T1" TASK_STARTING) true)]).
Proof.
  edestruct (stale_timeout_resends (update_of "T1" TASK_STARTING)
               (update_of "T1" TASK_RUNNING) s_launched)
    as (s' & out & framework' & Hupdate & _ & _ & Htimeout);
    [vm_compute; reflexivity | vm_compute; reflexivity | reflexivity | reflexivity |].
  exists s', out. split; [exact Hupdate|exact Htimeout].
Defined.

Lemma updateFramework_redirects_witness :
  ∃ s',
    updateFramework "F1" "sched2" s_queued = Some (s', []) ∧
    executorMessage "S7" "F1" "E1" "payload" s' =
      Some (set_stats (incr_validFrameworkMessages (stats s')) s',
            [Send "sched2" (ExecutorToFrameworkMessage "S7" "F1" "E1" "payload")]).
Proof.
  edestruct (proj2 (updateFramework_redirects "F1" "sched2" s_queued))
    as (s' & Hupdate & _ & _ & _ & Hforward & _); [vm_compute; reflexivity|].
  exists s'. split; [exact Hupdate|apply Hforward].
Defined.




Lemma identity_stable_witness :
  ∃ s' out,
    serve registration_run (initial info0) = Some (s', out) ∧
    s_info s' = info0 ∧ s_id s' = "S7" ∧ s_master s' = "master@a".
Proof.
  destruct (serve registration_run (initial info0)) as [[s' out]|] eqn:Hserve;
    [|by vm_compute in Hserve].
  exists s', out. split; [done|].
  by destruct (identity_stable registration_run (initial info0) s' out Hserve)
    as (-> & -> & ->).
Defined.

Lemma killFramework_forgets_witness :
  ∃ s' out,
    killFramework "F1" s_launched = Some (s', out) ∧
    registerExecutor "X" "F1" "E1" s' = Some (s', [Send "X" ShutdownMessage]).
Proof.
  destruct (killFramework_forgets "F1" s_launched reachable_s_launched)
    as (s' & out & Hkill & _ & Hregister & _).
  exists s', out. split; [exact Hkill|apply Hregister].
Defined.
